(** * Propulsion test bench: sequencing, acquisition and logging

    A shallow embedding of the static-fire controller sketch (the
    [setup]/[loop] program with its helpers [initializeHX711],
    [initializeSD], [createNewSDfile], [hxCalibrate], [startCountdown],
    [countDown], [igniteMotor], [acquireData], [checkBurnComplete] and
    [endBurn]) together with the properties its design document states
    about it.

    Conventions of the embedding:
    - the sketch's globals and its two function-local [static] variables
      are the fields of one record, [State], threaded through every
      function in the order the statements run; an assignment is a
      [set_...] and a conditional assignment [if (c) x = e;] is written
      [set_x (if c then e else x s)];
    - [unsigned long] values are integers in [0, 2^32) and every
      subtraction or increment on them is written with [wrap]; [int]
      values are integers, with the overflow of the file-name counter made
      explicit;
    - [float] is a parameter of the development (class [Platform]); the
      target's IEEE-754 single precision is the instance [avr_binary32],
      exact rational arithmetic is the instance [exact_arith];
    - the outside world (operator switch, serial console, HX711 load cell,
      SD card) enters through explicit input records, one per pass of
      [loop]; the values returned by the library calls are inputs, the
      libraries themselves are not modelled;
    - time is the field [clock], a count of milliseconds that never
      wraps; it is advanced by [delay] and by the blocking load-cell
      calls only (serial and card traffic take no time); [millis] is
      [clock] reduced modulo 2^32;
    - of the serial output only the lines of fixed text are kept (without
      their leading line breaks); lines that print measured values are
      left out;
    - a file is the list of lines printed to it; the fixed decimal
      rendering of the values and the buffering between [print] and
      [flush] are not modelled. *)

From Stdlib Require Import ZArith QArith Qcanon Lia SpecFloat Sorted.
From stdpp Require Import base tactics numbers option list strings gmap pretty.

Local Open Scope Z_scope.

(** ** The target platform: float arithmetic and the range of [int] *)

Class Platform (F : Type) : Type := {
  fadd : F -> F -> F;
  fsub : F -> F -> F;
  fmul : F -> F -> F;
  fdiv : F -> F -> F;
  fltb : F -> F -> bool;            (* x < y *)
  fleb : F -> F -> bool;            (* x <= y *)
  of_ulong : Z -> F;                (* conversion of an integer to float *)
  INT_MAX : Z;                      (* largest value of a signed int *)
  INT_MAX_min : 32767 <= INT_MAX;   (* 16-bit int on AVR, wider elsewhere *)
  (* an elapsed time of zero milliseconds gives a dt that the guard
     [dt <= 0] of acquireData rejects *)
  zero_dt_rejected :
    fleb (fdiv (of_ulong 0) (of_ulong 1000)) (of_ulong 0) = true
}.

(** IEEE-754 binary32 (24-bit significand, exponent bound 128), rounding to
    nearest even, as specified by the standard library's [SpecFloat]. *)
Definition binary32 : Type := spec_float.

Definition b32_of_Z (z : Z) : binary32 := binary_normalize 24 128 z 0 false.

#[export] Instance avr_binary32 : Platform binary32 := {|
  fadd := SFadd 24 128;
  fsub := SFsub 24 128;
  fmul := SFmul 24 128;
  fdiv := SFdiv 24 128;
  fltb := SFltb;
  fleb := SFleb;
  of_ulong := b32_of_Z;
  INT_MAX := 32767;
  INT_MAX_min := Z.le_refl 32767;
  zero_dt_rejected := eq_refl
|}.

(** Exact arithmetic on canonical rationals: what the float operations
    compute when nothing is rounded.  [Qc_of_Z] is stdpp's embedding of the
    integers. *)
Definition Qc_leb (x y : Qc) : bool := Qle_bool x y.
Definition Qc_ltb (x y : Qc) : bool := negb (Qle_bool y x).

#[export] Instance exact_arith : Platform Qc := {|
  fadd := Qcplus;
  fsub := Qcminus;
  fmul := Qcmult;
  fdiv := Qcdiv;
  fltb := Qc_ltb;
  fleb := Qc_leb;
  of_ulong := Qc_of_Z;
  INT_MAX := 32767;
  INT_MAX_min := Z.le_refl 32767;
  zero_dt_rejected := eq_refl
|}.

(** ** Data *)

Inductive level : Type := LOW | HIGH.

Definition is_low (v : level) : bool :=
  match v with LOW => true | HIGH => false end.

(** [unsigned long] arithmetic wraps modulo 2^32. *)
Definition wrap (z : Z) : Z := z mod 2 ^ 32.

Section Sketch.
Context {F : Type} `{Platform F}.

(** Float literals of the sketch.  [0.5], [60.0f] and [1000.0f] are exact;
    [9.80665f] is the correctly rounded quotient of two exactly
    representable integers, hence the nearest float to 9.80665. *)
Definition f0 : F := of_ulong 0.
Definition f1000 : F := of_ulong 1000.
Definition f60 : F := of_ulong 60.
Definition THRUST_THRESHOLD : F := fdiv (of_ulong 1) (of_ulong 2).
Definition STANDARD_GRAVITY : F := fdiv (of_ulong 980665) (of_ulong 100000).
Definition LOW_THRUST_DURATION : Z := 3000.

(** One CSV data row as handed to the card: the six printed values (their
    decimal rendering with 3, 6, 4, 3 and 3 places is the Print library's
    business and is not modelled). *)
Record Row : Type := mkRow {
  row_elapsed : Z;
  row_thrust : F;
  row_impulse : F;
  row_avg : F;
  row_peak : F;
  row_burntime : F
}.

Inductive line : Type :=
  | HeaderLine            (* the fixed column-title row *)
  | DataLine (r : Row).

(** The sketch's globals, its two static locals and the part of the
    environment the sketch acts on. *)
Record State : Type := mkState {
  filename : string;  (* name of this power cycle's log file *)
  known_weight : F;  (* reference mass in kg *)
  burnStartTime : Z;
  burnEndTime : Z;
  thrust : F;  (* N *)
  impulse : F;  (* N-s *)
  peakthrust : F;  (* N *)
  avgthrust : F;  (* N *)
  lastsampletime : Z;
  burntime : F;  (* s *)
  previoustime : Z;
  countdownTime : Z;
  countdownstate : bool;
  hx_ini : bool;
  testInProgress : bool;
  samplecount : Z;
  sdOpenForWrite : bool;
  lastSdFlush : Z;
  lastPrint : Z;  (* static local of acquireData *)
  lowThrustStart : Z;  (* static local of checkBurnComplete *)
  clock : Z;  (* milliseconds since power-on, unbounded *)
  e_match : level;  (* level driven on E_MATCH_PIN *)
  pin_log : list (Z * level);  (* every write to E_MATCH_PIN, oldest first *)
  hx_scale : F;  (* scale factor held by the HX711 driver *)
  console : list string;  (* Serial lines of fixed text, oldest first *)
  card : gmap string (list line)  (* files on the SD card *)
}.

Definition set_filename (v : string) (s : State) : State :=
  mkState v (known_weight s) (burnStartTime s) (burnEndTime s) (thrust s)
    (impulse s) (peakthrust s) (avgthrust s) (lastsampletime s) (burntime s)
    (previoustime s) (countdownTime s) (countdownstate s) (hx_ini s)
    (testInProgress s) (samplecount s) (sdOpenForWrite s) (lastSdFlush s)
    (lastPrint s) (lowThrustStart s) (clock s) (e_match s) (pin_log s)
    (hx_scale s) (console s) (card s).
Definition set_known_weight (v : F) (s : State) : State :=
  mkState (filename s) v (burnStartTime s) (burnEndTime s) (thrust s)
    (impulse s) (peakthrust s) (avgthrust s) (lastsampletime s) (burntime s)
    (previoustime s) (countdownTime s) (countdownstate s) (hx_ini s)
    (testInProgress s) (samplecount s) (sdOpenForWrite s) (lastSdFlush s)
    (lastPrint s) (lowThrustStart s) (clock s) (e_match s) (pin_log s)
    (hx_scale s) (console s) (card s).
Definition set_burnStartTime (v : Z) (s : State) : State :=
  mkState (filename s) (known_weight s) v (burnEndTime s) (thrust s)
    (impulse s) (peakthrust s) (avgthrust s) (lastsampletime s) (burntime s)
    (previoustime s) (countdownTime s) (countdownstate s) (hx_ini s)
    (testInProgress s) (samplecount s) (sdOpenForWrite s) (lastSdFlush s)
    (lastPrint s) (lowThrustStart s) (clock s) (e_match s) (pin_log s)
    (hx_scale s) (console s) (card s).
Definition set_burnEndTime (v : Z) (s : State) : State :=
  mkState (filename s) (known_weight s) (burnStartTime s) v (thrust s)
    (impulse s) (peakthrust s) (avgthrust s) (lastsampletime s) (burntime s)
    (previoustime s) (countdownTime s) (countdownstate s) (hx_ini s)
    (testInProgress s) (samplecount s) (sdOpenForWrite s) (lastSdFlush s)
    (lastPrint s) (lowThrustStart s) (clock s) (e_match s) (pin_log s)
    (hx_scale s) (console s) (card s).
Definition set_thrust (v : F) (s : State) : State :=
  mkState (filename s) (known_weight s) (burnStartTime s) (burnEndTime s) v
    (impulse s) (peakthrust s) (avgthrust s) (lastsampletime s) (burntime s)
    (previoustime s) (countdownTime s) (countdownstate s) (hx_ini s)
    (testInProgress s) (samplecount s) (sdOpenForWrite s) (lastSdFlush s)
    (lastPrint s) (lowThrustStart s) (clock s) (e_match s) (pin_log s)
    (hx_scale s) (console s) (card s).
Definition set_impulse (v : F) (s : State) : State :=
  mkState (filename s) (known_weight s) (burnStartTime s) (burnEndTime s)
    (thrust s) v (peakthrust s) (avgthrust s) (lastsampletime s) (burntime s)
    (previoustime s) (countdownTime s) (countdownstate s) (hx_ini s)
    (testInProgress s) (samplecount s) (sdOpenForWrite s) (lastSdFlush s)
    (lastPrint s) (lowThrustStart s) (clock s) (e_match s) (pin_log s)
    (hx_scale s) (console s) (card s).
Definition set_peakthrust (v : F) (s : State) : State :=
  mkState (filename s) (known_weight s) (burnStartTime s) (burnEndTime s)
    (thrust s) (impulse s) v (avgthrust s) (lastsampletime s) (burntime s)
    (previoustime s) (countdownTime s) (countdownstate s) (hx_ini s)
    (testInProgress s) (samplecount s) (sdOpenForWrite s) (lastSdFlush s)
    (lastPrint s) (lowThrustStart s) (clock s) (e_match s) (pin_log s)
    (hx_scale s) (console s) (card s).
Definition set_avgthrust (v : F) (s : State) : State :=
  mkState (filename s) (known_weight s) (burnStartTime s) (burnEndTime s)
    (thrust s) (impulse s) (peakthrust s) v (lastsampletime s) (burntime s)
    (previoustime s) (countdownTime s) (countdownstate s) (hx_ini s)
    (testInProgress s) (samplecount s) (sdOpenForWrite s) (lastSdFlush s)
    (lastPrint s) (lowThrustStart s) (clock s) (e_match s) (pin_log s)
    (hx_scale s) (console s) (card s).
Definition set_lastsampletime (v : Z) (s : State) : State :=
  mkState (filename s) (known_weight s) (burnStartTime s) (burnEndTime s)
    (thrust s) (impulse s) (peakthrust s) (avgthrust s) v (burntime s)
    (previoustime s) (countdownTime s) (countdownstate s) (hx_ini s)
    (testInProgress s) (samplecount s) (sdOpenForWrite s) (lastSdFlush s)
    (lastPrint s) (lowThrustStart s) (clock s) (e_match s) (pin_log s)
    (hx_scale s) (console s) (card s).
Definition set_burntime (v : F) (s : State) : State :=
  mkState (filename s) (known_weight s) (burnStartTime s) (burnEndTime s)
    (thrust s) (impulse s) (peakthrust s) (avgthrust s) (lastsampletime s) v
    (previoustime s) (countdownTime s) (countdownstate s) (hx_ini s)
    (testInProgress s) (samplecount s) (sdOpenForWrite s) (lastSdFlush s)
    (lastPrint s) (lowThrustStart s) (clock s) (e_match s) (pin_log s)
    (hx_scale s) (console s) (card s).
Definition set_previoustime (v : Z) (s : State) : State :=
  mkState (filename s) (known_weight s) (burnStartTime s) (burnEndTime s)
    (thrust s) (impulse s) (peakthrust s) (avgthrust s) (lastsampletime s)
    (burntime s) v (countdownTime s) (countdownstate s) (hx_ini s)
    (testInProgress s) (samplecount s) (sdOpenForWrite s) (lastSdFlush s)
    (lastPrint s) (lowThrustStart s) (clock s) (e_match s) (pin_log s)
    (hx_scale s) (console s) (card s).
Definition set_countdownTime (v : Z) (s : State) : State :=
  mkState (filename s) (known_weight s) (burnStartTime s) (burnEndTime s)
    (thrust s) (impulse s) (peakthrust s) (avgthrust s) (lastsampletime s)
    (burntime s) (previoustime s) v (countdownstate s) (hx_ini s)
    (testInProgress s) (samplecount s) (sdOpenForWrite s) (lastSdFlush s)
    (lastPrint s) (lowThrustStart s) (clock s) (e_match s) (pin_log s)
    (hx_scale s) (console s) (card s).
Definition set_countdownstate (v : bool) (s : State) : State :=
  mkState (filename s) (known_weight s) (burnStartTime s) (burnEndTime s)
    (thrust s) (impulse s) (peakthrust s) (avgthrust s) (lastsampletime s)
    (burntime s) (previoustime s) (countdownTime s) v (hx_ini s)
    (testInProgress s) (samplecount s) (sdOpenForWrite s) (lastSdFlush s)
    (lastPrint s) (lowThrustStart s) (clock s) (e_match s) (pin_log s)
    (hx_scale s) (console s) (card s).
Definition set_hx_ini (v : bool) (s : State) : State :=
  mkState (filename s) (known_weight s) (burnStartTime s) (burnEndTime s)
    (thrust s) (impulse s) (peakthrust s) (avgthrust s) (lastsampletime s)
    (burntime s) (previoustime s) (countdownTime s) (countdownstate s) v
    (testInProgress s) (samplecount s) (sdOpenForWrite s) (lastSdFlush s)
    (lastPrint s) (lowThrustStart s) (clock s) (e_match s) (pin_log s)
    (hx_scale s) (console s) (card s).
Definition set_testInProgress (v : bool) (s : State) : State :=
  mkState (filename s) (known_weight s) (burnStartTime s) (burnEndTime s)
    (thrust s) (impulse s) (peakthrust s) (avgthrust s) (lastsampletime s)
    (burntime s) (previoustime s) (countdownTime s) (countdownstate s)
    (hx_ini s) v (samplecount s) (sdOpenForWrite s) (lastSdFlush s)
    (lastPrint s) (lowThrustStart s) (clock s) (e_match s) (pin_log s)
    (hx_scale s) (console s) (card s).
Definition set_samplecount (v : Z) (s : State) : State :=
  mkState (filename s) (known_weight s) (burnStartTime s) (burnEndTime s)
    (thrust s) (impulse s) (peakthrust s) (avgthrust s) (lastsampletime s)
    (burntime s) (previoustime s) (countdownTime s) (countdownstate s)
    (hx_ini s) (testInProgress s) v (sdOpenForWrite s) (lastSdFlush s)
    (lastPrint s) (lowThrustStart s) (clock s) (e_match s) (pin_log s)
    (hx_scale s) (console s) (card s).
Definition set_sdOpenForWrite (v : bool) (s : State) : State :=
  mkState (filename s) (known_weight s) (burnStartTime s) (burnEndTime s)
    (thrust s) (impulse s) (peakthrust s) (avgthrust s) (lastsampletime s)
    (burntime s) (previoustime s) (countdownTime s) (countdownstate s)
    (hx_ini s) (testInProgress s) (samplecount s) v (lastSdFlush s)
    (lastPrint s) (lowThrustStart s) (clock s) (e_match s) (pin_log s)
    (hx_scale s) (console s) (card s).
Definition set_lastSdFlush (v : Z) (s : State) : State :=
  mkState (filename s) (known_weight s) (burnStartTime s) (burnEndTime s)
    (thrust s) (impulse s) (peakthrust s) (avgthrust s) (lastsampletime s)
    (burntime s) (previoustime s) (countdownTime s) (countdownstate s)
    (hx_ini s) (testInProgress s) (samplecount s) (sdOpenForWrite s) v
    (lastPrint s) (lowThrustStart s) (clock s) (e_match s) (pin_log s)
    (hx_scale s) (console s) (card s).
Definition set_lastPrint (v : Z) (s : State) : State :=
  mkState (filename s) (known_weight s) (burnStartTime s) (burnEndTime s)
    (thrust s) (impulse s) (peakthrust s) (avgthrust s) (lastsampletime s)
    (burntime s) (previoustime s) (countdownTime s) (countdownstate s)
    (hx_ini s) (testInProgress s) (samplecount s) (sdOpenForWrite s)
    (lastSdFlush s) v (lowThrustStart s) (clock s) (e_match s) (pin_log s)
    (hx_scale s) (console s) (card s).
Definition set_lowThrustStart (v : Z) (s : State) : State :=
  mkState (filename s) (known_weight s) (burnStartTime s) (burnEndTime s)
    (thrust s) (impulse s) (peakthrust s) (avgthrust s) (lastsampletime s)
    (burntime s) (previoustime s) (countdownTime s) (countdownstate s)
    (hx_ini s) (testInProgress s) (samplecount s) (sdOpenForWrite s)
    (lastSdFlush s) (lastPrint s) v (clock s) (e_match s) (pin_log s)
    (hx_scale s) (console s) (card s).
Definition set_clock (v : Z) (s : State) : State :=
  mkState (filename s) (known_weight s) (burnStartTime s) (burnEndTime s)
    (thrust s) (impulse s) (peakthrust s) (avgthrust s) (lastsampletime s)
    (burntime s) (previoustime s) (countdownTime s) (countdownstate s)
    (hx_ini s) (testInProgress s) (samplecount s) (sdOpenForWrite s)
    (lastSdFlush s) (lastPrint s) (lowThrustStart s) v (e_match s)
    (pin_log s) (hx_scale s) (console s) (card s).
Definition set_e_match (v : level) (s : State) : State :=
  mkState (filename s) (known_weight s) (burnStartTime s) (burnEndTime s)
    (thrust s) (impulse s) (peakthrust s) (avgthrust s) (lastsampletime s)
    (burntime s) (previoustime s) (countdownTime s) (countdownstate s)
    (hx_ini s) (testInProgress s) (samplecount s) (sdOpenForWrite s)
    (lastSdFlush s) (lastPrint s) (lowThrustStart s) (clock s) v (pin_log s)
    (hx_scale s) (console s) (card s).
Definition set_pin_log (v : list (Z * level)) (s : State) : State :=
  mkState (filename s) (known_weight s) (burnStartTime s) (burnEndTime s)
    (thrust s) (impulse s) (peakthrust s) (avgthrust s) (lastsampletime s)
    (burntime s) (previoustime s) (countdownTime s) (countdownstate s)
    (hx_ini s) (testInProgress s) (samplecount s) (sdOpenForWrite s)
    (lastSdFlush s) (lastPrint s) (lowThrustStart s) (clock s) (e_match s) v
    (hx_scale s) (console s) (card s).
Definition set_hx_scale (v : F) (s : State) : State :=
  mkState (filename s) (known_weight s) (burnStartTime s) (burnEndTime s)
    (thrust s) (impulse s) (peakthrust s) (avgthrust s) (lastsampletime s)
    (burntime s) (previoustime s) (countdownTime s) (countdownstate s)
    (hx_ini s) (testInProgress s) (samplecount s) (sdOpenForWrite s)
    (lastSdFlush s) (lastPrint s) (lowThrustStart s) (clock s) (e_match s)
    (pin_log s) v (console s) (card s).
Definition set_console (v : list string) (s : State) : State :=
  mkState (filename s) (known_weight s) (burnStartTime s) (burnEndTime s)
    (thrust s) (impulse s) (peakthrust s) (avgthrust s) (lastsampletime s)
    (burntime s) (previoustime s) (countdownTime s) (countdownstate s)
    (hx_ini s) (testInProgress s) (samplecount s) (sdOpenForWrite s)
    (lastSdFlush s) (lastPrint s) (lowThrustStart s) (clock s) (e_match s)
    (pin_log s) (hx_scale s) v (card s).
Definition set_card (v : gmap string (list line)) (s : State) : State :=
  mkState (filename s) (known_weight s) (burnStartTime s) (burnEndTime s)
    (thrust s) (impulse s) (peakthrust s) (avgthrust s) (lastsampletime s)
    (burntime s) (previoustime s) (countdownTime s) (countdownstate s)
    (hx_ini s) (testInProgress s) (samplecount s) (sdOpenForWrite s)
    (lastSdFlush s) (lastPrint s) (lowThrustStart s) (clock s) (e_match s)
    (pin_log s) (hx_scale s) (console s) v.

(** ** Inputs from the outside world *)

(** A blocking sensor read: the value returned and the time it took. *)
Record Reading : Type := mkReading {
  value : F;
  took_ms : N
}.

(** What the operator and the load cell supply during [hxCalibrate]. *)
Record CalInput : Type := mkCalInput {
  enter_polls : nat;        (* 10 ms polls until ENTER arrives *)
  tare_ms : N;              (* duration of loadcell.tare(20) *)
  weight_polls : nat;       (* 10 ms polls until the mass line arrives *)
  entered_weight : F;       (* s.toFloat() of the trimmed line *)
  raw : Reading;            (* loadcell.get_units(20) before set_scale *)
  measured : Reading        (* loadcell.get_units(20) after set_scale *)
}.

(** What one pass of [loop] reads. *)
Record LoopInput : Type := mkLoopInput {
  sw_first : level;         (* digitalRead(CALIBRATION_SWITCH) *)
  sw_second : level;        (* the re-read after the 50 ms debounce *)
  cal : CalInput;
  sd_open_ok : bool;        (* does SD.open succeed in igniteMotor *)
  mass : Reading            (* loadcell.get_units(1) in acquireData *)
}.

(** What [setup] meets at power-on. *)
Record BootInput : Type := mkBootInput {
  serial_polls : nat;       (* 1 ms polls until Serial is up *)
  hx_not_ready : nat;       (* is_ready() = false this many times *)
  sd_begin_ok : bool;       (* SD.begin(SD_CS) *)
  sd_create_ok : bool;      (* SD.open in createNewSDfile *)
  card_files : gmap string (list line)
}.

(** ** Primitives *)

Definition millis (s : State) : Z := wrap (clock s).

Definition delay (ms : Z) (s : State) : State := set_clock (clock s + ms) s.

(** Time spent inside a blocking library call. *)
Definition busy (ms : N) (s : State) : State :=
  set_clock (clock s + Z.of_N ms) s.

(** [while (!available) delay(d);] with the number of polls given. *)
Definition poll (d : Z) (n : nat) (s : State) : State := Nat.iter n (delay d) s.

Definition println (msg : string) (s : State) : State :=
  set_console (console s ++ [msg]) s.

(** digitalWrite(E_MATCH_PIN, v) *)
Definition digitalWrite (v : level) (s : State) : State :=
  set_pin_log (pin_log s ++ [(clock s, v)]) (set_e_match v s).

Definition SD_exists (name : string) (files : gmap string (list line)) : bool :=
  match files !! name with Some _ => true | None => false end.

Definition file_content (name : string) (files : gmap string (list line))
  : list line := default [] (files !! name).

(** Appending through a handle opened with FILE_WRITE. *)
Definition append_line (name : string) (l : line)
    (files : gmap string (list line)) : gmap string (list line) :=
  <[name := file_content name files ++ [l]]> files.

(** SD.open(name, FILE_WRITE) that succeeds: the file exists afterwards. *)
Definition open_file (name : string) (files : gmap string (list line))
  : gmap string (list line) :=
  <[name := file_content name files]> files.

(** ** createNewSDfile *)

(** String(i) + "_PLT.csv" *)
Definition plt_name (i : Z) : string := pretty i +:+ "_PLT.csv".

(** The do-while probe.  [room] is the distance from [i] to [INT_MAX]: with
    no room left, the [i++] that follows the assignment overflows a signed
    [int], which is undefined, and the result is [None]. *)
Fixpoint probe (room : nat) (i : Z) (files : gmap string (list line))
  : option string :=
  match room with
  | O => None
  | S room' =>
      let name := plt_name i in
      let i := i + 1 in
      if SD_exists name files then probe room' i files else Some name
  end.

(** Outcome of [setup]. *)
Inductive Boot : Type :=
  | Ready (s : State)      (* setup returned *)
  | Hung (s : State)       (* stuck in a while (1) loop for ever *)
  | Undefined.             (* signed overflow in the filename probe *)

Definition createNewSDfile (create_ok : bool) (s : State) : Boot :=
  match probe (Z.to_nat INT_MAX) 0 (card s) with
  | None => Undefined
  | Some name =>
      let s := set_filename name s in
      if create_ok then
        let s := set_card (append_line (filename s) HeaderLine (card s)) s in
        Ready (println ("Data file created: " +:+ filename s) s)
      else
        Ready (println "Error: File couldn't be created" s)
  end.

(** ** setup *)

(** The body of [while (!loadcell.is_ready())]. *)
Fixpoint wait_ready (not_ready : nat) (startTime : Z) (s : State) : Boot :=
  match not_ready with
  | O => Ready s
  | S n =>
      let s := println "HX711 connecting..." s in
      let s := delay 500 s in
      if 5000 <? wrap (millis s - startTime) then
        Hung (println "HX711 failed to initialize after multiple attempts." s)
      else wait_ready n startTime s
  end.

Definition initializeHX711 (not_ready : nat) (s : State) : Boot :=
  let startTime := millis s in
  let s := delay 500 s in
  match wait_ready not_ready startTime s with
  | Ready s => Ready (set_hx_ini true (println "HX711 initialized" s))
  | other => other
  end.

Definition initializeSD (begin_ok create_ok : bool) (s : State) : Boot :=
  if negb begin_ok then
    Hung (println "SD card initialization FAILED" s)
  else
    createNewSDfile create_ok (println "SD card initialized" s).

(** The globals as their initialisers leave them. *)
Definition power_on (files : gmap string (list line)) : State :=
  {| filename := EmptyString; known_weight := f0;
     burnStartTime := 0; burnEndTime := 0;
     thrust := f0; impulse := f0; peakthrust := f0; avgthrust := f0;
     lastsampletime := 0; burntime := f0;
     previoustime := 0; countdownTime := 15; countdownstate := false;
     hx_ini := false; testInProgress := false; samplecount := 0;
     sdOpenForWrite := false; lastSdFlush := 0;
     lastPrint := 0; lowThrustStart := 0;
     clock := 0; e_match := LOW; pin_log := [];
     hx_scale := of_ulong 1; console := []; card := files |}.

Definition setup (b : BootInput) : Boot :=
  let s := power_on (card_files b) in
  let s := poll 1 (serial_polls b) s in
  let s := println "=== Rocket Propulsion Test Bench ===" s in
  let s :=
    println
      "E-match: One end connected directly to +12V, other end MOSFET-switched (D9)."
      s in
  let s := digitalWrite LOW s in
  match initializeHX711 (hx_not_ready b) s with
  | Ready s =>
      match initializeSD (sd_begin_ok b) (sd_create_ok b) s with
      | Ready s =>
          let s := println "System Ready. E-match circuit SAFE (MOSFET OFF)" s in
          Ready (println "Press calibration switch to start test sequence." s)
      | other => other
      end
  | other => other
  end.

(** ** hxCalibrate and the countdown *)

Definition hxCalibrate (c : CalInput) (s : State) : State :=
  if negb (hx_ini s) then
    println "HX711 not initialized. Aborting calibration." s
  else
    let s := println "--- HX711 Calibration ---" s in
    let s :=
      println
        "Remove all weight from the loadcell and press ENTER when ready..." s in
    let s := poll 10 (enter_polls c) s in
    let s := println "Taring (zeroing) load cell..." s in
    let s := busy (tare_ms c) s in
    let s := delay 200 s in
    let s := println "Tare completed." s in
    let s :=
      println
        "Place known weight on the load cell and type its mass in kg (e.g., 0.5):"
        s in
    let s := poll 10 (weight_polls c) s in
    let s := set_known_weight (entered_weight c) s in
    if fleb (known_weight s) f0 then
      println "Invalid weight entered. Calibration aborted." s
    else
      let s := println "Measuring raw value... (be still)" s in
      let s := delay 500 s in
      let s := busy (took_ms (raw c)) s in
      let rawReading := value (raw c) in
      let calFactor := fdiv rawReading (known_weight s) in
      let s := set_hx_scale calFactor s in
      let s := delay 200 s in
      let s := busy (took_ms (measured c)) s in
      println "---------------------------" s.

Definition startCountdown (s : State) : State :=
  let s := set_previoustime (millis s) s in
  let s := set_countdownstate true s in
  let s := set_countdownTime 15 s in
  println "Starting countdown sequence..." s.

Definition igniteMotor (open_ok : bool) (s : State) : State :=
  let s := println "IGNITION!" s in
  let s := digitalWrite HIGH s in
  let s := delay 2000 s in
  let s := digitalWrite LOW s in
  let s := set_testInProgress true s in
  let s := set_burnStartTime (millis s) s in
  let s := set_lastsampletime (burnStartTime s) s in
  let s := set_samplecount 0 s in
  let s := set_impulse f0 s in
  let s := set_peakthrust f0 s in
  let s := set_avgthrust f0 s in
  let s :=
    if open_ok then
      set_sdOpenForWrite true (set_card (open_file (filename s) (card s)) s)
    else
      let s :=
        println "Warning: Unable to open SD file for writing. Logging disabled." s in
      set_sdOpenForWrite false s in
  println "Data acquisition started..." s.

Definition countDown (open_ok : bool) (s : State) : State :=
  if countdownstate s then
    if 1000 <=? wrap (millis s - previoustime s) then
      let s := set_previoustime (millis s) s in
      let s := set_countdownTime (countdownTime s - 1) s in
      let s := println ("T-" +:+ pretty (countdownTime s) +:+ " s") s in
      if countdownTime s <=? 0 then
        let s := set_countdownstate false s in
        igniteMotor open_ok s
      else s
    else s
  else s.

(** ** acquireData, checkBurnComplete, endBurn *)

(** The part of [acquireData] below its [dt] guard: one sample is read,
    accumulated and logged.  [now] and [dt] are the locals computed above
    the guard. *)
Definition take_sample (m : Reading) (now : Z) (dt : F) (s : State) : State :=
  let s := busy (took_ms m) s in
  let mass_kg := value m in
  let mass_kg := if fltb mass_kg f0 then f0 else mass_kg in
  let s := set_thrust (fmul mass_kg STANDARD_GRAVITY) s in
  let s := set_impulse (fadd (impulse s) (fmul (thrust s) dt)) s in
  let s :=
    set_peakthrust
      (if fltb (peakthrust s) (thrust s) then thrust s else peakthrust s) s in
  let s := set_samplecount (wrap (samplecount s + 1)) s in
  let s :=
    set_avgthrust
      (fadd (avgthrust s)
         (fdiv (fsub (thrust s) (avgthrust s)) (of_ulong (samplecount s))))
      s in
  let s := set_lastsampletime now s in
  let s :=
    set_burntime (fdiv (of_ulong (wrap (now - burnStartTime s))) f1000) s in
  (* if (sdOpenForWrite) { print the row; flush at most every 500 ms } *)
  let r :=
    {| row_elapsed := wrap (now - burnStartTime s);
       row_thrust := thrust s; row_impulse := impulse s;
       row_avg := avgthrust s; row_peak := peakthrust s;
       row_burntime := burntime s |} in
  let s :=
    set_card
      (if sdOpenForWrite s then
         append_line (filename s) (DataLine r) (card s)
       else card s) s in
  let s :=
    set_lastSdFlush
      (if sdOpenForWrite s && (500 <? wrap (millis s - lastSdFlush s)) then
         millis s
       else lastSdFlush s) s in
  (* status line every 200 ms *)
  set_lastPrint
    (if 200 <? wrap (millis s - lastPrint s) then millis s else lastPrint s) s.

Definition acquireData (m : Reading) (s : State) : State :=
  let now := millis s in
  let dt := fdiv (of_ulong (wrap (now - lastsampletime s))) f1000 in
  if fleb dt f0 then s     (* if (dt <= 0) return; *)
  else take_sample m now dt s.

Definition endBurn (s : State) : State :=
  if negb (testInProgress s) then s
  else
    let s := set_testInProgress false s in
    let s := set_burnEndTime (millis s) s in
    let s :=
      set_burntime
        (fdiv (of_ulong (wrap (burnEndTime s - burnStartTime s))) f1000) s in
    let s := digitalWrite LOW s in
    (* if (sdOpenForWrite) { flush; close; sdOpenForWrite = false; } *)
    let s :=
      set_sdOpenForWrite (if sdOpenForWrite s then false else sdOpenForWrite s)
        s in
    let s := println "=== BURN COMPLETE ===" s in
    println "Reset Arduino to run another test." s.

Definition checkBurnComplete (s : State) : State :=
  let s :=
    if fltb (thrust s) THRUST_THRESHOLD then
      if lowThrustStart s =? 0 then set_lowThrustStart (millis s) s
      else if LOW_THRUST_DURATION <? wrap (millis s - lowThrustStart s) then
        endBurn s
      else s
    else set_lowThrustStart 0 s in
  if fltb f60 (burntime s) then
    let s := println "Safety timeout reached!" s in
    endBurn s
  else s.

(** ** loop *)

Definition loop (i : LoopInput) (s : State) : State :=
  let s :=
    if is_low (sw_first i) && negb (countdownstate s)
       && negb (testInProgress s)
    then
      let s := delay 50 s in
      if is_low (sw_second i) then
        let s := println "=== TEST SEQUENCE INITIATED ===" s in
        let s := hxCalibrate (cal i) s in
        startCountdown s
      else s
    else s in
  let s := countDown (sd_open_ok i) s in
  let s :=
    if testInProgress s then
      let s := acquireData (mass i) s in
      checkBurnComplete s
    else s in
  delay 10 s.

(** Successive passes of [loop], one input record each. *)
Definition run (inputs : list LoopInput) (s : State) : State :=
  fold_left (fun s i => loop i s) inputs s.

(** Passes of [loop] for as long as the burn started by the last ignition
    is in progress: one burn session. *)
Fixpoint session (inputs : list LoopInput) (s : State) : State :=
  match inputs with
  | [] => s
  | i :: rest => if testInProgress s then session rest (loop i s) else s
  end.

Definition reachable (s : State) : Prop :=
  exists (b : BootInput) (inputs : list LoopInput) (s0 : State),
    setup b = Ready s0 /\ s = run inputs s0.

(** ** Notions used to state the properties *)

(** The [dt] that [acquireData] computes on entry, and its guard. *)
Definition tick_dt (s : State) : F :=
  fdiv (of_ulong (wrap (millis s - lastsampletime s))) f1000.

Definition accepted (s : State) : bool := negb (fleb (tick_dt s) f0).

(** The thrust [acquireData] derives from a reading. *)
Definition tick_thrust (m : Reading) : F :=
  fmul (if fltb (value m) f0 then f0 else value m) STANDARD_GRAVITY.

(** The accepted samples of a burn session, oldest first, as pairs
    (thrust_i, dt_i). *)
Fixpoint samples (inputs : list LoopInput) (s : State) : list (F * F) :=
  match inputs with
  | [] => []
  | i :: rest =>
      if testInProgress s then
        (if accepted s then [(tick_thrust (mass i), tick_dt s)] else [])
        ++ samples rest (loop i s)
      else []
  end.

(** Left-to-right running sum of thrust_i * dt_i, in the platform's own
    arithmetic. *)
Definition running_sum (start : F) (l : list (F * F)) : F :=
  fold_left (fun acc p => fadd acc (fmul (fst p) (snd p))) l start.

(** The burn was ignited at time [T0] (the clock value whose low 32 bits
    [igniteMotor] stored as burnStartTime) and no sample has been accepted
    since: the state [igniteMotor] hands over to acquisition. *)
Definition ignited (T0 : Z) (s : State) : Prop :=
  testInProgress s = true /\ countdownstate s = false /\
  burnStartTime s = wrap T0 /\ lastsampletime s = wrap T0 /\
  T0 <= clock s /\
  samplecount s = 0 /\ impulse s = f0 /\ peakthrust s = f0 /\
  avgthrust s = f0.

(** A log of igniter writes in which every HIGH is followed, exactly
    2000 ms later, by a LOW, and nothing else is ever written high. *)
Fixpoint hold_window_only (log : list (Z * level)) : bool :=
  match log with
  | [] => true
  | (_, LOW) :: rest => hold_window_only rest
  | (t, HIGH) :: rest =>
      match rest with
      | (t', LOW) :: rest' => (t' =? t + 2000) && hold_window_only rest'
      | _ => false
      end
  end.

Definition pin_safe (s : State) : Prop :=
  e_match s = LOW /\ hold_window_only (pin_log s) = true.

(** The content of the log file of this power cycle. *)
Definition session_file (s : State) : list line :=
  file_content (filename s) (card s).

(** The burn has been ended: what [endBurn] leaves behind. *)
Definition burn_ended (s : State) : Prop :=
  testInProgress s = false /\ e_match s = LOW /\ sdOpenForWrite s = false.

End Sketch.

Arguments Row F : clear implicits.
Arguments line F : clear implicits.
Arguments State F : clear implicits.
Arguments Reading F : clear implicits.
Arguments CalInput F : clear implicits.
Arguments LoopInput F : clear implicits.
Arguments BootInput F : clear implicits.
Arguments Boot F : clear implicits.

(** ** Further notions, stated over the finished sketch *)

Section Notions.
Context {F : Type} `{Platform F}.

(** Fields that only [igniteMotor] and [acquireData] write. *)
Definition acc_frame (s s' : State F) : Prop :=
  thrust s' = thrust s /\ impulse s' = impulse s /\
  peakthrust s' = peakthrust s /\ avgthrust s' = avgthrust s /\
  samplecount s' = samplecount s /\ lastsampletime s' = lastsampletime s /\
  burnStartTime s' = burnStartTime s /\ filename s' = filename s /\
  card s' = card s /\ countdownstate s' = countdownstate s.

(** Fields a function leaves alone: the igniter pin and the sequencer
    flags. *)
Definition ctl_frame (s s' : State F) : Prop :=
  e_match s' = e_match s /\ pin_log s' = pin_log s /\
  countdownstate s' = countdownstate s /\
  testInProgress s' = testInProgress s /\
  hx_ini s' = hx_ini s /\ filename s' = filename s.

(** [setup]: the pin is driven low before anything can hang. *)
Definition boot_pin_same (s : State F) (b : Boot F) : Prop :=
  match b with
  | Ready s' | Hung s' => e_match s' = e_match s /\ pin_log s' = pin_log s
  | Undefined => True
  end.

(** The row [acquireData] prints for an accepted sample. *)
Definition tick_row (m : Reading F) (s : State F) : Row F :=
  let t := tick_thrust m in
  {| row_elapsed := wrap (millis s - burnStartTime s);
     row_thrust := t;
     row_impulse := fadd (impulse s) (fmul t (tick_dt s));
     row_avg :=
       fadd (avgthrust s)
         (fdiv (fsub t (avgthrust s)) (of_ulong (wrap (samplecount s + 1))));
     row_peak := if fltb (peakthrust s) t then t else peakthrust s;
     row_burntime := fdiv (of_ulong (wrap (millis s - burnStartTime s))) f1000
  |}.

(** What holds between ignition at time [T0] and the end of the burn:
    [Tl] is the time of the last accepted sample, [rs] are the rows
    appended to the file, whose content was [base] at ignition. *)
Definition in_session (T0 : Z) (base : list (line F)) (s : State F) : Prop :=
  countdownstate s = false /\ burnStartTime s = wrap T0 /\
  exists (Tl : Z) (rs : list (Row F)),
    T0 <= Tl <= clock s /\ lastsampletime s = wrap Tl /\
    0 <= samplecount s <= Tl - T0 /\
    session_file s = base ++ map DataLine rs /\
    StronglySorted Z.lt (map row_elapsed rs) /\
    Forall (fun r => row_elapsed r <= Tl - T0) rs.

(** Welford's update folded over the thrusts of the accepted samples,
    starting from average [a] after [n] samples. *)
Fixpoint running_avg (a : F) (n : Z) (ts : list F) : F :=
  match ts with
  | [] => a
  | t :: ts' =>
      running_avg (fadd a (fdiv (fsub t a) (of_ulong (n + 1)))) (n + 1) ts'
  end.

(** The low-thrust condition of the Burn Monitor: thrust below the
    threshold, timestamp set, and strictly more than 3000 ms since. *)
Definition burnout (s : State F) : bool :=
  fltb (thrust s) THRUST_THRESHOLD && negb (lowThrustStart s =? 0)
  && (LOW_THRUST_DURATION <? wrap (millis s - lowThrustStart s)).

Definition timed_out (s : State F) : bool := fltb f60 (burntime s).

End Notions.

(** ** A test-bench scenario *)

Section Scenario.
Context {F : Type} `{Platform F}.

(** The float nearest to [n / d] (for [n], [d] below 2^24). *)
Definition ratio (n d : Z) : F := fdiv (of_ulong n) (of_ulong d).

Definition reading (n d : Z) (ms : N) : Reading F :=
  {| value := ratio n d; took_ms := ms |}.

(** An operator who needs 1 s to press ENTER and 3 s to type the mass [w],
    and a load cell whose raw average under the reference mass is 1000. *)
Definition operator (w : F) : CalInput F :=
  {| enter_polls := 100; tare_ms := 250; weight_polls := 300;
     entered_weight := w; raw := reading 1000 1 250;
     measured := reading 1 2 250 |}.

(** A pass with the switch released and the load cell reading [n / d] kg
    after [ms] milliseconds. *)
Definition tick (n d : Z) (ms : N) : LoopInput F :=
  {| sw_first := HIGH; sw_second := HIGH; cal := operator f0;
     sd_open_ok := true; mass := reading n d ms |}.

Definition idle : LoopInput F := tick 0 1 0.

(** A pass with the switch held low; the operator will enter mass [w]. *)
Definition press (w : F) : LoopInput F :=
  {| sw_first := LOW; sw_second := LOW; cal := operator w;
     sd_open_ok := true; mass := reading 0 1 0 |}.

(** Power-on with a working load cell and a card that already holds the
    logs of two earlier firings. *)
Definition bench_boot : BootInput F :=
  {| serial_polls := 3; hx_not_ready := 2; sd_begin_ok := true;
     sd_create_ok := true;
     card_files :=
       <["0_PLT.csv" := [HeaderLine]]> (<["1_PLT.csv" := [HeaderLine]]> ∅) |}.

Definition booted : State F :=
  match setup bench_boot with Ready s => s | _ => power_on ∅ end.

(** Switch pressed on the first pass, mass [w] entered, then 1500 idle
    passes: the countdown runs out and the motor is ignited in the last of
    them. *)
Definition fired (w : F) : State F :=
  run (press w :: replicate 1500 idle) booted.

(** Has [msg] been printed? *)
Definition said (msg : string) (s : State F) : bool :=
  existsb (String.eqb msg) (console s).

(** How often has [msg] been printed? *)
Definition times_said (msg : string) (s : State F) : nat :=
  length (List.filter (String.eqb msg) (console s)).

(** Number of times the igniter pin has been written high. *)
Definition high_writes (s : State F) : nat :=
  length (List.filter (fun e => negb (is_low (snd e))) (pin_log s)).

End Scenario.

(** ** Exact and binary32 values *)

(** Sum of a list of exact numbers. *)
Definition sumQc (l : list Qc) : Qc := fold_right Qcplus 0%Qc l.

(** The terms thrust_i * dt_i of a list of samples. *)
Definition products (l : list (Qc * Qc)) : list Qc :=
  map (fun p => (fst p * snd p)%Qc) l.

(** Exact value of a finite binary32 number. *)
Definition b32_to_Q (x : binary32) : Q :=
  match x with
  | S754_finite sg m e =>
      (if sg then -1 else 1) * inject_Z (Z.pos m) * Qpower 2 e
  | _ => 0
  end.

(** Sum of a list of rationals. *)
Definition Qsum (l : list Q) : Q := fold_right Qplus 0%Q l.

(** A complete firing: valid calibration with 0.5 kg, ignition, then 350
    passes with about 0.2 N on the load cell, which end the burn. *)
Definition burnt_out : State binary32 :=
  run (replicate 350 (tick 204 10000 0)) (fired (ratio 1 2)).

(** Passes 10 ms apart: ten with about 50 N (5.1 kg) on the load cell,
    then [n] with about 0.2 N (0.0204 kg). *)
Definition high_then_low (n : nat) : list (LoopInput binary32) :=
  replicate 10 (tick 51 10 0) ++ replicate n (tick 204 10000 0).

(** State handed to [checkBurnComplete] 10 * [k] ms after the first pass
    that measured the low thrust, the thrust having stayed low on every
    pass in between. *)
Definition low_thrust_check (k : nat) : State binary32 :=
  acquireData (mass (tick 204 10000 0))
    (session (high_then_low k) (fired (ratio 1 2))).

(** State handed to [checkBurnComplete] 61.000 s after ignition, with
    about 50 N on the load cell. *)
Definition after_61s : State binary32 :=
  acquireData (mass (tick 51 10 0))
    (session [tick 51 10 60980] (fired (ratio 1 2))).

(** Three passes with 1 kg, 2 kg and 4 kg on the load cell. *)
Definition three_ticks : list (LoopInput binary32) :=
  [tick 1 1 0; tick 2 1 0; tick 4 1 0].

(** Two passes with 1 kg and 2 kg on the load cell, in exact
    arithmetic. *)
Definition two_ticks : list (LoopInput Qc) := [tick 1 1 0; tick 2 1 0].


(** ** Notions for the properties of the whole run *)

Section RunNotions.
Context {F : Type} `{Platform F}.

(** What any stretch of execution after [setup] does to the card and to
    the variables only [setup] writes: the file name and the HX711 flag
    keep their values, time does not go back, every file but this power
    cycle's log is left alone and the log only grows, by data rows. *)
Definition evolves (s s' : State F) : Prop :=
  filename s' = filename s /\ hx_ini s' = hx_ini s /\
  clock s <= clock s' /\
  (forall name, name <> filename s -> card s' !! name = card s !! name) /\
  exists rs : list (Row F),
    session_file s' = session_file s ++ map DataLine rs.

(** The countdown is running: the last count was taken at time [Tp] (the
    clock value whose low 32 bits are in previoustime) and [n] seconds are
    left on it. *)
Definition counting (Tp n : Z) (s : State F) : Prop :=
  countdownstate s = true /\ testInProgress s = false /\
  previoustime s = wrap Tp /\ countdownTime s = n /\ Tp <= clock s.

(** The sequencer is idle: no countdown and no burn under way. *)
Definition idle_state (s : State F) : Prop :=
  countdownstate s = false /\ testInProgress s = false.

(** The running maximum [if (thrust > peakthrust) peakthrust = thrust]
    folded over a list of thrusts. *)
Definition running_peak (p : F) (ts : list F) : F :=
  fold_left (fun p t => if fltb p t then t else p) ts p.

(** The rows [acquireData] hands to the card during a burn session, one
    per accepted sample, oldest first. *)
Fixpoint logged_rows (inputs : list (LoopInput F)) (s : State F)
  : list (Row F) :=
  match inputs with
  | [] => []
  | i :: rest =>
      if testInProgress s then
        (if accepted s then [tick_row (mass i) s] else [])
        ++ logged_rows rest (loop i s)
      else []
  end.

(** The number of passes a burn session makes: those that start with the
    burn in progress. *)
Fixpoint passes_run (inputs : list (LoopInput F)) (s : State F) : nat :=
  match inputs with
  | [] => O
  | i :: rest =>
      if testInProgress s then S (passes_run rest (loop i s)) else O
  end.

(** The Igniting step is the pass of [loop] in which a running countdown
    reaches zero: [countDown] calls [igniteMotor] exactly when this test
    succeeds on entry to the pass. *)
Definition countdown_expires (s : State F) : bool :=
  countdownstate s && (1000 <=? wrap (millis s - previoustime s))
  && (countdownTime s - 1 <=? 0).

(** The times at which a countdown runs out during a run: the clock at
    the start of each pass that is an Igniting step. *)
Fixpoint ignition_times (inputs : list (LoopInput F)) (s : State F)
  : list Z :=
  match inputs with
  | [] => []
  | i :: rest =>
      (if countdown_expires s then [clock s] else [])
      ++ ignition_times rest (loop i s)
  end.

(** The times of the HIGH writes in a record of pin writes. *)
Definition high_times (l : list (Z * level)) : list Z :=
  map fst (List.filter (fun e => negb (is_low (snd e))) l).

(** Writes to the igniter pin that all drive it low. *)
Definition all_low (l : list (Z * level)) : Prop :=
  Forall (fun e => snd e = LOW) l.

(** Book-keeping of ignitions: countdown and burn are never under way
    together, the igniter has been driven high once per "IGNITION!" line,
    and every ignition has been followed by one burn summary, except the
    one whose burn is still in progress. *)
Definition accounted (s : State F) : Prop :=
  countdownstate s && testInProgress s = false /\
  high_writes s = times_said "IGNITION!" s /\
  times_said "IGNITION!" s =
    (times_said "=== BURN COMPLETE ===" s
     + (if testInProgress s then 1 else 0))%nat.

(** [s'] has [di] more "IGNITION!" lines, [ds] more burn summaries and
    [dh] more HIGH writes on the igniter pin than [s]. *)
Definition tally (di ds dh : nat) (s s' : State F) : Prop :=
  times_said "IGNITION!" s' = (times_said "IGNITION!" s + di)%nat /\
  times_said "=== BURN COMPLETE ===" s'
    = (times_said "=== BURN COMPLETE ===" s + ds)%nat /\
  high_writes s' = (high_writes s + dh)%nat.

(** The console line of the countdown with [n] seconds left:
    "T-" + String(countdownTime) + " s". *)
Definition countdown_line (n : Z) : string := "T-" +:+ pretty n +:+ " s".

(** The countdown [j] passes of [loop] after the pass that started it at
    time [Ts]: [j / 100] counts have been taken and printed, the igniter
    pin (log [L], level [E]) has not been written. *)
Definition countdown_inv (Ts : Z) (L : list (Z * level)) (E : level)
    (C : list string) (j : Z) (s : State F) : Prop :=
  counting (Ts + 1000 * (j / 100)) (15 - j / 100) s /\
  clock s = Ts + 10 + 10 * j /\
  pin_log s = L /\ e_match s = E /\
  console s =
    C ++ map (fun m => countdown_line (15 - m)) (seqZ 1 (j / 100)).

End RunNotions.

(** ** Order and sign of binary32 values *)

(** The sign of a binary32 value that is negative: a negative number or
    minus infinity (zeros and NaN are not negative). *)
Definition is_negative (x : binary32) : bool :=
  match x with
  | S754_infinity sg | S754_finite sg _ _ => sg
  | _ => false
  end.

Definition is_zero (x : binary32) : bool :=
  match x with S754_zero _ => true | _ => false end.

(** The place of a value that is not NaN in the order that the
    comparisons of [SpecFloat] implement: sign class first, then exponent,
    then significand, the last two reversed for negative numbers. *)
Definition rank (x : binary32) : Z * Z * Z :=
  match x with
  | S754_infinity true => (-2, 0, 0)
  | S754_finite true m e => (-1, - e, - Z.pos m)
  | S754_zero _ | S754_nan => (0, 0, 0)
  | S754_finite false m e => (1, e, Z.pos m)
  | S754_infinity false => (2, 0, 0)
  end.

Definition le_lex (a b : Z * Z * Z) : Prop :=
  let '(a1, a2, a3) := a in
  let '(b1, b2, b3) := b in
  a1 < b1 \/ (a1 = b1 /\ (a2 < b2 \/ (a2 = b2 /\ a3 <= b3))).

(** ** Checks over a range of integers *)

(** [f] holds for each of the [n] integers from [d] upwards. *)
Fixpoint all_from (f : Z -> bool) (n : nat) (d : Z) : bool :=
  match n with
  | O => true
  | S n' => f d && all_from f n' (d + 1)
  end.

(** ** Further bench scenarios *)

(** Power-on with a load cell that never becomes ready. *)
Definition dead_cell_boot : BootInput binary32 :=
  {| serial_polls := 3; hx_not_ready := 12; sd_begin_ok := true;
     sd_create_ok := true; card_files := ∅ |}.

(** A pass with the switch held low and 1 kg on the load cell. *)
Definition pressed_tick : LoopInput binary32 :=
  {| sw_first := LOW; sw_second := LOW; cal := operator (ratio 1 2);
     sd_open_ok := true; mass := reading 1 1 0 |}.

(** * The e-match continuity tester

    The second sketch of the repository, [e-Match_Continuity.ino]: on
    every pass of its [loop] it reads the two continuity inputs (analog)
    and the two trigger inputs (digital), prints each pair as one
    comma-separated line and waits 100 ms.  It drives no output. *)

Module Continuity.

Record State : Type := mkState {
  sensorValue1 : Z;  (* continuity, pin 34 *)
  sensorValue2 : Z;  (* continuity, pin 35 *)
  sensorValue3 : Z;  (* trigger, pin 25 *)
  sensorValue4 : Z;  (* trigger, pin 26 *)
  console : list string;  (* Serial output, one entry per line *)
  clock : Z  (* milliseconds since power-on *)
}.

(** What one pass reads: two analogRead results, two digitalRead
    results. *)
Record Input : Type := mkInput {
  analog1 : Z;
  analog2 : Z;
  digital3 : level;
  digital4 : level
}.

(** The [int] that digitalRead returns. *)
Definition level_int (v : level) : Z :=
  match v with LOW => 0 | HIGH => 1 end.

(** Serial.print(a); Serial.print(","); Serial.println(b); *)
Definition csv (a b : Z) : string := pretty a +:+ "," +:+ pretty b.

(** The globals as their initialisers leave them; [setup] only opens the
    serial port. *)
Definition setup : State :=
  {| sensorValue1 := 0; sensorValue2 := 0; sensorValue3 := 0;
     sensorValue4 := 0; console := []; clock := 0 |}.

Definition continuity (i : Input) (s : State) : State :=
  let v1 := analog1 i in
  let v2 := analog2 i in
  {| sensorValue1 := v1; sensorValue2 := v2;
     sensorValue3 := sensorValue3 s; sensorValue4 := sensorValue4 s;
     console := console s ++ [csv v1 v2]; clock := clock s |}.

Definition trigger (i : Input) (s : State) : State :=
  let v3 := level_int (digital3 i) in
  let v4 := level_int (digital4 i) in
  {| sensorValue1 := sensorValue1 s; sensorValue2 := sensorValue2 s;
     sensorValue3 := v3; sensorValue4 := v4;
     console := console s ++ [csv v3 v4]; clock := clock s |}.

Definition delay (ms : Z) (s : State) : State :=
  {| sensorValue1 := sensorValue1 s; sensorValue2 := sensorValue2 s;
     sensorValue3 := sensorValue3 s; sensorValue4 := sensorValue4 s;
     console := console s; clock := clock s + ms |}.

Definition loop (i : Input) (s : State) : State :=
  let s := continuity i s in
  let s := trigger i s in
  delay 100 s.

Definition run (inputs : list Input) (s : State) : State :=
  fold_left (fun s i => loop i s) inputs s.

(** The two lines one pass prints. *)
Definition lines (i : Input) : list string :=
  [csv (analog1 i) (analog2 i);
   csv (level_int (digital3 i)) (level_int (digital4 i))].

(** The separator, as a character. *)
Definition comma : Ascii.ascii := Ascii.ascii_of_nat 44.

(** Does a string contain a comma? *)
Fixpoint has_comma (s : string) : bool :=
  match s with
  | EmptyString => false
  | String c r => Ascii.eqb c comma || has_comma r
  end.

End Continuity.


(** * Properties *)

#[local] Arguments acquireData : simpl never.
#[local] Arguments take_sample : simpl never.
#[local] Arguments checkBurnComplete : simpl never.
#[local] Arguments endBurn : simpl never.
#[local] Arguments igniteMotor : simpl never.
#[local] Arguments countDown : simpl never.
#[local] Arguments hxCalibrate : simpl never.
#[local] Arguments startCountdown : simpl never.
#[local] Arguments loop : simpl never.
#[local] Arguments append_line : simpl never.
#[local] Arguments open_file : simpl never.
#[local] Arguments file_content : simpl never.
#[local] Arguments wrap : simpl never.

(** ** Strings and file names *)

Lemma string_app_length (a b : string) :
  String.length (a +:+ b) = (String.length a + String.length b)%nat.
Proof.
  induction a as [|c a IH]; [reflexivity|].
  change (String c a +:+ b) with (String c (a +:+ b)).
  cbn [String.length]. by rewrite IH.
Qed.

Lemma string_app_inj_l (a b t : string) : a +:+ t = b +:+ t -> a = b.
Proof.
  revert b. induction a as [|c a IH]; intros [|d b] E.
  - reflexivity.
  - apply (f_equal String.length) in E.
    rewrite !string_app_length in E. cbn [String.length] in E. lia.
  - apply (f_equal String.length) in E.
    rewrite !string_app_length in E. cbn [String.length] in E. lia.
  - change (String c (a +:+ t) = String d (b +:+ t)) in E.
    injection E as -> E. f_equal. by apply IH.
Qed.

Lemma plt_name_inj (i j : Z) : plt_name i = plt_name j -> i = j.
Proof.
  unfold plt_name. intros E%string_app_inj_l. by apply (inj pretty) in E.
Qed.

Section Facts.
Context {F : Type} `{Platform F}.
Implicit Types s : State F.
Implicit Types files : gmap string (list (line F)).

(** ** Arithmetic of the millisecond counter *)

Lemma wrap_small z : 0 <= z < 2 ^ 32 -> wrap z = z.
Proof. unfold wrap. apply Z.mod_small. Qed.

Lemma wrap_sub_wrap a b : wrap (wrap a - wrap b) = wrap (a - b).
Proof. unfold wrap. rewrite <- Zminus_mod. reflexivity. Qed.

(** ** Filename selection *)

Lemma SD_exists_true name files :
  SD_exists name files = true <-> is_Some (files !! name).
Proof.
  unfold SD_exists. destruct (files !! name); split; intros E;
    try done; by destruct E.
Qed.

Lemma SD_exists_false name files :
  SD_exists name files = false <-> files !! name = None.
Proof. unfold SD_exists. by destruct (files !! name). Qed.

(** The probe returns the first free index at or after [i], provided one
    lies within the room left before the counter overflows. *)
Lemma probe_first_free room i files :
  (exists j, i <= j < i + Z.of_nat room /\ files !! plt_name j = None) ->
  exists k, i <= k /\ probe room i files = Some (plt_name k) /\
    files !! plt_name k = None /\
    forall j, i <= j < k -> is_Some (files !! plt_name j).
Proof.
  revert i. induction room as [|room IH]; intros i (j & Hj & Hfree);
    [lia|]. cbn [probe]. cbv zeta.
  destruct (SD_exists (plt_name i) files) eqn:E.
  - apply SD_exists_true in E.
    destruct (IH (i + 1)) as (k & Hk & Hp & Hn & Hall).
    { exists j. split; [|exact Hfree].
      destruct (decide (j = i)) as [->|]; [|lia].
      rewrite Hfree in E. by destruct E. }
    exists k. repeat split; [lia|exact Hp|exact Hn|].
    intros j' Hj'. destruct (decide (j' = i)) as [->|]; [exact E|].
    apply Hall. lia.
  - apply SD_exists_false in E. exists i.
    repeat split; [lia|exact E|]. intros j' Hj'. lia.
Qed.

(** Pigeonhole: if the names of all indices below [n] are on the card, the
    card holds at least [n] files. *)
Lemma taken_names_bound (n : nat) files :
  (forall j, 0 <= j < Z.of_nat n -> is_Some (files !! plt_name j)) ->
  (n <= size files)%nat.
Proof.
  intros Hall.
  assert (NoDup (plt_name <$> seqZ 0 (Z.of_nat n))) as Hnd.
  { apply NoDup_fmap_2; [|apply NoDup_seqZ].
    intros a b. apply plt_name_inj. }
  assert (plt_name <$> seqZ 0 (Z.of_nat n) ⊆+ (map_to_list files).*1) as Hsub.
  { apply NoDup_submseteq; [exact Hnd|].
    intros name (j & -> & Hj%elem_of_seqZ)%list_elem_of_fmap.
    destruct (Hall j) as [v Hv]; [lia|].
    apply list_elem_of_fmap. exists (plt_name j, v). split; [done|].
    by apply elem_of_map_to_list. }
  apply submseteq_length in Hsub.
  rewrite !length_fmap, length_seqZ, length_map_to_list in Hsub. lia.
Qed.

Lemma free_index_exists (n : nat) files :
  (size files < n)%nat ->
  exists j, 0 <= j < Z.of_nat n /\ files !! plt_name j = None.
Proof.
  intros Hlt.
  destruct (decide (Forall (fun j => is_Some (files !! plt_name j))
                      (seqZ 0 (Z.of_nat n)))) as [Hall|Hex].
  - exfalso. enough (n <= size files)%nat by lia.
    apply taken_names_bound. intros j Hj.
    rewrite Forall_forall in Hall. apply Hall, elem_of_seqZ. lia.
  - apply not_Forall_Exists in Hex; [|intros j; apply _].
    apply Exists_exists in Hex as (j & Hj%elem_of_seqZ & Hn).
    exists j. split; [lia|]. by apply eq_None_not_Some.
Qed.

(** C7.  Whatever files the card holds (fewer than INT_MAX of them),
    createNewSDfile picks the name <k>_PLT.csv with k the smallest
    non-negative index whose name is not on the card, and leaves every
    existing file as it was; with 0_PLT.csv and 1_PLT.csv present and
    2_PLT.csv absent it picks 2_PLT.csv. *)
Theorem createNewSDfile_smallest_free (ok : bool) (s : State F) :
  (Z.of_nat (size (card s)) < INT_MAX ->
   exists (k : Z) (s' : State F),
     createNewSDfile ok s = Ready s' /\ 0 <= k /\
     filename s' = plt_name k /\
     card s !! plt_name k = None /\
     (forall j, 0 <= j < k -> is_Some (card s !! plt_name j)) /\
     (forall name, is_Some (card s !! name) ->
                   card s' !! name = card s !! name)) /\
  (is_Some (card s !! "0_PLT.csv") -> is_Some (card s !! "1_PLT.csv") ->
   card s !! "2_PLT.csv" = None ->
   exists s' : State F,
     createNewSDfile ok s = Ready s' /\ filename s' = "2_PLT.csv").
Proof.
  pose proof INT_MAX_min as Hmax. split.
  - intros Hsize.
    destruct (free_index_exists (Z.to_nat INT_MAX) (card s)) as (j & Hj & Hf);
      [lia|].
    destruct (probe_first_free (Z.to_nat INT_MAX) 0 (card s))
      as (k & Hk & Hp & Hn & Hall); [by exists j|].
    unfold createNewSDfile. rewrite Hp. cbv zeta.
    exists k. destruct ok; eexists; (split; [reflexivity|]);
      repeat split; try assumption.
    intros name Hname.
    change (append_line (plt_name k) HeaderLine (card s) !! name
            = card s !! name).
    unfold append_line. apply lookup_insert_ne. intros <-.
    rewrite Hn in Hname. by destruct Hname.
  - intros H0 H1 H2.
    destruct (probe_first_free (Z.to_nat INT_MAX) 0 (card s))
      as (k & Hk & Hp & Hn & Hall).
    { exists 2. split; [lia|exact H2]. }
    assert (k = 2) as ->.
    { change "0_PLT.csv" with (plt_name 0) in H0.
      change "1_PLT.csv" with (plt_name 1) in H1.
      destruct (decide (k = 0)) as [->|]; [rewrite Hn in H0; by destruct H0|].
      destruct (decide (k = 1)) as [->|]; [rewrite Hn in H1; by destruct H1|].
      destruct (decide (k = 2)) as [->|]; [reflexivity|].
      destruct (Hall 2) as [v Hv]; [lia|].
      change (plt_name 2) with "2_PLT.csv" in Hv. congruence. }
    unfold createNewSDfile. rewrite Hp. cbv zeta.
    destruct ok; eexists; split; reflexivity.
Qed.

(** ** Frames: what each function leaves alone *)

Lemma acc_frame_refl s : acc_frame s s.
Proof. unfold acc_frame. tauto. Qed.

Lemma acc_frame_trans s1 s2 s3 :
  acc_frame s1 s2 -> acc_frame s2 s3 -> acc_frame s1 s3.
Proof. unfold acc_frame. intuition congruence. Qed.

Lemma poll_delay d n s : poll d n s = delay (d * Z.of_nat n) s.
Proof.
  unfold poll. induction n as [|n IH].
  - destruct s. unfold delay, set_clock. cbn. f_equal. lia.
  - rewrite Nat.iter_succ, IH. unfold delay, set_clock. cbn. f_equal. lia.
Qed.

Lemma hxCalibrate_ctl_frame c s : ctl_frame s (hxCalibrate c s).
Proof.
  unfold hxCalibrate. destruct (hx_ini s) eqn:Hi; [|repeat split; reflexivity].
  cbv zeta. rewrite !poll_delay.
  destruct (fleb _ _); repeat split; try reflexivity; exact Hi.
Qed.

Lemma hxCalibrate_flags c s :
  countdownstate (hxCalibrate c s) = countdownstate s /\
  testInProgress (hxCalibrate c s) = testInProgress s.
Proof.
  unfold hxCalibrate. destruct (hx_ini s); [|split; reflexivity].
  cbv zeta. rewrite !poll_delay.
  destruct (fleb _ _); split; reflexivity.
Qed.

Lemma acquireData_ctl_frame m s : ctl_frame s (acquireData m s).
Proof.
  unfold acquireData. cbv zeta.
  destruct (fleb _ _); repeat split; reflexivity.
Qed.

Lemma endBurn_frame s : acc_frame s (endBurn s).
Proof.
  unfold endBurn. destruct (testInProgress s); cbn.
  - unfold acc_frame. cbn. tauto.
  - apply acc_frame_refl.
Qed.

Lemma endBurn_clock s : clock (endBurn s) = clock s.
Proof. unfold endBurn. destruct (testInProgress s); reflexivity. Qed.

Lemma endBurn_burn_ended s :
  testInProgress s = true -> burn_ended (endBurn s).
Proof.
  unfold endBurn, burn_ended. intros ->. cbn.
  by destruct (sdOpenForWrite s).
Qed.

Lemma endBurn_again s : burn_ended s -> burn_ended (endBurn s).
Proof. intros Hb. unfold endBurn. by rewrite (proj1 Hb). Qed.

Lemma endBurn_lowThrustStart s : lowThrustStart (endBurn s) = lowThrustStart s.
Proof. unfold endBurn. by destruct (testInProgress s). Qed.

Lemma checkBurnComplete_frame s : acc_frame s (checkBurnComplete s).
Proof.
  unfold checkBurnComplete.
  destruct (fltb (thrust s) THRUST_THRESHOLD);
    [destruct (lowThrustStart s =? 0);
       [|destruct (LOW_THRUST_DURATION <? _)]|];
    cbv zeta; destruct (fltb f60 _);
    repeat (eapply acc_frame_trans; [|apply endBurn_frame]);
    try apply acc_frame_refl; unfold acc_frame; cbn; tauto.
Qed.

Lemma checkBurnComplete_clock s : clock (checkBurnComplete s) = clock s.
Proof.
  unfold checkBurnComplete.
  destruct (fltb (thrust s) THRUST_THRESHOLD);
    [destruct (lowThrustStart s =? 0);
       [|destruct (LOW_THRUST_DURATION <? _)]|];
    cbv zeta; destruct (fltb f60 _);
    rewrite ?endBurn_clock; cbn; rewrite ?endBurn_clock; reflexivity.
Qed.

(** ** The igniter output *)

Lemma hold_window_only_app (l1 l2 : list (Z * level)) :
  hold_window_only l1 = true -> hold_window_only l2 = true ->
  hold_window_only (l1 ++ l2) = true.
Proof.
  revert l1. fix IH 1. intros [|[t [|]] l1] H1 H2; simpl in *.
  - exact H2.
  - apply IH; assumption.
  - destruct l1 as [|[t' [|]] l1]; try discriminate. simpl.
    apply andb_true_iff in H1 as [-> H1]. simpl. apply IH; assumption.
Qed.

Lemma pin_safe_frame s s' : ctl_frame s s' -> pin_safe s -> pin_safe s'.
Proof. unfold pin_safe. intros (-> & -> & _). tauto. Qed.

Lemma pin_safe_same s s' :
  e_match s' = e_match s -> pin_log s' = pin_log s ->
  pin_safe s -> pin_safe s'.
Proof. unfold pin_safe. intros -> ->. tauto. Qed.

Lemma igniteMotor_pin ok s :
  e_match (igniteMotor ok s) = LOW /\
  pin_log (igniteMotor ok s) =
    pin_log s ++ [(clock s, HIGH); (clock s + 2000, LOW)] /\
  testInProgress (igniteMotor ok s) = true /\
  countdownstate (igniteMotor ok s) = countdownstate s /\
  filename (igniteMotor ok s) = filename s /\
  session_file (igniteMotor ok s) = session_file s.
Proof.
  unfold session_file.
  destruct ok; repeat split; try reflexivity.
  - change (pin_log (igniteMotor true s)) with
      ((pin_log s ++ [(clock s, HIGH)]) ++ [(clock s + 2000, LOW)]).
    by rewrite <- app_assoc.
  - change (file_content (filename s) (open_file (filename s) (card s))
            = file_content (filename s) (card s)).
    unfold file_content at 1, open_file. by rewrite lookup_insert_eq.
  - change (pin_log (igniteMotor false s)) with
      ((pin_log s ++ [(clock s, HIGH)]) ++ [(clock s + 2000, LOW)]).
    by rewrite <- app_assoc.
Qed.

Lemma igniteMotor_ignited ok s :
  countdownstate s = false -> ignited (clock s + 2000) (igniteMotor ok s).
Proof.
  intros Hc. destruct ok; repeat split; try reflexivity; try exact Hc;
    apply Z.le_refl.
Qed.

Lemma igniteMotor_pin_safe ok s : pin_safe s -> pin_safe (igniteMotor ok s).
Proof.
  intros [_ Hl]. destruct (igniteMotor_pin ok s) as (E & L & _).
  split; [exact E|]. rewrite L. apply hold_window_only_app; [exact Hl|].
  simpl. by rewrite Z.eqb_refl.
Qed.

Lemma countDown_pin_safe ok s : pin_safe s -> pin_safe (countDown ok s).
Proof.
  intros Hs. unfold countDown. destruct (countdownstate s); [|exact Hs].
  destruct (1000 <=? _); [|exact Hs]. cbv zeta.
  destruct (_ <=? 0).
  - apply igniteMotor_pin_safe. revert Hs.
    apply pin_safe_same; reflexivity.
  - revert Hs. apply pin_safe_same; reflexivity.
Qed.

Lemma endBurn_pin_safe s : pin_safe s -> pin_safe (endBurn s).
Proof.
  intros [He Hl]. unfold endBurn. destruct (testInProgress s); [|by split].
  split; [reflexivity|].
  change (hold_window_only (pin_log s ++ [(clock s, LOW)]) = true).
  by apply hold_window_only_app.
Qed.

Lemma checkBurnComplete_pin_safe s :
  pin_safe s -> pin_safe (checkBurnComplete s).
Proof.
  intros Hs. unfold checkBurnComplete.
  destruct (fltb (thrust s) THRUST_THRESHOLD);
    [destruct (lowThrustStart s =? 0);
       [|destruct (LOW_THRUST_DURATION <? _)]|];
    cbv zeta; destruct (fltb f60 _);
    repeat first
      [ exact Hs | apply endBurn_pin_safe
      | match goal with
        | |- pin_safe (println ?m ?x) =>
            apply (pin_safe_same x); [reflexivity..|]
        | |- pin_safe (set_lowThrustStart ?v ?x) =>
            apply (pin_safe_same x); [reflexivity..|]
        end ].
Qed.

Lemma loop_pin_safe i s : pin_safe s -> pin_safe (loop i s).
Proof.
  intros Hs. unfold loop. cbv zeta.
  match goal with |- context [countDown _ ?x] => set (s1 := x) end.
  assert (pin_safe s1) as H1.
  { subst s1. destruct (_ && _); [|exact Hs].
    destruct (is_low (sw_second i)).
    - apply (pin_safe_same (hxCalibrate (cal i)
               (println "=== TEST SEQUENCE INITIATED ===" (delay 50 s))));
        [reflexivity..|].
      eapply pin_safe_frame; [apply hxCalibrate_ctl_frame|].
      revert Hs. apply pin_safe_same; reflexivity.
    - revert Hs. apply pin_safe_same; reflexivity. }
  clearbody s1. apply (countDown_pin_safe (sd_open_ok i)) in H1.
  set (s2 := countDown (sd_open_ok i) s1) in *. clearbody s2.
  match goal with |- pin_safe (delay 10 ?x) =>
    apply (pin_safe_same x); [reflexivity..|] end.
  destruct (testInProgress s2); [|exact H1].
  apply checkBurnComplete_pin_safe.
  eapply pin_safe_frame; [apply acquireData_ctl_frame|exact H1].
Qed.

Lemma run_pin_safe inputs s : pin_safe s -> pin_safe (run inputs s).
Proof.
  unfold run. revert s. induction inputs as [|i rest IH]; intros s Hs;
    cbn [fold_left]; [exact Hs|].
  apply IH, loop_pin_safe, Hs.
Qed.

Lemma wait_ready_pin n t s : boot_pin_same s (wait_ready n t s).
Proof.
  revert s. induction n as [|n IH]; intros s; cbn [wait_ready].
  - split; reflexivity.
  - cbv zeta. destruct (5000 <? _); [split; reflexivity|].
    specialize (IH (delay 500 (println "HX711 connecting..." s))).
    destruct (wait_ready n t _); exact IH.
Qed.

Lemma initializeHX711_pin n s : boot_pin_same s (initializeHX711 n s).
Proof.
  unfold initializeHX711. cbv zeta.
  pose proof (wait_ready_pin n (millis s) (delay 500 s)) as Hw.
  destruct (wait_ready n (millis s) (delay 500 s)); exact Hw.
Qed.

Lemma createNewSDfile_pin ok s : boot_pin_same s (createNewSDfile ok s).
Proof.
  unfold createNewSDfile. destruct (probe _ _ _); [|exact I].
  cbv zeta. destruct ok; split; reflexivity.
Qed.

Lemma initializeSD_pin b ok s : boot_pin_same s (initializeSD b ok s).
Proof.
  unfold initializeSD. destruct (negb b); [split; reflexivity|].
  apply (createNewSDfile_pin ok (println "SD card initialized" s)).
Qed.

Lemma setup_pin_safe b :
  match setup b with
  | Ready s | Hung s => pin_safe s
  | Undefined => True
  end.
Proof.
  unfold setup. cbv zeta. rewrite poll_delay.
  match goal with |- context [initializeHX711 _ ?x] => set (s1 := x) end.
  assert (pin_safe s1) as H1 by (split; reflexivity).
  pose proof (initializeHX711_pin (hx_not_ready b) s1) as Hh.
  clearbody s1.
  destruct (initializeHX711 _ s1) as [s2|s2|]; cbn [boot_pin_same] in Hh;
    [|by apply (pin_safe_same s1); tauto|exact I].
  assert (pin_safe s2) as H2 by (apply (pin_safe_same s1); tauto).
  pose proof (initializeSD_pin (sd_begin_ok b) (sd_create_ok b) s2) as Hd.
  destruct (initializeSD _ _ s2) as [s3|s3|]; cbn [boot_pin_same] in Hd;
    [|by apply (pin_safe_same s2); tauto|exact I].
  apply (pin_safe_same s2); tauto.
Qed.

(** The pin at rest.  On every execution the igniter output is low
    whenever [setup] or [loop] returns and whenever [setup] hangs, and the
    record of all writes to the pin consists of LOW writes and of HIGH
    writes each followed 2000 ms later by a LOW write; [endBurn] on a burn
    in progress writes the pin low. *)
Lemma pin_low_at_rest :
  (forall s : State F, reachable s -> pin_safe s) /\
  (forall (b : BootInput F) (s : State F), setup b = Hung s -> pin_safe s) /\
  (forall s : State F,
     testInProgress s = true ->
     e_match (endBurn s) = LOW /\
     pin_log (endBurn s) = pin_log s ++ [(clock s, LOW)]).
Proof.
  split; [|split].
  - intros s (b & inputs & s0 & Hb & ->). apply run_pin_safe.
    pose proof (setup_pin_safe b) as Hs. by rewrite Hb in Hs.
  - intros b s Hb. pose proof (setup_pin_safe b) as Hs. by rewrite Hb in Hs.
  - intros s Ht. unfold endBurn. rewrite Ht. split; reflexivity.
Qed.

(** ** The start trigger *)

(** A pass of [loop] that sees the switch low twice while no countdown and
    no burn is under way: calibration is run and the countdown is started,
    whatever the calibration did. *)
Lemma loop_trigger i s :
  is_low (sw_first i) = true -> is_low (sw_second i) = true ->
  countdownstate s = false -> testInProgress s = false ->
  loop i s =
    delay 10
      (startCountdown
         (hxCalibrate (cal i)
            (println "=== TEST SEQUENCE INITIATED ===" (delay 50 s)))).
Proof.
  intros H1 H2 Hc Ht. unfold loop. rewrite H1, Hc, Ht. cbn [andb negb].
  cbv zeta. rewrite H2.
  set (s1 := hxCalibrate _ _).
  assert (testInProgress s1 = false) as Ht1.
  { subst s1. rewrite (proj2 (hxCalibrate_flags _ _)). exact Ht. }
  clearbody s1. unfold countDown.
  change (countdownstate (startCountdown s1)) with true. cbv iota.
  change (wrap (millis (startCountdown s1) - previoustime (startCountdown s1)))
    with (wrap (millis s1 - millis s1)).
  rewrite Z.sub_diag. change (1000 <=? wrap 0) with false. cbv iota.
  change (testInProgress (startCountdown s1)) with (testInProgress s1).
  rewrite Ht1. reflexivity.
Qed.

Lemma hxCalibrate_invalid_weight c s :
  hx_ini s = true -> fleb (entered_weight c) f0 = true ->
  hx_scale (hxCalibrate c s) = hx_scale s /\
  last (console (hxCalibrate c s))
    = Some "Invalid weight entered. Calibration aborted.".
Proof.
  intros Hi Hw. unfold hxCalibrate. rewrite Hi. cbn [negb]. cbv zeta.
  rewrite !poll_delay.
  change (fleb (known_weight (set_known_weight (entered_weight c) ?x)) f0)
    with (fleb (entered_weight c) f0).
  rewrite Hw. split; [reflexivity|].
  change (console (println ?m ?x)) with (console x ++ [m]).
  apply last_snoc.
Qed.

(** The defect behind C1, for every idle state: with the load cell up, a
    confirmed press of the switch followed by a reference mass that is not
    positive aborts the calibration (the scale factor is left alone) and
    starts the countdown all the same. *)
Lemma invalid_weight_starts_countdown i s :
  is_low (sw_first i) = true -> is_low (sw_second i) = true ->
  countdownstate s = false -> testInProgress s = false ->
  hx_ini s = true ->
  fleb (entered_weight (cal i)) f0 = true ->
  hx_scale (loop i s) = hx_scale s /\
  countdownstate (loop i s) = true /\ countdownTime (loop i s) = 15.
Proof.
  intros H1 H2 Hc Ht Hi Hw. rewrite loop_trigger by assumption.
  destruct (hxCalibrate_invalid_weight (cal i)
              (println "=== TEST SEQUENCE INITIATED ===" (delay 50 s)) Hi Hw)
    as [Hs _].
  repeat split; try reflexivity.
  change (hx_scale (delay 10 (startCountdown ?x))) with (hx_scale x).
  rewrite Hs. reflexivity.
Qed.

(** The defect behind C3, for every state [endBurn] leaves behind: the
    guard of [loop] is open again, so a confirmed press of the switch runs
    the calibration and starts a new countdown without any reset. *)
Lemma ended_burn_can_restart i s :
  burn_ended s -> countdownstate s = false ->
  is_low (sw_first i) = true -> is_low (sw_second i) = true ->
  countdownstate (loop i s) = true /\ countdownTime (loop i s) = 15.
Proof.
  intros (Ht & _) Hc H1 H2. rewrite loop_trigger by assumption.
  split; reflexivity.
Qed.

(** ** The Burn Monitor *)

Lemma checkBurnComplete_ends s :
  testInProgress s = true ->
  burnout s || timed_out s = true ->
  burn_ended (checkBurnComplete s).
Proof.
  intros Ht Hor. unfold burnout, timed_out in Hor. unfold checkBurnComplete.
  destruct (fltb (thrust s) THRUST_THRESHOLD);
    [destruct (lowThrustStart s =? 0);
       [|destruct (LOW_THRUST_DURATION <? _)]|];
    cbn [andb negb orb] in Hor; cbv zeta.
  - change (burntime (set_lowThrustStart (millis s) s)) with (burntime s).
    rewrite Hor.
    by apply (endBurn_burn_ended (println _ (set_lowThrustStart _ s))).
  - pose proof (endBurn_burn_ended s Ht) as Hb.
    destruct (fltb f60 (burntime (endBurn s))); [|exact Hb].
    by apply (endBurn_again (println _ (endBurn s))).
  - rewrite Hor. by apply (endBurn_burn_ended (println _ s)).
  - change (burntime (set_lowThrustStart 0 s)) with (burntime s).
    rewrite Hor.
    by apply (endBurn_burn_ended (println _ (set_lowThrustStart _ s))).
Qed.

Lemma checkBurnComplete_continues s :
  testInProgress s = true ->
  burnout s || timed_out s = false ->
  testInProgress (checkBurnComplete s) = true.
Proof.
  intros Ht Hor. unfold burnout, timed_out in Hor. unfold checkBurnComplete.
  destruct (fltb (thrust s) THRUST_THRESHOLD);
    [destruct (lowThrustStart s =? 0);
       [|destruct (LOW_THRUST_DURATION <? _)]|];
    cbn [andb negb orb] in Hor; cbv zeta; try discriminate.
  - change (burntime (set_lowThrustStart (millis s) s)) with (burntime s).
    rewrite Hor. exact Ht.
  - rewrite Hor. exact Ht.
  - change (burntime (set_lowThrustStart 0 s)) with (burntime s).
    rewrite Hor. exact Ht.
Qed.

Lemma checkBurnComplete_lowThrustStart s :
  lowThrustStart (checkBurnComplete s) =
    if fltb (thrust s) THRUST_THRESHOLD then
      if lowThrustStart s =? 0 then millis s else lowThrustStart s
    else 0.
Proof.
  unfold checkBurnComplete.
  destruct (fltb (thrust s) THRUST_THRESHOLD);
    [destruct (lowThrustStart s =? 0);
       [|destruct (LOW_THRUST_DURATION <? _)]|];
    cbv zeta; destruct (fltb f60 _);
    rewrite ?endBurn_lowThrustStart; try reflexivity.
  all: change (lowThrustStart (println ?m ?x)) with (lowThrustStart x);
    rewrite ?endBurn_lowThrustStart; reflexivity.
Qed.

(** ** One pass of [loop] during a burn *)

Lemma loop_in_progress i s :
  testInProgress s = true -> countdownstate s = false ->
  loop i s = delay 10 (checkBurnComplete (acquireData (mass i) s)).
Proof.
  intros Ht Hc. unfold loop. rewrite Ht, andb_false_r. cbv zeta.
  unfold countDown. rewrite Hc, Ht. reflexivity.
Qed.

Lemma acquireData_rejected m s : accepted s = false -> acquireData m s = s.
Proof.
  unfold accepted, acquireData, tick_dt. intros E%negb_false_iff.
  rewrite E. reflexivity.
Qed.

Lemma acquireData_take m s :
  accepted s = true ->
  acquireData m s = take_sample m (millis s) (tick_dt s) s.
Proof.
  unfold accepted, acquireData, tick_dt. intros E%negb_true_iff.
  rewrite E. reflexivity.
Qed.

Lemma take_sample_fields m s :
  let s' := take_sample m (millis s) (tick_dt s) s in
  thrust s' = row_thrust (tick_row m s) /\
  impulse s' = row_impulse (tick_row m s) /\
  peakthrust s' = row_peak (tick_row m s) /\
  avgthrust s' = row_avg (tick_row m s) /\
  burntime s' = row_burntime (tick_row m s) /\
  samplecount s' = wrap (samplecount s + 1) /\
  lastsampletime s' = millis s /\
  burnStartTime s' = burnStartTime s /\
  filename s' = filename s /\
  card s' =
    (if sdOpenForWrite s then
       append_line (filename s) (DataLine (tick_row m s)) (card s)
     else card s) /\
  countdownstate s' = countdownstate s /\
  testInProgress s' = testInProgress s /\
  sdOpenForWrite s' = sdOpenForWrite s /\
  clock s' = clock s + Z.of_N (took_ms m).
Proof. intro s'. repeat split; reflexivity. Qed.

Lemma pass_rejected i s :
  testInProgress s = true -> countdownstate s = false ->
  accepted s = false ->
  acc_frame s (loop i s) /\ clock (loop i s) = clock s + 10.
Proof.
  intros Ht Hc Ha. rewrite loop_in_progress by assumption.
  rewrite acquireData_rejected by assumption. split.
  - eapply acc_frame_trans; [apply checkBurnComplete_frame|].
    unfold acc_frame. repeat split; reflexivity.
  - change (clock (delay 10 ?x)) with (clock x + 10).
    by rewrite checkBurnComplete_clock.
Qed.

Lemma pass_accepted i s :
  testInProgress s = true -> countdownstate s = false ->
  accepted s = true ->
  let s' := loop i s in
  let r := tick_row (mass i) s in
  thrust s' = row_thrust r /\
  impulse s' = row_impulse r /\
  peakthrust s' = row_peak r /\
  avgthrust s' = row_avg r /\
  samplecount s' = wrap (samplecount s + 1) /\
  lastsampletime s' = millis s /\
  burnStartTime s' = burnStartTime s /\
  filename s' = filename s /\
  card s' =
    (if sdOpenForWrite s then
       append_line (filename s) (DataLine r) (card s)
     else card s) /\
  countdownstate s' = false /\
  clock s' = clock s + Z.of_N (took_ms (mass i)) + 10.
Proof.
  intros Ht Hc Ha s' r. subst s' r. rewrite loop_in_progress by assumption.
  rewrite acquireData_take by assumption.
  destruct (take_sample_fields (mass i) s)
    as (A1 & A2 & A3 & A4 & _ & A5 & A6 & A7 & A8 & A9 & A10 & _ & _ & A11).
  destruct (checkBurnComplete_frame
              (take_sample (mass i) (millis s) (tick_dt s) s))
    as (B1 & B2 & B3 & B4 & B5 & B6 & B7 & B8 & B9 & B10).
  change (clock (delay 10 ?x)) with (clock x + 10).
  rewrite checkBurnComplete_clock, A11.
  repeat split; first [exact (eq_trans B1 A1) | exact (eq_trans B2 A2)
    | exact (eq_trans B3 A3) | exact (eq_trans B4 A4)
    | exact (eq_trans B5 A5) | exact (eq_trans B6 A6)
    | exact (eq_trans B7 A7) | exact (eq_trans B8 A8)
    | exact (eq_trans B9 A9) | exact (eq_trans B10 (eq_trans A10 Hc)) ].
Qed.

Lemma accepted_time_advanced s :
  accepted s = true -> millis s <> lastsampletime s.
Proof.
  unfold accepted, tick_dt. intros E%negb_true_iff Heq.
  rewrite Heq, Z.sub_diag in E. change (wrap 0) with 0 in E.
  pose proof zero_dt_rejected as Hz. unfold f1000, f0 in E. congruence.
Qed.

(** The pass in which the countdown runs out: the motor is ignited, and
    the rest of the pass is an ordinary acquisition pass on the state
    [igniteMotor] hands over. *)
Lemma ignition_pass i s :
  countdownstate s = true -> testInProgress s = false ->
  (1000 <=? wrap (millis s - previoustime s)) = true ->
  (countdownTime s - 1 <=? 0) = true ->
  exists s1 : State F,
    ignited (clock s + 2000) s1 /\ loop i s = loop i s1.
Proof.
  intros Hc Ht Hdue Hzero.
  set (s0 := set_countdownstate false
               (println ("T-" +:+ pretty (countdownTime s - 1) +:+ " s")
                  (set_countdownTime (countdownTime s - 1)
                     (set_previoustime (millis s) s)))).
  exists (igniteMotor (sd_open_ok i) s0).
  assert (ignited (clock s + 2000) (igniteMotor (sd_open_ok i) s0)) as Hig
    by (apply (igniteMotor_ignited (sd_open_ok i) s0); reflexivity).
  split; [exact Hig|].
  destruct Hig as (Ht1 & Hc1 & _).
  rewrite (loop_in_progress i _ Ht1 Hc1).
  unfold loop. rewrite Hc, andb_false_r. cbn [andb]. cbv zeta.
  unfold countDown. rewrite Hc, Hdue. cbv zeta.
  change (countdownTime
            (println ("T-" +:+ pretty
               (countdownTime
                  (set_countdownTime
                     (countdownTime (set_previoustime (millis s) s) - 1)
                     (set_previoustime (millis s) s))) +:+ " s")
               (set_countdownTime
                  (countdownTime (set_previoustime (millis s) s) - 1)
                  (set_previoustime (millis s) s))))
    with (countdownTime s - 1).
  rewrite Hzero.
  repeat match goal with
         | |- context [igniteMotor ?o ?x] =>
             lazymatch x with s0 => fail | _ => change x with s0 end
         end.
  rewrite Ht1. reflexivity.
Qed.

(** ** One burn session *)

Lemma ignited_in_session T0 s :
  ignited T0 s -> in_session T0 (session_file s) s.
Proof.
  intros (_ & Hc & Hb & Hl & Hle & Hn & _).
  split; [exact Hc|]. split; [exact Hb|].
  exists T0, []. rewrite Hn, app_nil_r.
  repeat split; try lia; try assumption; constructor.
Qed.

Lemma StronglySorted_snoc (l : list Z) (y : Z) :
  StronglySorted Z.lt l -> Forall (fun x => x < y) l ->
  StronglySorted Z.lt (l ++ [y]).
Proof.
  induction 1 as [|x l Hs IH Hx]; intros Hy; simpl.
  - repeat constructor.
  - inversion Hy; subst. constructor; [auto|].
    apply Forall_app. split; [assumption|]. by constructor.
Qed.

Lemma file_content_append name l (files : gmap string (list (line F))) :
  file_content name (append_line name l files) = file_content name files ++ [l].
Proof. unfold file_content at 1, append_line. by rewrite lookup_insert_eq. Qed.

Lemma in_session_step T0 base i s :
  in_session T0 base s -> testInProgress s = true ->
  clock s - T0 < 2 ^ 32 ->
  in_session T0 base (loop i s).
Proof.
  intros (Hc & Hb & Tl & rs & HT & Hl & Hn & Hf & Hs & Hr) Ht Hbound.
  destruct (accepted s) eqn:Ha.
  - pose proof (accepted_time_advanced s Ha) as Hadv.
    assert (Tl < clock s) as Hlt.
    { destruct (decide (Tl = clock s)) as [->|]; [|lia].
      exfalso. apply Hadv. unfold millis. by rewrite Hl. }
    destruct (pass_accepted i s Ht Hc Ha)
      as (_ & _ & _ & _ & P5 & P6 & P7 & P8 & P9 & P10 & P11).
    assert (wrap (millis s - burnStartTime s) = clock s - T0) as Hel.
    { unfold millis. rewrite Hb, wrap_sub_wrap. apply wrap_small. lia. }
    split; [exact P10|]. split; [congruence|].
    exists (clock s).
    exists (if sdOpenForWrite s then rs ++ [tick_row (mass i) s] else rs).
    repeat split.
    + lia.
    + rewrite P11. lia.
    + exact P6.
    + rewrite P5, wrap_small by lia. lia.
    + rewrite P5, wrap_small by lia. lia.
    + unfold session_file in *. rewrite P8, P9.
      destruct (sdOpenForWrite s); [|exact Hf].
      rewrite file_content_append, Hf, map_app, <- app_assoc. reflexivity.
    + destruct (sdOpenForWrite s); [|exact Hs].
      rewrite map_app. apply StronglySorted_snoc; [exact Hs|].
      apply Forall_map. eapply Forall_impl; [exact Hr|].
      intros r Hle. simpl in Hle |- *.
      change (row_elapsed (tick_row (mass i) s))
        with (wrap (millis s - burnStartTime s)). lia.
    + assert (Forall (fun r : Row F => row_elapsed r <= clock s - T0) rs)
        as Hr'.
      { eapply Forall_impl; [exact Hr|]. intros r Hle. simpl in *. lia. }
      destruct (sdOpenForWrite s); [|exact Hr'].
      apply Forall_app. split; [exact Hr'|]. constructor; [|constructor].
      change (row_elapsed (tick_row (mass i) s))
        with (wrap (millis s - burnStartTime s)). lia.
  - destruct (pass_rejected i s Ht Hc Ha)
      as ((_ & _ & _ & _ & Q5 & Q6 & Q7 & Q8 & Q9 & Q10) & Qc).
    split; [congruence|]. split; [congruence|].
    exists Tl, rs. unfold session_file in *.
    rewrite Q5, Q6, Q8, Q9, Qc. repeat split; try assumption; lia.
Qed.

Lemma loop_clock_in_progress i s :
  testInProgress s = true -> countdownstate s = false ->
  clock s <= clock (loop i s) /\ countdownstate (loop i s) = false.
Proof.
  intros Ht Hc. destruct (accepted s) eqn:Ha.
  - destruct (pass_accepted i s Ht Hc Ha)
      as (_ & _ & _ & _ & _ & _ & _ & _ & _ & P10 & P11). split; [lia|done].
  - destruct (pass_rejected i s Ht Hc Ha)
      as ((_ & _ & _ & _ & _ & _ & _ & _ & _ & Q10) & Qc).
    split; [lia|congruence].
Qed.

Lemma session_clock_mono inputs s :
  countdownstate s = false -> clock s <= clock (session inputs s).
Proof.
  revert s. induction inputs as [|i rest IH]; intros s Hc; simpl; [lia|].
  destruct (testInProgress s) eqn:Ht; [|lia].
  destruct (loop_clock_in_progress i s Ht Hc) as [Hle Hc'].
  specialize (IH _ Hc'). lia.
Qed.

Lemma session_in_session T0 base inputs s :
  in_session T0 base s ->
  clock (session inputs s) - T0 < 2 ^ 32 ->
  in_session T0 base (session inputs s).
Proof.
  revert s. induction inputs as [|i rest IH]; intros s Hin Hb; simpl in *;
    [exact Hin|].
  destruct (testInProgress s) eqn:Ht; [|exact Hin].
  pose proof Hin as (Hc & _).
  destruct (loop_clock_in_progress i s Ht Hc) as [Hle Hc'].
  pose proof (session_clock_mono rest _ Hc').
  apply IH; [|exact Hb]. apply in_session_step; [assumption..|lia].
Qed.

Lemma session_app (a b : list (LoopInput F)) s :
  session (a ++ b) s = session b (session a s).
Proof.
  revert s. induction a as [|i a IH]; intros s; simpl; [reflexivity|].
  destruct (testInProgress s) eqn:Ht; [apply IH|].
  destruct b; simpl; [reflexivity|]. by rewrite Ht.
Qed.

Lemma session_impulse inputs s :
  countdownstate s = false ->
  impulse (session inputs s) = running_sum (impulse s) (samples inputs s).
Proof.
  revert s. induction inputs as [|i rest IH]; intros s Hc;
    cbn [session samples]; [reflexivity|].
  destruct (testInProgress s) eqn:Ht; [|reflexivity].
  destruct (loop_clock_in_progress i s Ht Hc) as [_ Hc'].
  rewrite (IH _ Hc'). destruct (accepted s) eqn:Ha.
  - destruct (pass_accepted i s Ht Hc Ha) as (_ & P2 & _).
    rewrite P2. reflexivity.
  - destruct (pass_rejected i s Ht Hc Ha) as ((_ & Q2 & _) & _).
    rewrite Q2. reflexivity.
Qed.

Lemma session_counters T0 base inputs s :
  in_session T0 base s ->
  clock (session inputs s) - T0 < 2 ^ 32 ->
  samplecount (session inputs s)
    = samplecount s + Z.of_nat (length (samples inputs s)) /\
  avgthrust (session inputs s)
    = running_avg (avgthrust s) (samplecount s)
        (map fst (samples inputs s)).
Proof.
  revert s. induction inputs as [|i rest IH]; intros s Hin Hb;
    cbn [session samples] in *.
  { cbn [length map]. split; [lia|reflexivity]. }
  destruct (testInProgress s) eqn:Ht;
    [|cbn [length map]; split; [lia|reflexivity]].
  pose proof Hin as (Hc & _ & Tl & _ & HT & Hl & Hn & _).
  destruct (loop_clock_in_progress i s Ht Hc) as [Hle Hc'].
  pose proof (session_clock_mono rest _ Hc') as Hmono.
  assert (in_session T0 base (loop i s)) as Hin'
    by (apply in_session_step; [assumption..|lia]).
  destruct (IH _ Hin' Hb) as [IH1 IH2]. rewrite IH1, IH2.
  destruct (accepted s) eqn:Ha; cbn [app length map fst running_avg].
  - destruct (pass_accepted i s Ht Hc Ha) as (_ & _ & _ & P4 & P5 & _).
    assert (Tl < clock s) as Hlt.
    { destruct (decide (Tl = clock s)) as [->|]; [|lia].
      exfalso. apply (accepted_time_advanced s Ha). unfold millis.
      by rewrite Hl. }
    rewrite P5, P4, wrap_small by lia.
    split; [lia|].
    change (row_avg (tick_row (mass i) s)) with
      (fadd (avgthrust s)
         (fdiv (fsub (tick_thrust (mass i)) (avgthrust s))
            (of_ulong (wrap (samplecount s + 1))))).
    rewrite wrap_small by lia. reflexivity.
  - destruct (pass_rejected i s Ht Hc Ha) as ((_ & _ & _ & Q4 & Q5 & _) & _).
    rewrite Q4, Q5. split; [lia|reflexivity].
Qed.

(** C9.  Within one burn session the rows appended to the log file carry
    strictly increasing elapsedMs values; a pass whose dt is not positive
    is skipped altogether and leaves the file as it was.  The session is
    taken from ignition (at time T0, no sample accepted yet) and is assumed
    to last less than the 2^32 ms period of the millisecond counter. *)
Theorem records_strictly_increasing
    (T0 : Z) (s : State F) (inputs : list (LoopInput F)) :
  ignited T0 s ->
  clock (session inputs s) - T0 < 2 ^ 32 ->
  (exists rs : list (Row F),
     session_file (session inputs s) = session_file s ++ map DataLine rs /\
     StronglySorted Z.lt (map row_elapsed rs)) /\
  (forall (i : LoopInput F) (s' : State F),
     testInProgress s' = true -> countdownstate s' = false ->
     accepted s' = false ->
     acquireData (mass i) s' = s' /\
     session_file (loop i s') = session_file s').
Proof.
  intros Hig Hb. split.
  - destruct (session_in_session _ _ inputs s (ignited_in_session T0 s Hig) Hb)
      as (_ & _ & Tl & rs & _ & _ & _ & Hf & Hs & _).
    exists rs. split; assumption.
  - intros i s' Ht Hc Ha. split; [by apply acquireData_rejected|].
    destruct (pass_rejected i s' Ht Hc Ha)
      as ((_ & _ & _ & _ & _ & _ & _ & Q8 & Q9 & _) & _).
    unfold session_file. by rewrite Q8, Q9.
Qed.

(** C10.  In a burn session (taken from ignition, shorter than the 2^32 ms
    counter period) every call of acquireData that passes the dt guard
    divides by the sample counter after its increment: that divisor is the
    old count plus one, with no wrap-around, hence at least 1. *)
Theorem sample_divisor_positive
    (T0 : Z) (s0 : State F) (inputs : list (LoopInput F)) (m : Reading F) :
  ignited T0 s0 ->
  clock (session inputs s0) - T0 < 2 ^ 32 ->
  accepted (session inputs s0) = true ->
  let s := session inputs s0 in
  let s' := acquireData m s in
  samplecount s' = samplecount s + 1 /\
  1 <= samplecount s' /\
  avgthrust s' =
    fadd (avgthrust s)
      (fdiv (fsub (thrust s') (avgthrust s)) (of_ulong (samplecount s'))).
Proof.
  intros Hig Hb Ha s s'. subst s'.
  destruct (session_in_session _ _ inputs s0 (ignited_in_session T0 s0 Hig) Hb)
    as (_ & _ & Tl & rs & HT & Hl & Hn & _).
  fold s in HT, Hl, Hn, Hb, Ha.
  assert (Tl < clock s) as Hlt.
  { destruct (decide (Tl = clock s)) as [->|]; [|lia].
    exfalso. apply (accepted_time_advanced s Ha). unfold millis.
    by rewrite Hl. }
  rewrite acquireData_take by assumption.
  destruct (take_sample_fields m s) as (A1 & _ & _ & A4 & _ & A5 & _).
  rewrite A1, A4, A5, wrap_small by lia.
  repeat split; [lia|].
  change (row_avg (tick_row m s)) with
    (fadd (avgthrust s)
       (fdiv (fsub (tick_thrust m) (avgthrust s))
          (of_ulong (wrap (samplecount s + 1))))).
  rewrite wrap_small by lia. reflexivity.
Qed.

End Facts.

(** * Exact arithmetic *)

Section Exact.
Local Open Scope Qc_scope.
Implicit Types s : State Qc.

Lemma Qc_leb_le (x y : Qc) : Qc_leb x y = true <-> x <= y.
Proof. unfold Qc_leb, Qcle. apply Qle_bool_iff. Qed.

Lemma Qc_ltb_lt (x y : Qc) : Qc_ltb x y = true <-> x < y.
Proof.
  unfold Qc_ltb. rewrite negb_true_iff, <- not_true_iff_false.
  change (Qle_bool y x) with (Qc_leb y x). rewrite Qc_leb_le.
  symmetry. apply Qclt_nge.
Qed.

Lemma Qc_of_Z_pos (k : Z) : (0 < k)%Z -> 0 < Qc_of_Z k.
Proof. intros Hk%Z2Qc_inj_lt. by rewrite Z2Qc_inj_0 in Hk. Qed.

Lemma Qcmult_nonneg (x y : Qc) : 0 <= x -> 0 <= y -> 0 <= x * y.
Proof.
  intros Hx Hy. rewrite <- (Qcmult_0_l y). by apply Qcmult_le_compat_r.
Qed.

Lemma f0_exact : (f0 : Qc) = 0.
Proof. exact Z2Qc_inj_0. Qed.

Lemma gravity_pos : 0 < (STANDARD_GRAVITY : Qc).
Proof. reflexivity. Qed.

Lemma tick_thrust_nonneg (m : Reading Qc) : 0 <= tick_thrust m.
Proof.
  unfold tick_thrust. change (@fltb Qc _) with Qc_ltb.
  change (@fmul Qc _) with Qcmult. rewrite f0_exact.
  destruct (Qc_ltb (value m) 0) eqn:E.
  - rewrite Qcmult_0_l. apply Qcle_refl.
  - apply Qcmult_nonneg; [|apply Qclt_le_weak, gravity_pos].
    apply Qcle_ngt. intros Hlt%Qc_ltb_lt. congruence.
Qed.

Lemma accepted_dt_pos s : accepted s = true -> 0 < tick_dt s.
Proof.
  unfold accepted. intros E%negb_true_iff.
  change (@fleb Qc _) with Qc_leb in E. rewrite f0_exact in E.
  apply Qclt_nge. intros Hle%Qc_leb_le. congruence.
Qed.

Lemma running_sum_exact (a : Qc) (l : list (Qc * Qc)) :
  running_sum a l = a + sumQc (products l).
Proof.
  unfold running_sum. revert a. induction l as [|p l IH]; intros a;
    cbn [fold_left products map sumQc fold_right].
  - by rewrite Qcplus_0_r.
  - rewrite IH. change (@fadd Qc _) with Qcplus.
    change (@fmul Qc _) with Qcmult. unfold products, sumQc. ring.
Qed.

Lemma samples_positive (inputs : list (LoopInput Qc)) s :
  countdownstate s = false ->
  Forall (fun p => 0 <= fst p /\ 0 < snd p) (samples inputs s).
Proof.
  revert s. induction inputs as [|i rest IH]; intros s Hc; cbn [samples];
    [constructor|].
  destruct (testInProgress s) eqn:Ht; [|constructor].
  destruct (loop_clock_in_progress i s Ht Hc) as [_ Hc'].
  apply Forall_app. split; [|by apply IH].
  destruct (accepted s) eqn:Ha; [|constructor].
  constructor; [|constructor]. cbn [fst snd].
  split; [apply tick_thrust_nonneg|by apply accepted_dt_pos].
Qed.

(** Welford's update computes the mean when nothing is rounded. *)
Lemma running_avg_exact (ts : list Qc) (a : Qc) (n : Z) :
  (0 <= n)%Z ->
  running_avg a n ts * Qc_of_Z (n + Z.of_nat (length ts))
    = a * Qc_of_Z n + sumQc ts.
Proof.
  revert a n. induction ts as [|t ts IH]; intros a n Hn;
    cbn [running_avg length sumQc fold_right].
  - rewrite Z.add_0_r. ring.
  - replace (n + Z.of_nat (S (length ts)))%Z
      with ((n + 1) + Z.of_nat (length ts))%Z by lia.
    rewrite IH by lia. change (@fadd Qc _) with Qcplus.
    change (@fdiv Qc _) with Qcdiv. change (@fsub Qc _) with Qcminus.
    change (@of_ulong Qc _) with Qc_of_Z.
    assert (Qc_of_Z (n + 1) <> 0) as Hnz.
    { apply not_symmetry, Qclt_not_eq, Qc_of_Z_pos. lia. }
    rewrite (Z2Qc_inj_add n 1), Z2Qc_inj_1 in *.
    fold (sumQc ts). field. exact Hnz.
Qed.

Lemma session_countdown_off (inputs : list (LoopInput Qc)) s :
  countdownstate s = false -> countdownstate (session inputs s) = false.
Proof.
  revert s. induction inputs as [|i rest IH]; intros s Hc; cbn [session];
    [exact Hc|].
  destruct (testInProgress s) eqn:Ht; [|exact Hc].
  apply IH. by destruct (loop_clock_in_progress i s Ht Hc).
Qed.

(** The impulse in exact arithmetic.  On every platform the impulse
    after a burn session is the running sum of thrust_i * dt_i over the samples accepted since
    ignition, evaluated left to right in the platform's own arithmetic
    (in binary32: every product and every addition rounded).  With exact
    arithmetic it is that sum exactly, every accepted sample has
    thrust_i >= 0 and dt_i > 0, and the impulse never decreases from one
    pass to the next. *)
Theorem impulse_running_sum_monotone :
  (forall (F : Type) (P : Platform F) (T0 : Z) (s : State F)
          (inputs : list (LoopInput F)),
     ignited T0 s ->
     impulse (session inputs s) = running_sum f0 (samples inputs s)) /\
  (forall (T0 : Z) (s : State Qc) (inputs : list (LoopInput Qc))
          (i : LoopInput Qc),
     ignited T0 s ->
     impulse (session inputs s) = sumQc (products (samples inputs s)) /\
     Forall (fun p => 0 <= fst p /\ 0 < snd p) (samples inputs s) /\
     impulse (session inputs s) <= impulse (session (inputs ++ [i]) s)).
Proof.
  split.
  - intros F P T0 s inputs (_ & Hc & _ & _ & _ & _ & Hi & _).
    rewrite session_impulse by exact Hc. by rewrite Hi.
  - intros T0 s inputs i (_ & Hc & _ & _ & _ & _ & Hi & _).
    split; [|split].
    + rewrite session_impulse, running_sum_exact, Hi, f0_exact by exact Hc.
      apply Qcplus_0_l.
    + by apply samples_positive.
    + rewrite session_app. set (s1 := session inputs s).
      assert (countdownstate s1 = false) as Hc1
        by (by apply session_countdown_off).
      clearbody s1. cbn [session].
      destruct (testInProgress s1) eqn:Ht; [|apply Qcle_refl].
      destruct (accepted s1) eqn:Ha.
      * destruct (pass_accepted i s1 Ht Hc1 Ha) as (_ & P2 & _). rewrite P2.
        change (row_impulse (tick_row (mass i) s1)) with
          (impulse s1 + tick_thrust (mass i) * tick_dt s1).
        rewrite <- (Qcplus_0_r (impulse s1)) at 1.
        apply Qcplus_le_compat; [apply Qcle_refl|].
        apply Qcmult_nonneg; [apply tick_thrust_nonneg|].
        by apply Qclt_le_weak, accepted_dt_pos.
      * destruct (pass_rejected i s1 Ht Hc1 Ha) as ((_ & Q2 & _) & _).
        rewrite Q2. apply Qcle_refl.
Qed.

Lemma impulse_running_sum_monotone_witness :
  impulse (session two_ticks (fired (ratio 1 2)))
    = sumQc (products (samples two_ticks (fired (ratio 1 2)))) /\
  (impulse (session two_ticks (fired (ratio 1 2)))
   <= impulse (session (two_ticks ++ [tick 4 1 0]) (fired (ratio 1 2))))%Qc.
Proof.
  destruct (proj2 impulse_running_sum_monotone 24203 (fired (ratio 1 2))
              two_ticks (tick 4 1 0)) as (H1 & _ & H3).
  - vm_compute. repeat split; try reflexivity; discriminate.
  - split; assumption.
Defined.

(** The running average in exact arithmetic.  In a burn session taken
    from ignition and shorter than the 2^32 ms counter period, on every
    platform the sample counter is
    the number N of accepted samples and the running average is Welford's
    update folded over their thrusts in the platform's own arithmetic.
    With exact arithmetic and N >= 1 that is the arithmetic mean of
    thrust_1..thrust_N. *)
Theorem running_average_exact_mean :
  (forall (F : Type) (P : Platform F) (T0 : Z) (s : State F)
          (inputs : list (LoopInput F)),
     ignited T0 s ->
     (clock (session inputs s) - T0 < 2 ^ 32)%Z ->
     samplecount (session inputs s)
       = Z.of_nat (length (samples inputs s)) /\
     avgthrust (session inputs s)
       = running_avg f0 0 (map fst (samples inputs s))) /\
  (forall (T0 : Z) (s : State Qc) (inputs : list (LoopInput Qc)),
     ignited T0 s ->
     (clock (session inputs s) - T0 < 2 ^ 32)%Z ->
     let ts := map fst (samples inputs s) in
     ts <> [] ->
     avgthrust (session inputs s)
       = sumQc ts / Qc_of_Z (Z.of_nat (length ts))).
Proof.
  assert (forall (F : Type) (P : Platform F) (T0 : Z) (s : State F)
                 (inputs : list (LoopInput F)),
     ignited T0 s ->
     (clock (session inputs s) - T0 < 2 ^ 32)%Z ->
     samplecount (session inputs s)
       = Z.of_nat (length (samples inputs s)) /\
     avgthrust (session inputs s)
       = running_avg f0 0 (map fst (samples inputs s))) as Hgen.
  { intros F P T0 s inputs Hig Hb.
    destruct (session_counters _ _ inputs s (ignited_in_session T0 s Hig) Hb)
      as [Hn Ha].
    destruct Hig as (_ & _ & _ & _ & _ & Hn0 & _ & _ & Ha0).
    rewrite Hn0 in Hn, Ha. rewrite Ha0 in Ha. split; [lia|exact Ha]. }
  split; [exact Hgen|].
  intros T0 s inputs Hig Hb ts Hne.
  destruct (Hgen _ _ T0 s inputs Hig Hb) as [_ Ha]. fold ts in Ha.
  pose proof (running_avg_exact ts f0 0 (Z.le_refl 0)) as He.
  rewrite <- Ha, Z.add_0_l, f0_exact, Qcmult_0_l, Qcplus_0_l in He.
  assert (Qc_of_Z (Z.of_nat (length ts)) <> 0) as Hnz.
  { apply not_symmetry, Qclt_not_eq, Qc_of_Z_pos.
    destruct ts; [done|cbn [length]; lia]. }
  rewrite <- He. field. exact Hnz.
Qed.

Lemma running_average_exact_mean_witness :
  let ts := map fst (samples two_ticks (fired (ratio 1 2))) in
  avgthrust (session two_ticks (fired (ratio 1 2)))
  = (sumQc ts / Qc_of_Z (Z.of_nat (length ts)))%Qc.
Proof.
  apply (proj2 running_average_exact_mean 24203 (fired (ratio 1 2))
           two_ticks).
  - vm_compute. repeat split; try reflexivity; discriminate.
  - vm_compute. reflexivity.
  - vm_compute. discriminate.
Defined.

End Exact.

(** * The sketch in binary32 *)

Section Binary32.
Implicit Types s : State binary32.

Example gravity_binary32 :
  (STANDARD_GRAVITY : binary32) = S754_finite false 10283018 (-20).
Proof. reflexivity. Qed.

Lemma SFcompare_antisym (x y : spec_float) :
  SFcompare y x = option_map CompOpp (SFcompare x y).
Proof.
  destruct x as [sx|sx| |sx mx ex], y as [sy|sy| |sy my ey]; simpl;
    try reflexivity; try (destruct sx; reflexivity);
    try (destruct sy; reflexivity);
    try (destruct sx, sy; reflexivity).
  destruct sx, sy; try reflexivity; cbn [option_map]; f_equal;
    rewrite (Z.compare_antisym ex ey);
    destruct (ex ?= ey); cbn [CompOpp]; try reflexivity;
    rewrite (Pos.compare_cont_antisym mx my Eq); cbn [CompOpp];
    try reflexivity; by destruct (Pos.compare_cont Eq mx my).
Qed.

Lemma b32_fleb_not_fltb (x y : binary32) :
  fleb x y = true -> fltb y x = false.
Proof.
  change (SFleb x y = true -> SFltb y x = false).
  unfold SFleb, SFltb. rewrite (SFcompare_antisym x y).
  by destruct (SFcompare x y) as [[| |]|].
Qed.

(** ** The defects behind C1 and C3, on the bench *)

(** C1, the code at a failing input: the bench is powered up, the switch
    is pressed and the operator enters a mass of 0.  Calibration is
    aborted (the scale factor keeps its default 1), yet the countdown runs
    and the igniter is fired 15 s later: the pin goes high at 21003 ms, the
    burn is in progress afterwards. *)
Theorem invalid_weight_reaches_ignition :
  let s := fired (f0 : binary32) in
  said "Invalid weight entered. Calibration aborted." s = true /\
  hx_scale s = of_ulong 1 /\
  said "Starting countdown sequence..." s = true /\
  said "IGNITION!" s = true /\
  pin_log s = [(3, LOW); (21003, HIGH); (23003, LOW)] /\
  testInProgress s = true.
Proof. vm_compute. repeat split; reflexivity. Qed.

(** C3, the code at a failing input: after the burn has ended and the
    console has asked for a reset, a further press of the switch runs the
    whole sequence again in the same power cycle: second calibration,
    second countdown and second ignition, with the file name of the first
    firing still in use. *)
Theorem second_test_without_reset :
  let s1 := burnt_out in
  let s2 := run (press (ratio 1 2) :: replicate 1500 idle) s1 in
  (testInProgress s1 = false /\
   last (console s1) = Some "Reset Arduino to run another test." /\
   high_writes s1 = 1%nat) /\
  (times_said "--- HX711 Calibration ---" s2 = 2%nat /\
   times_said "Starting countdown sequence..." s2 = 2%nat /\
   times_said "IGNITION!" s2 = 2%nat /\
   high_writes s2 = 2%nat /\
   filename s2 = filename s1).
Proof. vm_compute. repeat split; reflexivity. Qed.

(** ** The file name, on the bench *)

Lemma createNewSDfile_smallest_free_witness :
  exists s' : State binary32,
    createNewSDfile true (power_on (card_files bench_boot)) = Ready s' /\
    filename s' = "2_PLT.csv".
Proof.
  apply (createNewSDfile_smallest_free true
           (power_on (card_files (bench_boot (F := binary32))))).
  - vm_compute. by eexists.
  - vm_compute. by eexists.
  - vm_compute. reflexivity.
Defined.

(** ** The Burn Monitor *)

(** C5, counterexample.  After ten passes at 50 N the thrust drops to
    0.2 N; 3000 ms after the first low reading, the thrust having been
    below 0.5 N on all 301 passes from then on, which is ">= 3000 ms", the
    Burn Monitor does not signal end-of-burn. *)
Lemma low_thrust_for_3000ms_not_signalled :
  ~ (forall s : State binary32,
       testInProgress s = true ->
       fltb (thrust s) THRUST_THRESHOLD = true ->
       lowThrustStart s <> 0 ->
       3000 <= wrap (millis s - lowThrustStart s) ->
       testInProgress (checkBurnComplete s) = false).
Proof.
  intros Hclaim. specialize (Hclaim (low_thrust_check 300)).
  assert (testInProgress (checkBurnComplete (low_thrust_check 300)) = true)
    as Hrun by (vm_compute; reflexivity).
  rewrite Hclaim in Hrun; [discriminate|vm_compute; reflexivity..| |].
  - vm_compute. discriminate.
  - vm_compute. discriminate.
Qed.

(** The run behind the counterexample: the timestamp is the time of the
    first low reading, exactly 3000 ms have passed, the burn goes on; one
    pass later it is ended. *)
Example low_thrust_3000ms_run :
  lowThrustStart (low_thrust_check 300) = 24313 /\
  millis (low_thrust_check 300) = 27313 /\
  testInProgress (checkBurnComplete (low_thrust_check 300)) = true /\
  testInProgress (checkBurnComplete (low_thrust_check 301)) = false.
Proof. vm_compute. repeat split; reflexivity. Qed.

(** Low thrust held over 351 passes (3500 ms) ends the burn, held over
    201 passes (2000 ms) it does not. *)
Example low_thrust_3500ms_ends_burn :
  testInProgress (session (high_then_low 351) (fired (ratio 1 2))) = false.
Proof. vm_compute. reflexivity. Qed.

Example low_thrust_2000ms_continues :
  testInProgress (session (high_then_low 201) (fired (ratio 1 2))) = true.
Proof. vm_compute. reflexivity. Qed.

(** C5, amended.  The Burn Monitor keeps a low-thrust-since timestamp, 0
    meaning unset: it is reset to 0 on every pass whose thrust is not below
    0.5 N (in particular when thrust >= 0.5 N), set to the current time on
    the first pass below 0.5 N and kept on the following ones.  A burn in
    progress is ended by the monitor exactly when thrust is below 0.5 N
    with the timestamp set strictly more than 3000 ms ago, or the burn
    time exceeds 60 s.  With thrust 0.2 N and the timestamp set, 3500 ms
    end the burn, 2000 ms do not (unless the 60 s timeout does). *)
Theorem low_thrust_burnout (s : State binary32) :
  testInProgress s = true ->
  lowThrustStart (checkBurnComplete s) =
    (if fltb (thrust s) THRUST_THRESHOLD then
       if lowThrustStart s =? 0 then millis s else lowThrustStart s
     else 0) /\
  (fleb THRUST_THRESHOLD (thrust s) = true ->
   lowThrustStart (checkBurnComplete s) = 0) /\
  (testInProgress (checkBurnComplete s) = false <->
   (fltb (thrust s) THRUST_THRESHOLD = true /\ lowThrustStart s <> 0 /\
    3000 < wrap (millis s - lowThrustStart s))
   \/ fltb f60 (burntime s) = true) /\
  (thrust s = ratio 1 5 -> lowThrustStart s <> 0 ->
   wrap (millis s - lowThrustStart s) = 3500 ->
   testInProgress (checkBurnComplete s) = false) /\
  (thrust s = ratio 1 5 -> lowThrustStart s <> 0 ->
   wrap (millis s - lowThrustStart s) = 2000 ->
   fltb f60 (burntime s) = false ->
   testInProgress (checkBurnComplete s) = true).
Proof.
  intros Ht.
  assert (forall b : bool,
    burnout s || timed_out s = b ->
    testInProgress (checkBurnComplete s) = negb b) as Hdec.
  { intros [|] Hb.
    - by destruct (checkBurnComplete_ends s Ht Hb).
    - by apply checkBurnComplete_continues. }
  assert (burnout s = true <->
    fltb (thrust s) THRUST_THRESHOLD = true /\ lowThrustStart s <> 0 /\
    3000 < wrap (millis s - lowThrustStart s)) as Hburn.
  { unfold burnout, LOW_THRUST_DURATION.
    rewrite !andb_true_iff, negb_true_iff, Z.eqb_neq, Z.ltb_lt. tauto. }
  split; [apply checkBurnComplete_lowThrustStart|].
  split; [|split; [|split]].
  - intros Hge. rewrite checkBurnComplete_lowThrustStart.
    by rewrite (b32_fleb_not_fltb _ _ Hge).
  - rewrite <- Hburn. change (fltb f60 (burntime s)) with (timed_out s).
    rewrite <- orb_true_iff.
    specialize (Hdec (burnout s || timed_out s) eq_refl).
    rewrite Hdec. by destruct (burnout s || timed_out s).
  - intros Hthrust Hset Hms.
    rewrite (Hdec true); [reflexivity|].
    apply orb_true_iff. left. apply Hburn. rewrite Hthrust, Hms.
    split; [reflexivity|]. split; [exact Hset|lia].
  - intros Hthrust Hset Hms Hto.
    rewrite (Hdec false); [reflexivity|].
    apply orb_false_iff. split; [|exact Hto].
    unfold burnout, LOW_THRUST_DURATION. rewrite Hms.
    apply andb_false_r.
Qed.

Lemma low_thrust_burnout_witness :
  let s := low_thrust_check 300 in
  lowThrustStart (checkBurnComplete s) = lowThrustStart s /\
  testInProgress (checkBurnComplete s) = true.
Proof.
  destruct (low_thrust_burnout (low_thrust_check 300)) as (H1 & _ & H3 & _).
  - vm_compute. reflexivity.
  - split.
    + rewrite H1. vm_compute. reflexivity.
    + apply not_false_iff_true. intros E. apply H3 in E. revert E.
      vm_compute. intros [(_ & _ & E)|E]; discriminate.
Defined.

(** C6.  Whatever the thrust, a burn in progress whose burn time exceeds
    60.0 s is ended by the Burn Monitor: the test is no longer in
    progress, the igniter output is low and the file is closed.  A burn
    time of 61.0 s does so for every thrust value. *)
Theorem safety_timeout_ends_burn (s : State binary32) :
  testInProgress s = true ->
  (fltb f60 (burntime s) = true -> burn_ended (checkBurnComplete s)) /\
  (burntime s = of_ulong 61 ->
   forall t : binary32, burn_ended (checkBurnComplete (set_thrust t s))).
Proof.
  intros Ht. split.
  - intros Hto. apply checkBurnComplete_ends; [exact Ht|].
    unfold timed_out. rewrite Hto. apply orb_true_r.
  - intros Hb t. apply checkBurnComplete_ends; [exact Ht|].
    unfold timed_out. change (burntime (set_thrust t s)) with (burntime s).
    rewrite Hb. apply orb_true_r.
Qed.

Lemma safety_timeout_ends_burn_witness :
  burn_ended (checkBurnComplete after_61s) /\
  burn_ended (checkBurnComplete (set_thrust (ratio 1 5) after_61s)).
Proof.
  destruct (safety_timeout_ends_burn after_61s) as [H1 H2].
  - vm_compute. reflexivity.
  - split.
    + apply H1. vm_compute. reflexivity.
    + apply H2. vm_compute. reflexivity.
Defined.

(** ** Accumulators and records *)

(** Rounding is visible: after the same three samples the impulse kept
    by the sketch is the rounded running sum, not the exact sum of
    thrust_i * dt_i. *)
Lemma impulse_differs_in_binary32 :
  let s0 := fired (ratio 1 2) in
  let s := session three_ticks s0 in
  ~ (b32_to_Q (impulse s) ==
     Qsum (map (fun p => b32_to_Q (fst p) * b32_to_Q (snd p))
             (samples three_ticks s0)))%Q.
Proof. vm_compute. discriminate. Qed.

(** Likewise, after three accepted samples (1 kg, 2 kg, 4 kg) the
    running average kept by the sketch is the rounded incremental update:
    neither the exact mean of the three thrusts nor the mean evaluated in
    binary32 as (t1 + t2 + t3) / 3. *)
Lemma running_average_differs_in_binary32 :
  let s0 := fired (ratio 1 2) in
  let s := session three_ticks s0 in
  let ts := map fst (samples three_ticks s0) in
  samplecount s = 3 /\ length ts = 3%nat /\
  ~ (b32_to_Q (avgthrust s) == Qsum (map b32_to_Q ts) / 3)%Q /\
  avgthrust s <> fdiv (fold_left fadd ts f0) (of_ulong 3).
Proof.
  vm_compute. repeat split; try reflexivity; discriminate.
Qed.

(** A reading that is not a number passes the clamp [mass_kg < 0]: the
    impulse and the running average are NaN from that sample on, also
    after the thrust has returned to an ordinary value. *)
Example nan_reading_is_not_clamped :
  let s := session [tick 1 1 0; tick 0 0 0; tick 1 1 0] (fired (ratio 1 2)) in
  value (mass (tick 0 0 0)) = S754_nan /\
  samplecount s = 3 /\
  thrust s = tick_thrust (reading 1 1 0) /\
  impulse s = S754_nan /\ avgthrust s = S754_nan.
Proof. vm_compute. repeat split; reflexivity. Qed.

Lemma records_strictly_increasing_witness :
  exists rs : list (Row binary32),
    session_file (session three_ticks (fired (ratio 1 2)))
      = session_file (fired (ratio 1 2)) ++ map DataLine rs /\
    StronglySorted Z.lt (map row_elapsed rs).
Proof.
  apply (records_strictly_increasing 24203 (fired (ratio 1 2)) three_ticks).
  - vm_compute. repeat split; try reflexivity; discriminate.
  - vm_compute. reflexivity.
Defined.

Lemma sample_divisor_positive_witness :
  1 <= samplecount
         (acquireData (mass (tick 1 1 0))
            (session three_ticks (fired (ratio 1 2)))).
Proof.
  apply (sample_divisor_positive 24203 (fired (ratio 1 2)) three_ticks
           (mass (tick 1 1 0))).
  - vm_compute. repeat split; try reflexivity; discriminate.
  - vm_compute. reflexivity.
  - vm_compute. reflexivity.
Defined.

End Binary32.

(** * Properties of the whole run *)

Section RunFacts.
Context {F : Type} `{Platform F}.
Implicit Types s : State F.

(** ** What never changes after [setup] *)

Lemma evolves_refl s : evolves s s.
Proof.
  repeat split; [lia|]. exists []. by rewrite app_nil_r.
Qed.

Lemma evolves_trans s1 s2 s3 :
  evolves s1 s2 -> evolves s2 s3 -> evolves s1 s3.
Proof.
  intros (Hf1 & Hh1 & Hc1 & Ho1 & rs1 & Hr1)
         (Hf2 & Hh2 & Hc2 & Ho2 & rs2 & Hr2).
  repeat split; [congruence|congruence|lia| |].
  - intros name Hn. rewrite Ho2 by congruence. by apply Ho1.
  - exists (rs1 ++ rs2). by rewrite Hr2, Hr1, map_app, app_assoc.
Qed.

Lemma evolves_same s s' :
  filename s' = filename s -> hx_ini s' = hx_ini s ->
  clock s <= clock s' -> card s' = card s -> evolves s s'.
Proof.
  intros Hf Hh Hc Hcard. repeat split; try assumption.
  - intros; by rewrite Hcard.
  - exists []. unfold session_file. by rewrite Hf, Hcard, app_nil_r.
Qed.

Lemma hxCalibrate_clock c s :
  clock (hxCalibrate c s) =
    if negb (hx_ini s) then clock s
    else
      let t := clock s + 10 * Z.of_nat (enter_polls c) + Z.of_N (tare_ms c)
               + 200 + 10 * Z.of_nat (weight_polls c) in
      if fleb (entered_weight c) f0 then t
      else t + 500 + Z.of_N (took_ms (raw c)) + 200
           + Z.of_N (took_ms (measured c)).
Proof.
  unfold hxCalibrate. destruct (hx_ini s); [|reflexivity].
  cbn [negb]. cbv zeta. rewrite !poll_delay.
  change (fleb (known_weight (set_known_weight (entered_weight c) ?x)) f0)
    with (fleb (entered_weight c) f0).
  destruct (fleb (entered_weight c) f0); reflexivity.
Qed.

Lemma hxCalibrate_evolves c s : evolves s (hxCalibrate c s).
Proof.
  apply evolves_same.
  - apply (hxCalibrate_ctl_frame c s).
  - apply (hxCalibrate_ctl_frame c s).
  - rewrite hxCalibrate_clock.
    destruct (negb (hx_ini s)); [lia|]. cbv zeta.
    destruct (fleb _ _); lia.
  - unfold hxCalibrate. destruct (hx_ini s); [|reflexivity].
    cbn [negb]. cbv zeta. rewrite !poll_delay.
    destruct (fleb _ _); reflexivity.
Qed.

Lemma open_file_content name (files : gmap string (list (line F))) :
  file_content name (open_file name files) = file_content name files.
Proof. unfold file_content at 1, open_file. by rewrite lookup_insert_eq. Qed.

Lemma igniteMotor_evolves ok s : evolves s (igniteMotor ok s).
Proof.
  destruct ok.
  - repeat split; try reflexivity.
    + change (clock s <= clock s + 2000). lia.
    + intros name Hn.
      change (open_file (filename s) (card s) !! name = card s !! name).
      unfold open_file. by apply lookup_insert_ne.
    + exists []. rewrite app_nil_r. unfold session_file.
      change (file_content (filename s) (open_file (filename s) (card s))
              = file_content (filename s) (card s)).
      apply open_file_content.
  - apply evolves_same; try reflexivity.
    change (clock s <= clock s + 2000). lia.
Qed.

Lemma countDown_evolves ok s : evolves s (countDown ok s).
Proof.
  unfold countDown. destruct (countdownstate s); [|apply evolves_refl].
  destruct (1000 <=? _); [|apply evolves_refl]. cbv zeta.
  destruct (_ <=? 0).
  - eapply evolves_trans; [|apply igniteMotor_evolves].
    apply evolves_same; reflexivity.
  - apply evolves_same; reflexivity.
Qed.

Lemma endBurn_hx_ini s : hx_ini (endBurn s) = hx_ini s.
Proof. unfold endBurn. by destruct (testInProgress s). Qed.

Lemma endBurn_evolves s : evolves s (endBurn s).
Proof.
  destruct (endBurn_frame s) as (_ & _ & _ & _ & _ & _ & _ & Hf & Hc & _).
  apply evolves_same; [exact Hf|apply endBurn_hx_ini| |exact Hc].
  rewrite endBurn_clock. lia.
Qed.

Lemma checkBurnComplete_hx_ini s :
  hx_ini (checkBurnComplete s) = hx_ini s.
Proof.
  unfold checkBurnComplete.
  destruct (fltb (thrust s) THRUST_THRESHOLD);
    [destruct (lowThrustStart s =? 0);
       [|destruct (LOW_THRUST_DURATION <? _)]|];
    cbv zeta; destruct (fltb f60 _);
    rewrite ?endBurn_hx_ini; try reflexivity.
  all: change (hx_ini (println ?m ?x)) with (hx_ini x);
    rewrite ?endBurn_hx_ini; reflexivity.
Qed.

Lemma checkBurnComplete_evolves s : evolves s (checkBurnComplete s).
Proof.
  destruct (checkBurnComplete_frame s)
    as (_ & _ & _ & _ & _ & _ & _ & Hf & Hc & _).
  apply evolves_same;
    [exact Hf|apply checkBurnComplete_hx_ini| |exact Hc].
  rewrite checkBurnComplete_clock. lia.
Qed.

Lemma acquireData_evolves m s : evolves s (acquireData m s).
Proof.
  destruct (accepted s) eqn:Ha.
  - rewrite acquireData_take by exact Ha.
    destruct (take_sample_fields m s)
      as (_ & _ & _ & _ & _ & _ & _ & _ & Hf & Hc & _ & _ & _ & Hk).
    repeat split.
    + rewrite Hk. lia.
    + intros name Hn. rewrite Hc.
      destruct (sdOpenForWrite s); [|reflexivity].
      unfold append_line. by apply lookup_insert_ne.
    + unfold session_file. rewrite Hf, Hc.
      destruct (sdOpenForWrite s).
      * exists [tick_row m s]. apply file_content_append.
      * exists []. by rewrite app_nil_r.
  - rewrite acquireData_rejected by exact Ha. apply evolves_refl.
Qed.

Lemma loop_evolves i s : evolves s (loop i s).
Proof.
  unfold loop. cbv zeta.
  match goal with |- context [countDown _ ?x] => set (s1 := x) end.
  assert (evolves s s1) as H1.
  { subst s1. destruct (_ && _); [|apply evolves_refl].
    destruct (is_low (sw_second i)).
    - eapply evolves_trans; [|apply evolves_same with
          (s := hxCalibrate (cal i)
                  (println "=== TEST SEQUENCE INITIATED ===" (delay 50 s)));
          reflexivity].
      eapply evolves_trans; [|apply hxCalibrate_evolves].
      apply evolves_same; try reflexivity.
      change (clock s <= clock s + 50). lia.
    - apply evolves_same; try reflexivity.
      change (clock s <= clock s + 50). lia. }
  clearbody s1.
  pose proof (countDown_evolves (sd_open_ok i) s1) as H2.
  set (s2 := countDown (sd_open_ok i) s1) in *. clearbody s2.
  eapply evolves_trans; [exact H1|]. eapply evolves_trans; [exact H2|].
  match goal with |- evolves s2 (delay 10 ?x) =>
    apply (evolves_trans s2 x); [|apply evolves_same; try reflexivity;
      change (clock x <= clock x + 10); lia] end.
  destruct (testInProgress s2); [|apply evolves_refl].
  eapply evolves_trans; [apply acquireData_evolves|].
  apply checkBurnComplete_evolves.
Qed.

Lemma run_evolves inputs s : evolves s (run inputs s).
Proof.
  unfold run. revert s. induction inputs as [|i rest IH]; intros s;
    cbn [fold_left]; [apply evolves_refl|].
  eapply evolves_trans; [apply loop_evolves|apply IH].
Qed.

End RunFacts.
Section BootFacts.
Context {F : Type} `{Platform F}.
Implicit Types s : State F.

(** ** [setup] *)

(** [n] unsuccessful polls of the HX711: [n] console lines and [n] waits
    of 500 ms. *)
Lemma connecting_polls (n : nat) s :
  Nat.iter n (fun x => delay 500 (println "HX711 connecting..." x)) s =
    set_clock (clock s + 500 * Z.of_nat n)
      (set_console (console s ++ replicate n "HX711 connecting...") s).
Proof.
  induction n as [|n IH].
  - destruct s. unfold set_clock, set_console. cbn. f_equal; [lia|].
    by rewrite app_nil_r.
  - rewrite Nat.iter_succ.
    etransitivity;
      [exact (f_equal
                (fun x => delay 500 (println "HX711 connecting..." x)) IH)|].
    transitivity
      (set_clock (clock s + 500 * Z.of_nat n + 500)
         (set_console
            ((console s ++ replicate n "HX711 connecting...")
               ++ ["HX711 connecting..."]) s)); [reflexivity|].
    f_equal; [lia|]. f_equal.
    rewrite <- app_assoc. f_equal. symmetry. apply replicate_cons_app.
Qed.

Lemma wait_ready_ok (n : nat) (T : Z) s :
  T <= clock s -> clock s - T + 500 * Z.of_nat n <= 5000 ->
  wait_ready n (wrap T) s =
    Ready (Nat.iter n (fun x => delay 500 (println "HX711 connecting..." x)) s).
Proof.
  revert s. induction n as [|n IH]; intros s HT Hle; [reflexivity|].
  cbn [wait_ready]. cbv zeta.
  change (millis (delay 500 (println "HX711 connecting..." s)))
    with (wrap (clock s + 500)).
  rewrite wrap_sub_wrap, wrap_small by lia.
  replace (5000 <? clock s + 500 - T) with false by (symmetry; lia).
  rewrite IH.
  - by rewrite Nat.iter_succ_r.
  - change (T <= clock s + 500). lia.
  - change (clock s + 500 - T + 500 * Z.of_nat n <= 5000). lia.
Qed.

Lemma wait_ready_hang (k n : nat) (T : Z) s :
  T <= clock s -> clock s - T + 500 * Z.of_nat k <= 5000 ->
  5000 < clock s - T + 500 * Z.of_nat (S k) -> (k < n)%nat ->
  wait_ready n (wrap T) s =
    Hung (println "HX711 failed to initialize after multiple attempts."
            (Nat.iter (S k)
               (fun x => delay 500 (println "HX711 connecting..." x)) s)).
Proof.
  revert n s. induction k as [|k IH]; intros [|n] s HT Hle Hgt Hn; try lia.
  - cbn [wait_ready]. cbv zeta.
    change (millis (delay 500 (println "HX711 connecting..." s)))
      with (wrap (clock s + 500)).
    rewrite wrap_sub_wrap, wrap_small by lia.
    replace (5000 <? clock s + 500 - T) with true by (symmetry; lia).
    reflexivity.
  - cbn [wait_ready]. cbv zeta.
    change (millis (delay 500 (println "HX711 connecting..." s)))
      with (wrap (clock s + 500)).
    rewrite wrap_sub_wrap, wrap_small by lia.
    replace (5000 <? clock s + 500 - T) with false by (symmetry; lia).
    rewrite (IH n).
    + by rewrite (Nat.iter_succ_r (S k)).
    + change (T <= clock s + 500). lia.
    + change (clock s + 500 - T + 500 * Z.of_nat k <= 5000). lia.
    + change (5000 < clock s + 500 - T + 500 * Z.of_nat (S k)). lia.
    + lia.
Qed.

Lemma millis_wrap s : millis s = wrap (clock s).
Proof. reflexivity. Qed.

Lemma initializeHX711_cases (n : nat) s :
  ((n < 10)%nat ->
   initializeHX711 n s =
     Ready (set_hx_ini true
              (println "HX711 initialized"
                 (set_clock (clock s + 500 + 500 * Z.of_nat n)
                    (set_console
                       (console s ++ replicate n "HX711 connecting...")
                       s))))) /\
  ((10 <= n)%nat ->
   initializeHX711 n s =
     Hung (println "HX711 failed to initialize after multiple attempts."
             (set_clock (clock s + 5500)
                (set_console
                   (console s ++ replicate 10 "HX711 connecting...") s)))).
Proof.
  split; intros Hn; unfold initializeHX711; cbv zeta; rewrite millis_wrap.
  - rewrite wait_ready_ok, connecting_polls.
    + reflexivity.
    + change (clock s <= clock s + 500). lia.
    + change (clock s + 500 - clock s + 500 * Z.of_nat n <= 5000). lia.
  - rewrite (wait_ready_hang 9), connecting_polls.
    + replace (clock s + 5500) with (clock s + 500 + 500 * Z.of_nat 10)
        by lia.
      reflexivity.
    + change (clock s <= clock s + 500). lia.
    + change (clock s + 500 - clock s + 500 * Z.of_nat 9 <= 5000). lia.
    + change (5000 < clock s + 500 - clock s + 500 * Z.of_nat 10). lia.
    + lia.
Qed.

(** The load cell is given ten polls, 500 ms apart after a first wait of
    500 ms: [initializeHX711] returns, with hx_ini set, exactly when
    is_ready() has failed fewer than ten times, and this takes
    500 + 500 n ms; from the tenth failure on it gives up for good, 5.5 s
    after it was called, with hx_ini left alone.  Either way it touches
    neither the igniter nor the card. *)
Theorem initializeHX711_gives_up_after_ten_polls (n : nat) s :
  match initializeHX711 n s with
  | Ready s' =>
      (n < 10)%nat /\ hx_ini s' = true /\
      clock s' = clock s + 500 + 500 * Z.of_nat n /\
      last (console s') = Some "HX711 initialized" /\
      e_match s' = e_match s /\ pin_log s' = pin_log s /\ card s' = card s
  | Hung s' =>
      (10 <= n)%nat /\ hx_ini s' = hx_ini s /\
      clock s' = clock s + 5500 /\
      last (console s')
        = Some "HX711 failed to initialize after multiple attempts." /\
      e_match s' = e_match s /\ pin_log s' = pin_log s /\ card s' = card s
  | Undefined => False
  end.
Proof.
  destruct (initializeHX711_cases n s) as [Hok Hhang].
  destruct (le_lt_dec 10 n) as [Hn|Hn].
  - rewrite (Hhang Hn). repeat split; try reflexivity; try exact Hn.
    change (console (println ?m ?x)) with (console x ++ [m]).
    apply last_snoc.
  - rewrite (Hok Hn). repeat split; try reflexivity; try exact Hn.
    change (console (set_hx_ini true (println ?m ?x)))
      with (console x ++ [m]).
    apply last_snoc.
Qed.

End BootFacts.
Section SetupFacts.
Context {F : Type} `{Platform F}.
Implicit Types s : State F.

Lemma createNewSDfile_cases ok s :
  Z.of_nat (size (card s)) < INT_MAX ->
  exists k : Z,
    0 <= k /\ card s !! plt_name k = None /\
    (forall j, 0 <= j < k -> is_Some (card s !! plt_name j)) /\
    createNewSDfile ok s =
      Ready
        (if ok then
           println ("Data file created: " +:+ plt_name k)
             (set_card (<[plt_name k := [HeaderLine]]> (card s))
                (set_filename (plt_name k) s))
         else
           println "Error: File couldn't be created"
             (set_filename (plt_name k) s)).
Proof.
  intros Hsize. pose proof INT_MAX_min as Hmax.
  destruct (free_index_exists (Z.to_nat INT_MAX) (card s)) as (j & Hj & Hf);
    [lia|].
  destruct (probe_first_free (Z.to_nat INT_MAX) 0 (card s))
    as (k & Hk & Hp & Hn & Hall); [by exists j|].
  exists k. repeat split; try assumption.
  unfold createNewSDfile. rewrite Hp. cbv zeta. destruct ok; [|reflexivity].
  change (append_line (filename (set_filename (plt_name k) s)) HeaderLine
            (card (set_filename (plt_name k) s)))
    with (append_line (plt_name k) HeaderLine (card s)).
  unfold append_line, file_content. rewrite Hn. reflexivity.
Qed.

Lemma createNewSDfile_never_hangs ok s s' :
  createNewSDfile ok s <> Hung s'.
Proof.
  unfold createNewSDfile. destruct (probe _ _ _); [|discriminate].
  cbv zeta. destruct ok; discriminate.
Qed.

(** The state [setup] hands to [initializeHX711]. *)
Lemma setup_cases (b : BootInput F) :
  setup b =
    match
      initializeHX711 (hx_not_ready b)
        (digitalWrite LOW
           (println
              "E-match: One end connected directly to +12V, other end MOSFET-switched (D9)."
              (println "=== Rocket Propulsion Test Bench ==="
                 (delay (1 * Z.of_nat (serial_polls b))
                    (power_on (card_files b))))))
    with
    | Ready s =>
        match initializeSD (sd_begin_ok b) (sd_create_ok b) s with
        | Ready s =>
            Ready
              (println "Press calibration switch to start test sequence."
                 (println "System Ready. E-match circuit SAFE (MOSFET OFF)"
                    s))
        | other => other
        end
    | other => other
    end.
Proof. unfold setup. cbv zeta. rewrite poll_delay. reflexivity. Qed.

(** [setup] hangs exactly when the HX711 fails ten polls or SD.begin
    fails.  Where it hangs nothing has been done to the card, no file name
    has been chosen and neither a countdown nor a burn has been started. *)
Theorem setup_hangs_without_load_cell_or_card (b : BootInput F) :
  ((exists s, setup b = Hung s) <->
   (10 <= hx_not_ready b)%nat \/ sd_begin_ok b = false) /\
  (forall s, setup b = Hung s ->
     card s = card_files b /\ filename s = EmptyString /\ idle_state s).
Proof.
  rewrite setup_cases.
  match goal with |- context [initializeHX711 _ ?x] => set (s1 := x) end.
  destruct (initializeHX711_cases (hx_not_ready b) s1) as [Hok Hhang].
  destruct (le_lt_dec 10 (hx_not_ready b)) as [Hn|Hn].
  { rewrite (Hhang Hn). split.
    - split; [by left|]. intros _. by eexists.
    - intros s [= <-]. repeat split; reflexivity. }
  rewrite (Hok Hn). unfold initializeSD.
  destruct (sd_begin_ok b); cbn [negb].
  - match goal with |- context [createNewSDfile _ ?x] => set (s2 := x) end.
    pose proof (createNewSDfile_never_hangs (sd_create_ok b) s2) as Hnh.
    destruct (createNewSDfile _ s2) as [s3|s3|].
    + split; [|discriminate]. split; [by intros [s [=]]|].
      intros [Hc|[=]]. lia.
    + by destruct (Hnh s3).
    + split; [|discriminate]. split; [by intros [s [=]]|].
      intros [Hc|[=]]. lia.
  - split.
    + split; [by right|]. intros _. by eexists.
    + intros s [= <-]. repeat split; reflexivity.
Qed.

(** When the HX711 answers within ten polls, SD.begin succeeds and the
    card holds fewer than INT_MAX files, [setup] returns; the HX711 flag
    is set, the sequencer is idle, the igniter has been written low once
    and is low, boot took serial_polls + 500 + 500 n ms, and the card is
    as it was found except for the new log file, which holds the header
    line and nothing else if it could be created and does not exist
    otherwise. *)
Theorem setup_ready_state (b : BootInput F) :
  Z.of_nat (size (card_files b)) < INT_MAX ->
  (hx_not_ready b < 10)%nat -> sd_begin_ok b = true ->
  exists (k : Z) (s : State F),
    setup b = Ready s /\
    hx_ini s = true /\ idle_state s /\
    e_match s = LOW /\ pin_log s = [(Z.of_nat (serial_polls b), LOW)] /\
    clock s =
      Z.of_nat (serial_polls b) + 500 + 500 * Z.of_nat (hx_not_ready b) /\
    filename s = plt_name k /\ card_files b !! plt_name k = None /\
    card s =
      (if sd_create_ok b then <[plt_name k := [HeaderLine]]> (card_files b)
       else card_files b) /\
    last (console s)
      = Some "Press calibration switch to start test sequence.".
Proof.
  intros Hsize Hn Hsd. rewrite setup_cases.
  match goal with |- context [initializeHX711 _ ?x] => set (s1 := x) end.
  rewrite (proj1 (initializeHX711_cases (hx_not_ready b) s1) Hn).
  unfold initializeSD. rewrite Hsd. cbn [negb].
  match goal with |- context [createNewSDfile _ ?x] => set (s2 := x) end.
  destruct (createNewSDfile_cases (sd_create_ok b) s2)
    as (k & Hk & Hfree & _ & Hc); [exact Hsize|].
  rewrite Hc. exists k. eexists. split; [reflexivity|].
  change (card s2) with (card_files b) in Hfree.
  destruct (sd_create_ok b); repeat split; try reflexivity;
    try exact Hfree.
  all: lazymatch goal with
       | |- pin_log _ = _ =>
           change (pin_log _)
             with [(0 + 1 * Z.of_nat (serial_polls b), LOW)];
           repeat f_equal; lia
       | |- clock _ = _ =>
           change (clock _) with
             (0 + 1 * Z.of_nat (serial_polls b) + 500
              + 500 * Z.of_nat (hx_not_ready b)); lia
       | |- last _ = _ =>
           change (console (println ?m ?x)) with (console x ++ [m]);
           apply last_snoc
       end.
Qed.

End SetupFacts.
Section SequencerFacts.
Context {F : Type} `{Platform F}.
Implicit Types s : State F.

(** ** The sequencer: trigger, countdown, ignition *)

Lemma countDown_off ok s : countdownstate s = false -> countDown ok s = s.
Proof. intros Hc. unfold countDown. by rewrite Hc. Qed.

(** In the idle state a pass of [loop] that does not see the switch low
    both before and after the 50 ms debounce wait does nothing but wait:
    10 ms when the switch is high, 60 ms when it was low at first and high
    at the second read. *)
Theorem untriggered_pass_only_waits (i : LoopInput F) s :
  idle_state s ->
  is_low (sw_first i) && is_low (sw_second i) = false ->
  loop i s = delay 10 (if is_low (sw_first i) then delay 50 s else s).
Proof.
  intros [Hc Ht] Hsw. unfold loop. rewrite Hc, Ht. cbn [negb].
  rewrite !andb_true_r.
  destruct (is_low (sw_first i)); cbn [andb] in Hsw; cbv zeta.
  - rewrite Hsw. rewrite countDown_off by exact Hc.
    change (testInProgress (delay 50 s)) with (testInProgress s).
    by rewrite Ht.
  - rewrite countDown_off by exact Hc. by rewrite Ht.
Qed.

(** While a countdown or a burn is under way the switch and everything
    the operator could enter are ignored: the pass depends on the load
    cell reading and on the outcome of SD.open only. *)
Theorem switch_ignored_while_busy (i i' : LoopInput F) s :
  countdownstate s || testInProgress s = true ->
  sd_open_ok i' = sd_open_ok i -> mass i' = mass i ->
  loop i' s = loop i s.
Proof.
  intros Hbusy Ho Hm. unfold loop. rewrite Ho, Hm.
  replace (negb (countdownstate s) && negb (testInProgress s)) with false
    by (by destruct (countdownstate s), (testInProgress s)).
  rewrite <- !andb_assoc.
  replace (negb (countdownstate s) && negb (testInProgress s)) with false
    by (by destruct (countdownstate s), (testInProgress s)).
  by rewrite !andb_false_r.
Qed.

Lemma counting_elapsed Tp n s :
  counting Tp n s -> clock s - Tp < 2 ^ 32 ->
  wrap (millis s - previoustime s) = clock s - Tp.
Proof.
  intros (_ & _ & Hp & _ & Hle) Hb. unfold millis.
  rewrite Hp, wrap_sub_wrap. apply wrap_small. lia.
Qed.

Lemma countdown_wait (i : LoopInput F) s :
  countdownstate s = true -> testInProgress s = false ->
  (1000 <=? wrap (millis s - previoustime s)) = false ->
  loop i s = delay 10 s.
Proof.
  intros Hc Ht Hdue. unfold loop. rewrite Hc. cbn [negb].
  rewrite andb_false_r. cbn [andb]. cbv zeta.
  unfold countDown. rewrite Hc, Hdue, Ht. reflexivity.
Qed.

Lemma countdown_tick (i : LoopInput F) s :
  countdownstate s = true -> testInProgress s = false ->
  (1000 <=? wrap (millis s - previoustime s)) = true ->
  (countdownTime s - 1 <=? 0) = false ->
  loop i s =
    delay 10
      (println (countdown_line (countdownTime s - 1))
         (set_countdownTime (countdownTime s - 1)
            (set_previoustime (millis s) s))).
Proof.
  intros Hc Ht Hdue Hpos. unfold loop. rewrite Hc. cbn [negb].
  rewrite andb_false_r. cbn [andb]. cbv zeta.
  unfold countDown. rewrite Hc, Hdue. cbv zeta.
  change (countdownTime
            (println ("T-" +:+ pretty
               (countdownTime
                  (set_countdownTime
                     (countdownTime (set_previoustime (millis s) s) - 1)
                     (set_previoustime (millis s) s))) +:+ " s")
               (set_countdownTime
                  (countdownTime (set_previoustime (millis s) s) - 1)
                  (set_previoustime (millis s) s))))
    with (countdownTime s - 1).
  rewrite Hpos.
  change (testInProgress (println ?m (set_countdownTime ?n
            (set_previoustime ?p s)))) with (testInProgress s).
  rewrite Ht. reflexivity.
Qed.

Lemma countdown_step (Ts : Z) (L : list (Z * level)) (E : level)
    (C : list string) (j : Z) (i : LoopInput F) s :
  0 <= j < 1499 ->
  countdown_inv Ts L E C j s -> countdown_inv Ts L E C (j + 1) (loop i s).
Proof.
  intros Hj (Hcnt & Hclk & HL & HE & HC). unfold countdown_inv.
  pose proof Hcnt as (Hc & Ht & Hp & Hn & Hle).
  pose proof (counting_elapsed _ _ s Hcnt) as Hel.
  pose proof (Z.div_mod j 100 ltac:(lia)) as Hdm.
  pose proof (Z.mod_pos_bound j 100 ltac:(lia)) as Hr.
  assert (0 <= j / 100 <= 14) as Hq by lia.
  specialize (Hel ltac:(lia)).
  destruct (decide (j mod 100 = 99)) as [Hdue|Hwait].
  - assert ((j + 1) / 100 = j / 100 + 1) as Hq'.
    { symmetry. apply (Z.div_unique _ _ _ 0); lia. }
    rewrite countdown_tick; try assumption.
    + rewrite Hq'. unfold counting. repeat split; try assumption.
      * change (wrap (clock s) = wrap (Ts + 1000 * (j / 100 + 1))).
        f_equal. lia.
      * change (countdownTime s - 1 = 15 - (j / 100 + 1)). lia.
      * change (Ts + 1000 * (j / 100 + 1) <= clock s + 10). lia.
      * change (clock s + 10 = Ts + 10 + 10 * (j + 1)). lia.
      * change (console s ++ [countdown_line (countdownTime s - 1)] =
                C ++ map (fun m => countdown_line (15 - m))
                       (seqZ 1 (j / 100 + 1))).
        rewrite HC, seqZ_app, map_app, app_assoc by lia.
        f_equal. rewrite (seqZ_cons _ 1), seqZ_nil by lia.
        cbn [map]. do 2 f_equal. lia.
    + rewrite Hel. lia.
    + lia.
  - assert ((j + 1) / 100 = j / 100) as Hq'.
    { symmetry. apply (Z.div_unique _ _ _ (j mod 100 + 1)); lia. }
    rewrite countdown_wait; try assumption.
    + rewrite Hq'. unfold counting. repeat split; try assumption.
      * change (Ts + 1000 * (j / 100) <= clock s + 10). lia.
      * change (clock s + 10 = Ts + 10 + 10 * (j + 1)). lia.
    + rewrite Hel. lia.
Qed.

Lemma countdown_run (Ts : Z) (L : list (Z * level)) (E : level)
    (C : list string) (inputs : list (LoopInput F)) (j : Z) s :
  0 <= j -> j + Z.of_nat (length inputs) <= 1499 ->
  countdown_inv Ts L E C j s ->
  countdown_inv Ts L E C (j + Z.of_nat (length inputs)) (run inputs s).
Proof.
  unfold run. revert j s.
  induction inputs as [|i rest IH]; intros j s Hj Hlen Hinv;
    cbn [fold_left length] in *.
  - by rewrite Z.add_0_r.
  - replace (j + Z.of_nat (S (length rest)))
      with ((j + 1) + Z.of_nat (length rest)) by lia.
    apply IH; [lia|lia|]. apply countdown_step; [lia|exact Hinv].
Qed.

(** The pass in which the countdown runs out, in full: the count is taken
    and printed, [igniteMotor] is run, and an acquisition pass follows on
    the state it returns. *)
Lemma ignition_pass_full (i : LoopInput F) s :
  countdownstate s = true -> testInProgress s = false ->
  (1000 <=? wrap (millis s - previoustime s)) = true ->
  (countdownTime s - 1 <=? 0) = true ->
  loop i s =
    delay 10
      (checkBurnComplete
         (acquireData (mass i)
            (igniteMotor (sd_open_ok i)
               (set_countdownstate false
                  (println (countdown_line (countdownTime s - 1))
                     (set_countdownTime (countdownTime s - 1)
                        (set_previoustime (millis s) s))))))).
Proof.
  intros Hc Ht Hdue Hzero.
  set (s0 := set_countdownstate false
               (println (countdown_line (countdownTime s - 1))
                  (set_countdownTime (countdownTime s - 1)
                     (set_previoustime (millis s) s)))).
  assert (testInProgress (igniteMotor (sd_open_ok i) s0) = true) as Ht1
    by (by destruct (sd_open_ok i)).
  unfold loop. rewrite Hc. cbn [negb]. rewrite andb_false_r. cbn [andb].
  cbv zeta. unfold countDown. rewrite Hc, Hdue. cbv zeta.
  change (countdownTime
            (println ("T-" +:+ pretty
               (countdownTime
                  (set_countdownTime
                     (countdownTime (set_previoustime (millis s) s) - 1)
                     (set_previoustime (millis s) s))) +:+ " s")
               (set_countdownTime
                  (countdownTime (set_previoustime (millis s) s) - 1)
                  (set_previoustime (millis s) s))))
    with (countdownTime s - 1).
  rewrite Hzero.
  repeat match goal with
         | |- context [igniteMotor ?o ?x] =>
             lazymatch x with s0 => fail | _ => change x with s0 end
         end.
  rewrite Ht1. reflexivity.
Qed.

(** The pass that sees the switch pressed leaves the countdown started. *)
Lemma trigger_starts_countdown (i0 : LoopInput F) s :
  idle_state s ->
  is_low (sw_first i0) = true -> is_low (sw_second i0) = true ->
  countdown_inv (clock (loop i0 s) - 10) (pin_log s) (e_match s)
    (console (loop i0 s)) 0 (loop i0 s).
Proof.
  intros [Hc Ht] H1 H2.
  assert (exists s0 : State F,
            loop i0 s = delay 10 (startCountdown s0) /\
            pin_log s0 = pin_log s /\ e_match s0 = e_match s /\
            testInProgress s0 = false) as (s0 & Es1 & HL0 & HE0 & Ht0).
  { eexists. split; [by apply loop_trigger|].
    destruct (hxCalibrate_ctl_frame (cal i0)
                (println "=== TEST SEQUENCE INITIATED ===" (delay 50 s)))
      as (HE & HL & _ & Ht0 & _).
    split; [exact HL|]. split; [exact HE|]. exact (eq_trans Ht0 Ht). }
  rewrite Es1. clear Es1. unfold countdown_inv, counting. repeat split.
  - exact Ht0.
  - change (wrap (clock s0) = wrap (clock s0 + 10 - 10 + 1000 * (0 / 100))).
    f_equal. change (0 / 100) with 0. lia.
  - change (clock s0 + 10 - 10 + 1000 * (0 / 100) <= clock s0 + 10).
    change (0 / 100) with 0. lia.
  - change (clock s0 + 10 = clock s0 + 10 - 10 + 10 + 10 * 0). lia.
  - exact HL0.
  - exact HE0.
  - change (seqZ 1 (0 / 100)) with (@nil Z). cbn [map].
    by rewrite app_nil_r.
Qed.

(** Right after [igniteMotor] no time has passed since burnStartTime was
    set: [acquireData] finds dt = 0 and returns without taking a
    sample. *)
Lemma ignited_now_rejected (T0 : Z) (m : Reading F) s :
  ignited T0 s -> clock s = T0 -> acquireData m s = s.
Proof.
  intros (_ & _ & _ & Hl & _) Hclk. apply acquireData_rejected.
  unfold accepted, tick_dt, millis. rewrite Hl, Hclk, wrap_sub_wrap, Z.sub_diag.
  change (wrap 0) with 0. apply negb_false_iff. apply zero_dt_rejected.
Qed.

(** Once started, the countdown cannot be stopped or restarted.  After the
    pass that saw the switch pressed (and ran the calibration, whatever
    its outcome), the next 1499 passes leave the igniter pin unwritten,
    whatever the switch and the operator do; they print one count every
    100 passes, T-14 s down to T-1 s.  The 1500th pass takes the last
    count and runs [igniteMotor]: the pin is driven high 15 000 ms after
    [startCountdown] and low again 2000 ms later.  That pass takes no
    sample ([acquireData] finds dt = 0); it ends with the Burn Monitor's
    check of the state [igniteMotor] returned. *)
Theorem countdown_runs_to_ignition
    (i0 : LoopInput F) (inputs : list (LoopInput F)) (i : LoopInput F) s :
  idle_state s ->
  is_low (sw_first i0) = true -> is_low (sw_second i0) = true ->
  (length inputs <= 1499)%nat ->
  let s1 := loop i0 s in
  let Ts := clock s1 - 10 in
  let s' := run inputs s1 in
  let q := Z.of_nat (length inputs) / 100 in
  (countdownstate s' = true /\ testInProgress s' = false /\
   countdownTime s' = 15 - q /\
   console s' =
     console s1 ++ map (fun m => countdown_line (15 - m)) (seqZ 1 q) /\
   pin_log s' = pin_log s /\ e_match s' = e_match s /\
   clock s' = Ts + 10 + 10 * Z.of_nat (length inputs)) /\
  (length inputs = 1499%nat ->
   exists s2 : State F,
     ignited (Ts + 17000) s2 /\
     pin_log s2 = pin_log s ++ [(Ts + 15000, HIGH); (Ts + 17000, LOW)] /\
     acquireData (mass i) s2 = s2 /\
     loop i s' = delay 10 (checkBurnComplete s2)).
Proof.
  intros [Hc Ht] H1 H2 Hlen. cbv zeta.
  pose proof (trigger_starts_countdown i0 s (conj Hc Ht) H1 H2) as Hinv.
  remember (loop i0 s) as s1 eqn:Hs1. clear Hs1.
  remember (clock s1 - 10) as Ts eqn:HTs.
  pose proof (countdown_run Ts _ _ _ inputs 0 s1 ltac:(lia) ltac:(lia) Hinv)
    as (Hcnt & Hclk & HL & HE & HC).
  rewrite Z.add_0_l in Hcnt, Hclk, HC.
  remember (run inputs s1) as s' eqn:Hs'. clear Hs'.
  remember (Z.of_nat (length inputs) / 100) as q eqn:Hq.
  pose proof Hcnt as (Hc' & Ht' & Hp & Hn & Hle).
  split; [repeat split; assumption|].
  intros Hfull.
  assert (q = 14) as Hq14 by (subst q; rewrite Hfull; reflexivity).
  assert (clock s' = Ts + 15000) as Hclk' by lia.
  pose proof (counting_elapsed _ _ s' Hcnt ltac:(lia)) as Hel.
  pose proof (igniteMotor_ignited (sd_open_ok i)
                (set_countdownstate false
                   (println (countdown_line (countdownTime s' - 1))
                      (set_countdownTime (countdownTime s' - 1)
                         (set_previoustime (millis s') s')))) eq_refl)
    as Hig.
  change (clock (set_countdownstate false _)) with (clock s') in Hig.
  pose proof (ignition_pass_full i s' Hc' Ht') as Hpass.
  rewrite Hel in Hpass. specialize (Hpass ltac:(lia) ltac:(lia)).
  match type of Hig with ignited _ (igniteMotor ?o ?x) =>
    destruct (igniteMotor_pin o x) as (_ & Hpin & _);
    assert (clock (igniteMotor o x) = clock s' + 2000) as Hclk2
      by (by destruct o);
    change (pin_log x) with (pin_log s') in Hpin;
    change (clock x) with (clock s') in Hpin;
    remember (igniteMotor o x) as s2 eqn:Hs2; clear Hs2
  end.
  assert (acquireData (mass i) s2 = s2) as Hrej
    by (by apply (ignited_now_rejected (clock s' + 2000))).
  exists s2. replace (Ts + 17000) with (clock s' + 2000) by lia.
  split; [exact Hig|]. split; [|split; [exact Hrej|]].
  - by rewrite Hpin, HL, Hclk'.
  - by rewrite Hpass, Hrej.
Qed.

End SequencerFacts.
Section ReachableFacts.
Context {F : Type} `{Platform F}.
Implicit Types s : State F.

(** ** Invariants of the states [loop] can be in *)

Lemma probe_some room i (files : gmap string (list (line F))) name :
  probe room i files = Some name ->
  exists k, i <= k /\ name = plt_name k /\ files !! name = None.
Proof.
  revert i. induction room as [|room IH]; intros i; [discriminate|].
  cbn [probe]. cbv zeta.
  destruct (SD_exists (plt_name i) files) eqn:E.
  - intros Hp. destruct (IH _ Hp) as (k & Hk & Hn & Hf).
    exists k. split; [lia|]. by split.
  - intros [= <-]. exists i. split; [lia|]. split; [reflexivity|].
    by apply SD_exists_false.
Qed.

(** What [setup] has established when it returns. *)
Lemma setup_ready_inv (b : BootInput F) s :
  setup b = Ready s ->
  hx_ini s = true /\ idle_state s /\
  card_files b !! filename s = None /\
  card s =
    (if sd_create_ok b then <[filename s := [HeaderLine]]> (card_files b)
     else card_files b).
Proof.
  rewrite setup_cases.
  match goal with |- context [initializeHX711 _ ?x] => set (s1 := x) end.
  destruct (initializeHX711_cases (hx_not_ready b) s1) as [Hok Hhang].
  destruct (le_lt_dec 10 (hx_not_ready b)) as [Hn|Hn];
    [by rewrite (Hhang Hn)|].
  rewrite (Hok Hn). unfold initializeSD.
  destruct (sd_begin_ok b); cbn [negb]; [|discriminate].
  unfold createNewSDfile.
  match goal with |- context [probe ?r ?i ?f] =>
    destruct (probe r i f) as [name|] eqn:Hp; [|discriminate];
    apply probe_some in Hp as (k & _ & -> & Hfree) end.
  change (card _ !! plt_name k = None)
    with (card_files b !! plt_name k = None) in Hfree.
  cbv zeta. destruct (sd_create_ok b); intros [= <-].
  - split; [reflexivity|]. split; [split; reflexivity|].
    split; [exact Hfree|].
    change (append_line (plt_name k) HeaderLine (card_files b) =
            <[plt_name k := [HeaderLine]]> (card_files b)).
    unfold append_line, file_content. by rewrite Hfree.
  - split; [reflexivity|]. split; [split; reflexivity|].
    split; [exact Hfree|reflexivity].
Qed.

Lemma snoc_all (l0 ms : list string) :
  fold_left (fun l m => l ++ [m]) ms l0 = l0 ++ ms.
Proof.
  revert l0. induction ms as [|m ms IH]; intros l0; cbn [fold_left].
  - by rewrite app_nil_r.
  - by rewrite IH, <- app_assoc.
Qed.

Lemma hxCalibrate_console c s :
  hx_ini s = true ->
  console (hxCalibrate c s) =
    console s ++
    [ "--- HX711 Calibration ---";
      "Remove all weight from the loadcell and press ENTER when ready...";
      "Taring (zeroing) load cell..."; "Tare completed.";
      "Place known weight on the load cell and type its mass in kg (e.g., 0.5):" ]
    ++ (if fleb (entered_weight c) f0 then
          ["Invalid weight entered. Calibration aborted."]
        else
          ["Measuring raw value... (be still)";
           "---------------------------"]).
Proof.
  intros Hi. unfold hxCalibrate. rewrite Hi. cbn [negb]. cbv zeta.
  rewrite !poll_delay.
  change (fleb (known_weight (set_known_weight (entered_weight c) ?x)) f0)
    with (fleb (entered_weight c) f0).
  destruct (fleb (entered_weight c) f0);
    lazymatch goal with
    | |- _ = ?l0 ++ ?ms =>
        transitivity (fold_left (fun l m => l ++ [m]) ms l0);
        [reflexivity|apply snoc_all]
    end.
Qed.

(** The HX711 flag is set in every state [loop] can be in: [setup] does
    not return before the load cell has answered, and nothing clears the
    flag afterwards.  So [hxCalibrate] never takes its "HX711 not
    initialized" exit; it always goes on to prompt the operator. *)
Theorem load_cell_flag_always_set s :
  reachable s ->
  hx_ini s = true /\
  forall c : CalInput F,
    exists rest : list string,
      console (hxCalibrate c s) =
        console s ++ "--- HX711 Calibration ---" :: rest.
Proof.
  intros (b & inputs & s0 & Hb & ->).
  destruct (setup_ready_inv b s0 Hb) as (Hi & _).
  destruct (run_evolves inputs s0) as (_ & Hh & _).
  rewrite Hi in Hh. split; [exact Hh|].
  intros c. rewrite (hxCalibrate_console c _ Hh).
  cbn [app]. by eexists.
Qed.

(** No log of an earlier power cycle is ever modified: whatever happens in
    [loop], every file that was on the card at power-on is still there
    with the content it had. *)
Theorem earlier_logs_never_touched
    (b : BootInput F) (s0 : State F) (inputs : list (LoopInput F))
    (name : string) (content : list (line F)) :
  setup b = Ready s0 ->
  card_files b !! name = Some content ->
  card (run inputs s0) !! name = Some content.
Proof.
  intros Hb Hfile.
  destruct (setup_ready_inv b s0 Hb) as (_ & _ & Hfree & Hcard).
  destruct (run_evolves inputs s0) as (_ & _ & _ & Hother & _).
  assert (name <> filename s0) as Hne by (intros ->; congruence).
  rewrite Hother by exact Hne. rewrite Hcard.
  destruct (sd_create_ok b); [|exact Hfile].
  rewrite lookup_insert_ne by done. exact Hfile.
Qed.

(** The file name chosen by [setup] stays in use until reset, and the
    file it names always consists of the header line (none if
    [createNewSDfile] could not create the file) followed by data rows,
    and of nothing else. *)
Theorem log_is_header_then_rows
    (b : BootInput F) (s0 : State F) (inputs : list (LoopInput F)) :
  setup b = Ready s0 ->
  filename (run inputs s0) = filename s0 /\
  exists rs : list (Row F),
    session_file (run inputs s0) =
      (if sd_create_ok b then [HeaderLine] else []) ++ map DataLine rs.
Proof.
  intros Hb.
  destruct (setup_ready_inv b s0 Hb) as (_ & _ & Hfree & Hcard).
  destruct (run_evolves inputs s0) as (Hf & _ & _ & _ & rs & Hrs).
  split; [exact Hf|]. exists rs. rewrite Hrs. f_equal.
  unfold session_file, file_content. rewrite Hcard.
  destruct (sd_create_ok b).
  - by rewrite lookup_insert_eq.
  - by rewrite Hfree.
Qed.

End ReachableFacts.
Section SessionFacts.
Context {F : Type} `{Platform F}.
Implicit Types s : State F.

(** ** What a burn session logs *)

Lemma checkBurnComplete_open s :
  testInProgress s = true ->
  testInProgress (checkBurnComplete s) = true ->
  sdOpenForWrite (checkBurnComplete s) = sdOpenForWrite s.
Proof.
  intros Ht Hgo. destruct (burnout s || timed_out s) eqn:Hor.
  { destruct (checkBurnComplete_ends s Ht Hor) as (Hend & _). congruence. }
  clear Hgo. unfold burnout, timed_out in Hor. unfold checkBurnComplete.
  destruct (fltb (thrust s) THRUST_THRESHOLD);
    [destruct (lowThrustStart s =? 0);
       [|destruct (LOW_THRUST_DURATION <? _)]|];
    cbn [andb negb orb] in Hor; cbv zeta; try discriminate.
  - change (burntime (set_lowThrustStart (millis s) s)) with (burntime s).
    rewrite Hor. reflexivity.
  - rewrite Hor. reflexivity.
  - change (burntime (set_lowThrustStart 0 s)) with (burntime s).
    rewrite Hor. reflexivity.
Qed.

Lemma acquireData_flags m s :
  testInProgress (acquireData m s) = testInProgress s /\
  sdOpenForWrite (acquireData m s) = sdOpenForWrite s.
Proof.
  destruct (accepted s) eqn:Ha.
  - rewrite acquireData_take by exact Ha.
    destruct (take_sample_fields m s)
      as (_ & _ & _ & _ & _ & _ & _ & _ & _ & _ & _ & Ht & Ho & _).
    by split.
  - by rewrite acquireData_rejected.
Qed.

Lemma pass_keeps_file_open (i : LoopInput F) s :
  testInProgress s = true -> countdownstate s = false ->
  testInProgress (loop i s) = true ->
  sdOpenForWrite (loop i s) = sdOpenForWrite s.
Proof.
  intros Ht Hc. rewrite loop_in_progress by assumption.
  destruct (acquireData_flags (mass i) s) as [Ht1 Ho1].
  change (testInProgress (delay 10 ?x)) with (testInProgress x).
  change (sdOpenForWrite (delay 10 ?x)) with (sdOpenForWrite x).
  intros Hgo. rewrite checkBurnComplete_open; [exact Ho1| |exact Hgo].
  by rewrite Ht1.
Qed.

Lemma logged_rows_ended inputs s :
  testInProgress s = false -> logged_rows inputs s = [].
Proof. intros Ht. destruct inputs; cbn [logged_rows]; by rewrite ?Ht. Qed.

Lemma session_ended inputs s :
  testInProgress s = false -> session inputs s = s.
Proof. intros Ht. destruct inputs; cbn [session]; by rewrite ?Ht. Qed.

(** The file after one pass of a burn in progress. *)
Lemma pass_file (i : LoopInput F) s :
  testInProgress s = true -> countdownstate s = false ->
  session_file (loop i s) =
    session_file s ++
    (if sdOpenForWrite s then
       map DataLine (if accepted s then [tick_row (mass i) s] else [])
     else []) /\
  (sdOpenForWrite s = false -> card (loop i s) = card s).
Proof.
  intros Ht Hc. unfold session_file. destruct (accepted s) eqn:Ha.
  - destruct (pass_accepted i s Ht Hc Ha)
      as (_ & _ & _ & _ & _ & _ & _ & P8 & P9 & _).
    rewrite P8, P9. destruct (sdOpenForWrite s).
    + split; [apply file_content_append|discriminate].
    + split; [by rewrite app_nil_r|reflexivity].
  - destruct (pass_rejected i s Ht Hc Ha)
      as ((_ & _ & _ & _ & _ & _ & _ & Q8 & Q9 & _) & _).
    rewrite Q8, Q9. split; [|reflexivity].
    destruct (sdOpenForWrite s); by rewrite app_nil_r.
Qed.

Lemma session_rows (open : bool) inputs s :
  countdownstate s = false ->
  (testInProgress s = true -> sdOpenForWrite s = open) ->
  session_file (session inputs s) =
    session_file s ++
    (if open then map DataLine (logged_rows inputs s) else []) /\
  (open = false -> card (session inputs s) = card s).
Proof.
  revert s. induction inputs as [|i rest IH]; intros s Hc Ho;
    cbn [session logged_rows].
  { split; [|reflexivity]. destruct open; by rewrite app_nil_r. }
  destruct (testInProgress s) eqn:Ht.
  2:{ split; [|reflexivity]. destruct open; by rewrite app_nil_r. }
  specialize (Ho eq_refl).
  destruct (loop_clock_in_progress i s Ht Hc) as [_ Hc'].
  destruct (pass_file i s Ht Hc) as [Hfile Hcard]. rewrite Ho in Hfile, Hcard.
  destruct (testInProgress (loop i s)) eqn:Ht'.
  - destruct (IH (loop i s) Hc') as [IH1 IH2].
    { intros _. rewrite pass_keeps_file_open by assumption. exact Ho. }
    split.
    + rewrite IH1, Hfile. destruct open; [|by rewrite !app_nil_r].
      by rewrite map_app, app_assoc.
    + intros ->. rewrite IH2 by reflexivity. by apply Hcard.
  - rewrite (session_ended rest _ Ht'), (logged_rows_ended rest _ Ht').
    rewrite app_nil_r. split; [exact Hfile|exact Hcard].
Qed.

Lemma logged_rows_thrusts inputs s :
  map row_thrust (logged_rows inputs s) = map fst (samples inputs s).
Proof.
  revert s. induction inputs as [|i rest IH]; intros s;
    cbn [logged_rows samples]; [reflexivity|].
  destruct (testInProgress s); [|reflexivity].
  rewrite !map_app, IH. by destruct (accepted s).
Qed.

(** A stretch of a session in which nothing is logged leaves the
    accumulators alone. *)
Lemma no_rows_frame inputs s :
  countdownstate s = false -> logged_rows inputs s = [] ->
  acc_frame s (session inputs s).
Proof.
  revert s. induction inputs as [|i rest IH]; intros s Hc Hrows;
    cbn [session logged_rows] in *; [apply acc_frame_refl|].
  destruct (testInProgress s) eqn:Ht; [|apply acc_frame_refl].
  apply app_eq_nil in Hrows as [Hpre Hrest].
  destruct (accepted s) eqn:Ha; [discriminate|].
  destruct (pass_rejected i s Ht Hc Ha) as [Hframe _].
  destruct (loop_clock_in_progress i s Ht Hc) as [_ Hc'].
  eapply acc_frame_trans; [exact Hframe|by apply IH].
Qed.

Lemma last_row_is_state inputs s (r : Row F) :
  countdownstate s = false ->
  last (logged_rows inputs s) = Some r ->
  row_thrust r = thrust (session inputs s) /\
  row_impulse r = impulse (session inputs s) /\
  row_avg r = avgthrust (session inputs s) /\
  row_peak r = peakthrust (session inputs s).
Proof.
  revert s. induction inputs as [|i rest IH]; intros s Hc;
    cbn [session logged_rows]; [discriminate|].
  destruct (testInProgress s) eqn:Ht; [|discriminate].
  destruct (loop_clock_in_progress i s Ht Hc) as [_ Hc'].
  rewrite last_app.
  destruct (last (logged_rows rest (loop i s))) as [r'|] eqn:Hlast.
  - intros [= ->]. by apply IH.
  - apply last_None in Hlast.
    destruct (no_rows_frame rest _ Hc' Hlast)
      as (F1 & F2 & F3 & F4 & _).
    destruct (accepted s) eqn:Ha; [|discriminate]. intros [= <-].
    destruct (pass_accepted i s Ht Hc Ha) as (P1 & P2 & P3 & P4 & _).
    rewrite F1, F2, F3, F4. by rewrite P1, P2, P3, P4.
Qed.

(** What a burn session writes to the card.  With the file open, one row
    per accepted sample is appended, in order, carrying that sample's
    thrust, and the last row carries the thrust, impulse, average and peak
    that the session ends with (the figures of the burn summary); with
    logging disabled (SD.open failed at ignition) the session leaves the
    card exactly as it was. *)
Theorem session_logs_every_accepted_sample
    (inputs : list (LoopInput F)) s :
  countdownstate s = false ->
  session_file (session inputs s) =
    session_file s ++
    (if sdOpenForWrite s then map DataLine (logged_rows inputs s) else []) /\
  (sdOpenForWrite s = false -> card (session inputs s) = card s) /\
  map row_thrust (logged_rows inputs s) = map fst (samples inputs s) /\
  (forall r : Row F,
     last (logged_rows inputs s) = Some r ->
     row_thrust r = thrust (session inputs s) /\
     row_impulse r = impulse (session inputs s) /\
     row_avg r = avgthrust (session inputs s) /\
     row_peak r = peakthrust (session inputs s)).
Proof.
  intros Hc.
  destruct (session_rows (sdOpenForWrite s) inputs s Hc ltac:(done))
    as [H1 H2].
  split; [exact H1|]. split; [exact H2|].
  split; [apply logged_rows_thrusts|].
  intros r. by apply last_row_is_state.
Qed.

(** ** Peak thrust *)

Lemma session_peak inputs s :
  countdownstate s = false ->
  peakthrust (session inputs s) =
    running_peak (peakthrust s) (map fst (samples inputs s)).
Proof.
  unfold running_peak.
  revert s. induction inputs as [|i rest IH]; intros s Hc;
    cbn [session samples]; [reflexivity|].
  destruct (testInProgress s) eqn:Ht; [|reflexivity].
  destruct (loop_clock_in_progress i s Ht Hc) as [_ Hc'].
  rewrite (IH _ Hc'), map_app, fold_left_app.
  destruct (accepted s) eqn:Ha.
  - destruct (pass_accepted i s Ht Hc Ha) as (_ & _ & P3 & _).
    rewrite P3. reflexivity.
  - destruct (pass_rejected i s Ht Hc Ha) as ((_ & _ & Q3 & _) & _).
    rewrite Q3. reflexivity.
Qed.

(** ** [endBurn] *)

Lemma endBurn_done s : testInProgress s = false -> endBurn s = s.
Proof. intros Ht. unfold endBurn. by rewrite Ht. Qed.

Lemma endBurn_effect s :
  testInProgress s = true ->
  testInProgress (endBurn s) = false /\
  pin_log (endBurn s) = pin_log s ++ [(clock s, LOW)] /\
  console (endBurn s) =
    console s ++
    ["=== BURN COMPLETE ==="; "Reset Arduino to run another test."].
Proof.
  intros Ht. unfold endBurn. rewrite Ht. cbn [negb].
  split; [reflexivity|]. split; [reflexivity|].
  lazymatch goal with
  | |- _ = ?l0 ++ ?ms =>
      transitivity (fold_left (fun l m => l ++ [m]) ms l0);
      [reflexivity|apply snoc_all]
  end.
Qed.

(** [endBurn] acts once: on a state with no burn in progress it does
    nothing, so a second call changes nothing; and when the Burn Monitor
    finds both the low-thrust condition and (after [endBurn] has
    recomputed the burn time) the timeout, the burn is still summarised
    and the pin written only once. *)
Theorem endBurn_acts_once s :
  (testInProgress s = false -> endBurn s = s) /\
  endBurn (endBurn s) = endBurn s /\
  (testInProgress s = true -> burnout s = true ->
   pin_log (checkBurnComplete s) = pin_log s ++ [(clock s, LOW)] /\
   console (checkBurnComplete s) =
     console s ++
     ["=== BURN COMPLETE ==="; "Reset Arduino to run another test."] ++
     (if timed_out (endBurn s) then ["Safety timeout reached!"] else [])).
Proof.
  split; [apply endBurn_done|]. split.
  - destruct (testInProgress s) eqn:Ht.
    + apply endBurn_done. by destruct (endBurn_effect s Ht).
    + rewrite (endBurn_done s Ht). exact (endBurn_done s Ht).
  - intros Ht Hb. unfold burnout in Hb.
    apply andb_true_iff in Hb as [Hb H3].
    apply andb_true_iff in Hb as [H1 H2]. apply negb_true_iff in H2.
    destruct (endBurn_effect s Ht) as (Hended & HL & HC).
    assert (checkBurnComplete s =
              if timed_out (endBurn s) then
                endBurn (println "Safety timeout reached!" (endBurn s))
              else endBurn s) as ->.
    { unfold checkBurnComplete. rewrite H1, H2, H3. reflexivity. }
    destruct (timed_out (endBurn s)).
    + rewrite (endBurn_done (println _ (endBurn s))) by exact Hended.
      split; [exact HL|].
      change (console (println ?m ?x)) with (console x ++ [m]).
      by rewrite HC, <- app_assoc.
    + split; [exact HL|]. by rewrite HC, app_nil_r.
Qed.

End SessionFacts.
Section TallyFacts.
Context {F : Type} `{Platform F}.
Implicit Types s : State F.

(** ** Ignitions, pulses and burn summaries *)

Lemma tally_refl s : tally 0 0 0 s s.
Proof. unfold tally. lia. Qed.

Lemma tally_trans (a b c a' b' c' : nat) s1 s2 s3 :
  tally a b c s1 s2 -> tally a' b' c' s2 s3 ->
  tally (a + a') (b + b') (c + c') s1 s3.
Proof. unfold tally. lia. Qed.

(** Lines and pin writes appended to the records. *)
Lemma tally_appended (msgs : list string) (ws : list (Z * level)) s s' :
  console s' = console s ++ msgs -> pin_log s' = pin_log s ++ ws ->
  tally (length (List.filter (String.eqb "IGNITION!") msgs))
    (length (List.filter (String.eqb "=== BURN COMPLETE ===") msgs))
    (length (List.filter (fun e => negb (is_low (snd e))) ws)) s s'.
Proof.
  intros Hc Hp. unfold tally, times_said, high_writes.
  rewrite Hc, Hp, !List.filter_app, !length_app. done.
Qed.

Lemma tally_same s s' :
  console s' = console s -> pin_log s' = pin_log s -> tally 0 0 0 s s'.
Proof.
  intros Hc Hp. apply (tally_appended [] []); by rewrite app_nil_r.
Qed.

Ltac tally_lines msgs :=
  lazymatch goal with
  | |- tally _ _ _ ?s ?s' =>
      let Hc := fresh in
      let Hp := fresh in
      assert (console s' = console s ++ msgs) as Hc
        by (transitivity (fold_left (fun l m => l ++ [m]) msgs (console s));
            [reflexivity|apply snoc_all]);
      assert (pin_log s' = pin_log s ++ []) as Hp by (by rewrite app_nil_r);
      exact (tally_appended msgs [] s s' Hc Hp)
  end.

Lemma hxCalibrate_tally c s : tally 0 0 0 s (hxCalibrate c s).
Proof.
  destruct (hxCalibrate_ctl_frame c s) as (_ & Hp & _).
  destruct (hx_ini s) eqn:Hi.
  - pose proof (hxCalibrate_console c s Hi) as Hc.
    destruct (fleb (entered_weight c) f0);
      exact (tally_appended _ [] _ _ Hc
               (eq_trans Hp (eq_sym (app_nil_r _)))).
  - apply (tally_appended
             ["HX711 not initialized. Aborting calibration."] []).
    + unfold hxCalibrate. by rewrite Hi.
    + by rewrite app_nil_r.
Qed.

Lemma igniteMotor_tally ok s : tally 1 0 1 s (igniteMotor ok s).
Proof.
  destruct (igniteMotor_pin ok s) as (_ & Hp & _).
  destruct ok.
  - refine (tally_appended ["IGNITION!"; "Data acquisition started..."]
              _ _ _ _ Hp).
    transitivity (fold_left (fun l m => l ++ [m])
                    ["IGNITION!"; "Data acquisition started..."]
                    (console s)); [reflexivity|apply snoc_all].
  - refine (tally_appended
              ["IGNITION!";
               "Warning: Unable to open SD file for writing. Logging disabled.";
               "Data acquisition started..."] _ _ _ _ Hp).
    transitivity (fold_left (fun l m => l ++ [m])
                    ["IGNITION!";
                     "Warning: Unable to open SD file for writing. Logging disabled.";
                     "Data acquisition started..."]
                    (console s)); [reflexivity|apply snoc_all].
Qed.

Lemma println_tally (m : string) s :
  String.eqb "IGNITION!" m = false ->
  String.eqb "=== BURN COMPLETE ===" m = false ->
  tally 0 0 0 s (println m s).
Proof.
  intros H1 H2.
  pose proof (tally_appended [m] [] s (println m s) eq_refl
                (eq_sym (app_nil_r _))) as Ht.
  cbn [List.filter] in Ht. by rewrite H1, H2 in Ht.
Qed.

Lemma countDown_tally ok s :
  countdownstate s && testInProgress s = false ->
  let s' := countDown ok s in
  countdownstate s' && testInProgress s' = false /\
  ((testInProgress s' = testInProgress s /\ tally 0 0 0 s s') \/
   (testInProgress s = false /\ testInProgress s' = true /\
    tally 1 0 1 s s')).
Proof.
  intros Hx. cbv zeta. unfold countDown.
  destruct (countdownstate s) eqn:Hc;
    [|split; [by rewrite Hc|left; split; [done|apply tally_refl]]].
  cbn [andb] in Hx.
  destruct (1000 <=? _);
    [|split; [by rewrite Hc, Hx|left; split; [done|apply tally_refl]]].
  cbv zeta.
  match goal with |- context [println ?m ?x] =>
    assert (tally 0 0 0 s (println m x)) as Hline
      by (apply (tally_trans 0 0 0 0 0 0 s x);
          [by apply tally_same|by apply println_tally])
  end.
  destruct (_ <=? 0).
  - match goal with |- context [igniteMotor ok ?x] =>
      pose proof (igniteMotor_tally ok x) as Hig;
      destruct (igniteMotor_pin ok x) as (_ & _ & Ht' & Hc' & _)
    end.
    rewrite Ht', Hc'. split; [reflexivity|]. right.
    split; [exact Hx|]. split; [reflexivity|].
    apply (tally_trans 0 0 0 1 0 1 s _ _ Hline).
    apply (tally_trans 0 0 0 1 0 1 _ _ _ (tally_same _ _ eq_refl eq_refl)).
    exact Hig.
  - split; [apply andb_false_iff; right; exact Hx|].
    left. split; [reflexivity|exact Hline].
Qed.

Lemma endBurn_tally s :
  testInProgress s = true ->
  testInProgress (endBurn s) = false /\ tally 0 1 0 s (endBurn s).
Proof.
  intros Ht. destruct (endBurn_effect s Ht) as (He & Hp & Hc).
  split; [exact He|]. exact (tally_appended _ _ _ _ Hc Hp).
Qed.

Lemma checkBurnComplete_tally s :
  testInProgress s = true ->
  let s' := checkBurnComplete s in
  countdownstate s' = countdownstate s /\
  ((testInProgress s' = true /\ tally 0 0 0 s s') \/
   (testInProgress s' = false /\ tally 0 1 0 s s')).
Proof.
  intros Ht. cbv zeta.
  destruct (checkBurnComplete_frame s)
    as (_ & _ & _ & _ & _ & _ & _ & _ & _ & Hcd).
  split; [exact Hcd|].
  unfold checkBurnComplete.
  assert (forall x, testInProgress x = false ->
            tally 0 0 0 x
              (if fltb f60 (burntime x)
               then endBurn (println "Safety timeout reached!" x)
               else x)) as Hafter.
  { intros x Hx. destruct (fltb f60 (burntime x)); [|apply tally_refl].
    rewrite (endBurn_done (println _ x)) by exact Hx.
    by apply println_tally. }
  assert (forall x, testInProgress x = false ->
            testInProgress
              (if fltb f60 (burntime x)
               then endBurn (println "Safety timeout reached!" x)
               else x) = false) as Hafter'.
  { intros x Hx. destruct (fltb f60 (burntime x)); [|exact Hx].
    by rewrite (endBurn_done (println _ x)). }
  assert (forall x, testInProgress x = true -> tally 0 0 0 s x ->
            let x' := if fltb f60 (burntime x)
                      then endBurn (println "Safety timeout reached!" x)
                      else x in
            (testInProgress x' = true /\ tally 0 0 0 s x') \/
            (testInProgress x' = false /\ tally 0 1 0 s x')) as Hlive.
  { intros x Hx Hs. cbv zeta. destruct (fltb f60 (burntime x)).
    - right. destruct (endBurn_tally (println "Safety timeout reached!" x) Hx)
        as [He Hy].
      split; [exact He|].
      pose proof (println_tally "Safety timeout reached!" x eq_refl eq_refl)
        as Hpl.
      exact (tally_trans 0 0 0 0 1 0 _ _ _ Hs
               (tally_trans 0 0 0 0 1 0 _ _ _ Hpl Hy)).
    - left. by split. }
  destruct (fltb (thrust s) THRUST_THRESHOLD);
    [destruct (lowThrustStart s =? 0);
       [|destruct (LOW_THRUST_DURATION <? _)]|]; cbv zeta.
  - apply (Hlive (set_lowThrustStart (millis s) s) Ht).
    by apply tally_same.
  - destruct (endBurn_tally s Ht) as [He Hy]. right.
    split; [by apply Hafter'|].
    apply (tally_trans 0 1 0 0 0 0 s _ _ Hy). by apply Hafter.
  - apply (Hlive s Ht). apply tally_refl.
  - apply (Hlive (set_lowThrustStart 0 s) Ht). by apply tally_same.
Qed.

Lemma accounted_step (di ds dh : nat) s s' :
  accounted s -> tally di ds dh s s' ->
  countdownstate s' && testInProgress s' = false ->
  dh = di ->
  (di + (if testInProgress s then 1 else 0) =
   ds + (if testInProgress s' then 1 else 0))%nat ->
  accounted s'.
Proof.
  intros (_ & Hh & Hi) (Ti & Ts & Th) Hx -> Hbal.
  unfold accounted. split; [exact Hx|]. split; lia.
Qed.

Lemma loop_accounted (i : LoopInput F) s : accounted s -> accounted (loop i s).
Proof.
  intros Hacc. pose proof Hacc as (Hx & _).
  unfold loop. cbv zeta.
  match goal with |- context [countDown _ ?x] => set (s1 := x) end.
  assert (accounted s1) as H1.
  { subst s1.
    destruct (is_low (sw_first i) && negb (countdownstate s)
              && negb (testInProgress s)) eqn:Hg; [|exact Hacc].
    apply andb_true_iff in Hg as [Hg Ht]. apply andb_true_iff in Hg as [_ Hc].
    apply negb_true_iff in Hc, Ht.
    destruct (is_low (sw_second i)).
    - set (sa := println "=== TEST SEQUENCE INITIATED ===" (delay 50 s)).
      destruct (hxCalibrate_flags (cal i) sa) as [_ Ht1].
      pose proof (hxCalibrate_tally (cal i) sa) as Hcal.
      set (sb := hxCalibrate (cal i) sa) in *.
      assert (testInProgress sb = false) as Htb
        by (rewrite Ht1; exact Ht).
      assert (tally 0 0 0 s sa) as Hsa.
      { apply (tally_trans 0 0 0 0 0 0 s (delay 50 s));
          [by apply tally_same|by apply println_tally]. }
      assert (tally 0 0 0 sb (startCountdown sb)) as Hsc.
      { apply (tally_appended ["Starting countdown sequence..."] []);
          [reflexivity|by rewrite app_nil_r]. }
      clearbody sb. clearbody sa.
      apply (accounted_step 0 0 0 s); [exact Hacc| | |reflexivity|].
      + exact (tally_trans 0 0 0 0 0 0 _ _ _ Hsa
                 (tally_trans 0 0 0 0 0 0 _ _ _ Hcal Hsc)).
      + change (testInProgress (startCountdown sb))
          with (testInProgress sb).
        rewrite Htb. apply andb_false_r.
      + change (testInProgress (startCountdown sb))
          with (testInProgress sb).
        by rewrite Htb, Ht.
    - apply (accounted_step 0 0 0 s); [exact Hacc|by apply tally_same|
        exact Hx|reflexivity|reflexivity]. }
  clearbody s1. clear Hacc Hx s.
  pose proof H1 as (Hx1 & _).
  destruct (countDown_tally (sd_open_ok i) s1 Hx1) as (Hx2 & Hcases).
  set (s2 := countDown (sd_open_ok i) s1) in *.
  assert (accounted s2) as H2.
  { destruct Hcases as [[Ht Htl]|(Ht & Ht' & Htl)].
    - apply (accounted_step 0 0 0 s1); try done. by rewrite Ht.
    - apply (accounted_step 1 0 1 s1); try done. by rewrite Ht, Ht'. }
  clearbody s2. clear H1 Hx1 Hcases s1.
  match goal with |- accounted (delay 10 ?x) =>
    assert (accounted x) as H3; [|
      apply (accounted_step 0 0 0 x); [exact H3|by apply tally_same|
        exact (proj1 H3)|reflexivity|reflexivity]]
  end.
  destruct (testInProgress s2) eqn:Ht2; [|exact H2].
  destruct (acquireData_ctl_frame (mass i) s2) as (_ & Hp & Hc & Ht & _).
  assert (accounted (acquireData (mass i) s2)) as Ha.
  { apply (accounted_step 0 0 0 s2); try done.
    - apply tally_same; [|exact Hp].
      destruct (accepted s2) eqn:Hacc.
      + rewrite acquireData_take by exact Hacc. reflexivity.
      + by rewrite acquireData_rejected.
    - rewrite Hc, Ht, Ht2. exact Hx2.
    - by rewrite Ht. }
  rewrite <- Ht in Ht2.
  destruct (checkBurnComplete_tally _ Ht2) as (Hcd & [[Hgo Htl]|[Hend Htl]]).
  - apply (accounted_step 0 0 0 (acquireData (mass i) s2)); try done.
    + rewrite Hcd, Hgo. rewrite <- Ht2. exact (proj1 Ha).
    + by rewrite Hgo, Ht2.
  - apply (accounted_step 0 1 0 (acquireData (mass i) s2)); try done.
    + rewrite Hend. apply andb_false_r.
    + by rewrite Hend, Ht2.
Qed.

Lemma filter_replicate_false {A : Type} (f : A -> bool) (n : nat) (x : A) :
  f x = false -> List.filter f (replicate n x) = [].
Proof.
  intros Hf. induction n as [|n IH]; [reflexivity|].
  cbn [replicate List.filter]. by rewrite Hf.
Qed.

Lemma setup_accounted (b : BootInput F) s : setup b = Ready s -> accounted s.
Proof.
  rewrite setup_cases.
  match goal with |- context [initializeHX711 _ ?x] => set (s1 := x) end.
  assert (accounted s1) as H1 by (repeat split; reflexivity).
  destruct (initializeHX711_cases (hx_not_ready b) s1) as [Hok Hhang].
  destruct (le_lt_dec 10 (hx_not_ready b)) as [Hn|Hn];
    [by rewrite (Hhang Hn)|].
  rewrite (Hok Hn). clear Hok Hhang.
  match goal with |- context [initializeSD _ _ ?x] => set (s2 := x) end.
  assert (accounted s2) as H2.
  { apply (accounted_step 0 0 0 s1); try done.
    pose proof (tally_appended
                  (replicate (hx_not_ready b) "HX711 connecting..."
                     ++ ["HX711 initialized"]) [] s1 s2) as Ht.
    rewrite !List.filter_app, !filter_replicate_false in Ht by reflexivity.
    apply Ht; [|by rewrite app_nil_r].
    subst s2. rewrite app_assoc. reflexivity. }
  clearbody s2. clear H1 s1.
  unfold initializeSD. destruct (sd_begin_ok b); cbn [negb]; [|discriminate].
  unfold createNewSDfile.
  match goal with |- context [probe ?r ?i ?f] =>
    destruct (probe r i f) as [name|] eqn:Hp; [|discriminate];
    apply probe_some in Hp as (k & _ & -> & _) end.
  cbv zeta. destruct (sd_create_ok b); intros [= <-].
  - apply (accounted_step 0 0 0 s2);
      [exact H2| |exact (proj1 H2)|reflexivity|reflexivity].
    tally_lines
      ["SD card initialized"; "Data file created: " +:+ plt_name k;
       "System Ready. E-match circuit SAFE (MOSFET OFF)";
       "Press calibration switch to start test sequence."].
  - apply (accounted_step 0 0 0 s2);
      [exact H2| |exact (proj1 H2)|reflexivity|reflexivity].
    tally_lines
      ["SD card initialized"; "Error: File couldn't be created";
       "System Ready. E-match circuit SAFE (MOSFET OFF)";
       "Press calibration switch to start test sequence."].
Qed.

(** At any time the sketch has driven the igniter high exactly once per
    "IGNITION!" line printed, every ignition has been followed by exactly
    one burn summary, except the one whose burn is still in progress, and
    a countdown and a burn are never under way together. *)
Theorem every_ignition_is_accounted_for s :
  reachable s ->
  countdownstate s && testInProgress s = false /\
  high_writes s = times_said "IGNITION!" s /\
  times_said "IGNITION!" s =
    (times_said "=== BURN COMPLETE ===" s
     + (if testInProgress s then 1 else 0))%nat.
Proof.
  intros (b & inputs & s0 & Hb & ->).
  apply setup_accounted in Hb. revert s0 Hb. unfold run.
  induction inputs as [|i rest IH]; intros s0 Hacc; cbn [fold_left];
    [exact Hacc|].
  apply IH. by apply loop_accounted.
Qed.

End TallyFacts.
(** * Further properties of the sketch in binary32 *)

Section Binary32Order.

(** ** The comparisons *)

Lemma SFleb_rank (x y : binary32) :
  x <> S754_nan -> y <> S754_nan ->
  (SFleb x y = true <-> le_lex (rank x) (rank y)).
Proof.
  intros Hx Hy. unfold SFleb, le_lex.
  destruct x as [sx|sx| |sx mx ex], y as [sy|sy| |sy my ey];
    try congruence; cbn [SFcompare rank];
    try (destruct sx); try (destruct sy); cbn; try (split; [lia|done]);
    try (split; [done|lia]).
  - destruct (Z.compare_spec ex ey); cbn;
      try (split; [lia|done]); try (split; [done|lia]).
    change (Pos.compare_cont Eq mx my) with (mx ?= my)%positive.
    destruct (Pos.compare_spec mx my); cbn;
      try (split; [lia|done]); try (split; [done|lia]).
  - destruct (Z.compare_spec ex ey); cbn;
      try (split; [lia|done]); try (split; [done|lia]).
    change (Pos.compare_cont Eq mx my) with (mx ?= my)%positive.
    destruct (Pos.compare_spec mx my); cbn;
      try (split; [lia|done]); try (split; [done|lia]).
Qed.

Lemma SFltb_not_nan (x y : binary32) :
  SFltb x y = true -> x <> S754_nan /\ y <> S754_nan.
Proof.
  unfold SFltb. destruct x, y; cbn [SFcompare]; try discriminate;
    intros _; split; discriminate.
Qed.

Lemma SFcompare_some (x y : binary32) :
  x <> S754_nan -> y <> S754_nan -> is_Some (SFcompare x y).
Proof. destruct x, y; try congruence; intros _ _; by eexists. Qed.

Lemma SFltb_rank (x y : binary32) :
  x <> S754_nan -> y <> S754_nan ->
  (SFltb x y = false <-> le_lex (rank y) (rank x)).
Proof.
  intros Hx Hy. rewrite <- (SFleb_rank y x Hy Hx).
  unfold SFleb, SFltb. rewrite (SFcompare_antisym x y).
  destruct (SFcompare_some x y Hx Hy) as [c ->].
  destruct c; cbn [option_map CompOpp]; split; congruence.
Qed.

Lemma le_lex_trans (a b c : Z * Z * Z) :
  le_lex a b -> le_lex b c -> le_lex a c.
Proof.
  destruct a as [[a1 a2] a3], b as [[b1 b2] b3], c as [[c1 c2] c3].
  unfold le_lex. lia.
Qed.

Lemma le_lex_refl (a : Z * Z * Z) : le_lex a a.
Proof. destruct a as [[a1 a2] a3]. unfold le_lex. lia. Qed.

(** The running maximum over binary32 values. *)
Lemma running_peak_max (ts : list binary32) (p : binary32) :
  p <> S754_nan ->
  running_peak p ts <> S754_nan /\
  le_lex (rank p) (rank (running_peak p ts)) /\
  Forall (fun t => t <> S754_nan ->
                   le_lex (rank t) (rank (running_peak p ts))) ts /\
  (running_peak p ts = p \/ running_peak p ts ∈ ts).
Proof.
  unfold running_peak. revert p.
  induction ts as [|t ts IH]; intros p Hp; cbn [fold_left].
  { split; [exact Hp|]. split; [apply le_lex_refl|].
    split; [constructor|by left]. }
  set (p' := if fltb p t then t else p).
  assert (p' <> S754_nan /\ le_lex (rank p) (rank p') /\
          (t <> S754_nan -> le_lex (rank t) (rank p')) /\
          (p' = p \/ p' = t)) as (Hp' & Hle & Ht & Hin).
  { subst p'. change (fltb p t) with (SFltb p t).
    destruct (SFltb p t) eqn:E.
    - destruct (SFltb_not_nan _ _ E) as [_ Htn].
      split; [exact Htn|]. split.
      + apply (SFleb_rank p t Hp Htn). unfold SFleb. unfold SFltb in E.
        by destruct (SFcompare p t) as [[| |]|].
      + split; [intros _; apply le_lex_refl|by right].
    - split; [exact Hp|]. split; [apply le_lex_refl|].
      split; [|by left]. intros Htn. by apply (SFltb_rank p t Hp Htn). }
  destruct (IH p' Hp') as (Hq & Hpq & Hall & Hmem).
  split; [exact Hq|]. split; [by eapply le_lex_trans|].
  split.
  - constructor; [|exact Hall].
    intros Htn. eapply le_lex_trans; [by apply Ht|exact Hpq].
  - destruct Hmem as [->|Hmem].
    + destruct Hin as [->| ->]; [by left|right; by left].
    + right. by right.
Qed.

(** ** Signs *)

Lemma is_negative_fltb (x : binary32) :
  fltb x (f0 : binary32) = is_negative x.
Proof. by destruct x as [[|]|[|]| |[|] m e]. Qed.

Lemma binary_round_aux_sign (m e : Z) (l : location) :
  is_negative (binary_round_aux 24 128 false m e l) = false.
Proof.
  unfold binary_round_aux.
  destruct (shr_fexp 24 128 m e l) as [mrs e'].
  destruct (shr_fexp 24 128 _ e' loc_Exact) as [mrs' e''].
  destruct (shr_m mrs'); [reflexivity| |reflexivity].
  by destruct (_ <=? _).
Qed.

Lemma binary_round_sign (m : positive) (e : Z) :
  is_negative (binary_round 24 128 false m e) = false.
Proof.
  unfold binary_round. destruct (shl_align _ _ _).
  apply binary_round_aux_sign.
Qed.

Lemma b32_of_Z_sign (z : Z) : 0 <= z -> is_negative (b32_of_Z z) = false.
Proof.
  intros Hz. unfold b32_of_Z, binary_normalize.
  destruct z; [reflexivity|apply binary_round_sign|lia].
Qed.

Lemma SFmul_sign (x y : binary32) :
  is_negative x = false -> is_negative y = false ->
  is_negative (SFmul 24 128 x y) = false.
Proof.
  destruct x as [sx|sx| |sx mx ex], y as [sy|sy| |sy my ey];
    cbn [is_negative SFmul]; intros; subst; try reflexivity;
    try (by destruct sx); try (by destruct sy);
    try (by destruct sx, sy).
  apply binary_round_aux_sign.
Qed.

Lemma SFdiv_sign (x : binary32) (my : positive) (ey : Z) :
  is_negative x = false ->
  is_negative (SFdiv 24 128 x (S754_finite false my ey)) = false.
Proof.
  destruct x as [sx|sx| |sx mx ex];
    cbn [is_negative SFdiv]; intros; subst; try reflexivity.
  destruct (SFdiv_core_binary _ _ _ _ _ _) as [[mz ez] lz].
  apply binary_round_aux_sign.
Qed.

Lemma SFadd_sign (x y : binary32) :
  is_negative x = false -> is_negative y = false ->
  is_negative (SFadd 24 128 x y) = false.
Proof.
  destruct x as [sx|sx| |sx mx ex], y as [sy|sy| |sy my ey];
    cbn [is_negative SFadd]; intros; subst; try reflexivity;
    try (by destruct sx); try (by destruct sy);
    try (by destruct sx, sy).
  cbn [cond_Zopp Z.add binary_normalize]. apply binary_round_sign.
Qed.

End Binary32Order.
Section CalibrationFacts.
Context {F : Type} `{Platform F}.
Implicit Types s : State F.

(** What a calibration changes: the reference mass always, the scale
    factor only if the mass passed the check. *)
Lemma hxCalibrate_values c s :
  hx_ini s = true ->
  known_weight (hxCalibrate c s) = entered_weight c /\
  hx_scale (hxCalibrate c s) =
    (if fleb (entered_weight c) f0 then hx_scale s
     else fdiv (value (raw c)) (entered_weight c)) /\
  card (hxCalibrate c s) = card s.
Proof.
  intros Hi. unfold hxCalibrate. rewrite Hi. cbn [negb]. cbv zeta.
  rewrite !poll_delay.
  change (fleb (known_weight (set_known_weight (entered_weight c) ?x)) f0)
    with (fleb (entered_weight c) f0).
  destruct (fleb (entered_weight c) f0); repeat split; reflexivity.
Qed.

End CalibrationFacts.

Section Binary32Facts.
Implicit Types s : State binary32.

(** ** Calibration *)

Lemma fleb_zero (w : binary32) :
  fleb w (f0 : binary32) = is_zero w || is_negative w.
Proof. by destruct w as [[|]|[|]| |[|] m e]. Qed.

(** [hxCalibrate] rejects exactly the masses that are zero or negative.
    Every other entry, a mass that is not a number included, is stored
    and divides the raw reading to give the new scale factor, which for
    an entry that is not a number is not a number either.  Whatever is
    entered, the calibration leaves the igniter, the sequencer flags, the
    file name and the card alone. *)
Theorem calibration_rejects_only_nonpositive
    (c : CalInput binary32) s :
  hx_ini s = true ->
  let w := entered_weight c in
  let s' := hxCalibrate c s in
  known_weight s' = w /\
  hx_scale s' =
    (if is_zero w || is_negative w then hx_scale s
     else fdiv (value (raw c)) w) /\
  (w = S754_nan -> hx_scale s' = S754_nan) /\
  ctl_frame s s' /\ card s' = card s.
Proof.
  intros Hi w s'. subst w s'.
  destruct (hxCalibrate_values c s Hi) as (Hw & Hs & Hc).
  rewrite fleb_zero in Hs.
  split; [exact Hw|]. split; [exact Hs|].
  split; [|split; [apply hxCalibrate_ctl_frame|exact Hc]].
  intros Hnan. rewrite Hs, Hnan. cbn [is_zero is_negative orb].
  change (@fdiv binary32 _) with (SFdiv 24 128).
  by destruct (value (raw c)).
Qed.

Lemma calibration_rejects_only_nonpositive_witness :
  hx_scale (hxCalibrate (operator (ratio 1 2)) booted)
    = (ratio 2000 1 : binary32).
Proof.
  destruct (calibration_rejects_only_nonpositive
              (operator (ratio 1 2)) booted) as (_ & Hs & _).
  - vm_compute. reflexivity.
  - rewrite Hs. vm_compute. reflexivity.
Defined.

(** ** Peak thrust *)

(** The peak thrust of a burn session is the running maximum of the
    thrusts of the accepted samples, starting from 0.  It is never NaN
    and never below 0, no sample whose thrust is a number compares
    greater than it, and it is 0 or the thrust of one of the samples. *)
Theorem peak_thrust_is_maximum
    (T0 : Z) s (inputs : list (LoopInput binary32)) :
  ignited T0 s ->
  let s' := session inputs s in
  let ts := map fst (samples inputs s) in
  peakthrust s' = running_peak f0 ts /\
  peakthrust s' <> S754_nan /\
  fleb f0 (peakthrust s') = true /\
  Forall (fun t => t <> S754_nan -> fleb t (peakthrust s') = true) ts /\
  (peakthrust s' = f0 \/ peakthrust s' ∈ ts).
Proof.
  intros (_ & Hc & _ & _ & _ & _ & _ & Hp & _) s' ts. subst s' ts.
  rewrite (session_peak inputs s Hc), Hp.
  assert ((f0 : binary32) <> S754_nan) as H0 by discriminate.
  destruct (running_peak_max (map fst (samples inputs s)) f0 H0)
    as (Hq & Hle & Hall & Hmem).
  split; [reflexivity|]. split; [exact Hq|].
  split; [by apply (SFleb_rank _ _ H0 Hq)|].
  split; [|exact Hmem].
  eapply Forall_impl; [exact Hall|].
  intros t Ht Hn. apply (SFleb_rank _ _ Hn Hq). by apply Ht.
Qed.

Lemma peak_thrust_is_maximum_witness :
  fleb (tick_thrust (reading 2 1 0))
    (peakthrust (session three_ticks (fired (ratio 1 2)))) = true.
Proof.
  destruct (peak_thrust_is_maximum 24203 (fired (ratio 1 2)) three_ticks)
    as (_ & _ & _ & Hall & _).
  - vm_compute. repeat split; try reflexivity; discriminate.
  - rewrite Forall_forall in Hall. apply Hall.
    + vm_compute. right. left.
    + vm_compute. discriminate.
Defined.

(** ** Signs *)

Lemma tick_thrust_sign (m : Reading binary32) :
  is_negative (tick_thrust m) = false.
Proof.
  unfold tick_thrust. apply SFmul_sign; [|reflexivity].
  rewrite is_negative_fltb. by destruct (is_negative (value m)) eqn:E.
Qed.

Lemma tick_dt_sign s : is_negative (tick_dt s) = false.
Proof.
  unfold tick_dt.
  change (@fdiv binary32 _) with (SFdiv 24 128).
  change (f1000 : binary32) with (S754_finite false 16384000 (-14)).
  apply SFdiv_sign, b32_of_Z_sign. unfold wrap.
  apply Z.mod_pos_bound. reflexivity.
Qed.

Lemma samples_sign (inputs : list (LoopInput binary32)) s :
  Forall (fun p => is_negative (fst p) = false /\
                   is_negative (snd p) = false) (samples inputs s).
Proof.
  revert s. induction inputs as [|i rest IH]; intros s; cbn [samples];
    [constructor|].
  destruct (testInProgress s); [|constructor].
  apply Forall_app. split; [|apply IH].
  destruct (accepted s); [|constructor].
  constructor; [|constructor]. cbn [fst snd].
  split; [apply tick_thrust_sign|apply tick_dt_sign].
Qed.

Lemma running_sum_sign (l : list (binary32 * binary32)) (a : binary32) :
  is_negative a = false ->
  Forall (fun p => is_negative (fst p) = false /\
                   is_negative (snd p) = false) l ->
  is_negative (running_sum a l) = false.
Proof.
  unfold running_sum. revert a.
  induction l as [|p l IH]; intros a Ha Hl; cbn [fold_left]; [exact Ha|].
  inversion Hl as [|? ? [Hp1 Hp2] Hl']; subst. apply IH; [|exact Hl'].
  apply SFadd_sign; [exact Ha|]. by apply SFmul_sign.
Qed.

(** Whatever the load cell returns (negative values, infinities, NaN),
    no accepted sample of a burn session has a negative thrust or a
    negative dt, and neither the impulse nor the peak thrust is ever
    negative. *)
Theorem readings_never_make_thrust_negative
    (T0 : Z) s (inputs : list (LoopInput binary32)) :
  ignited T0 s ->
  Forall (fun p => fltb (fst p) f0 = false /\ fltb (snd p) f0 = false)
    (samples inputs s) /\
  fltb (impulse (session inputs s)) f0 = false /\
  fltb (peakthrust (session inputs s)) f0 = false.
Proof.
  intros (_ & Hc & _ & _ & _ & _ & Hi & Hp & _).
  pose proof (samples_sign inputs s) as Hs.
  split; [|split].
  - eapply Forall_impl; [exact Hs|]. intros p [H1 H2].
    by rewrite !is_negative_fltb.
  - rewrite is_negative_fltb, (session_impulse inputs s Hc), Hi.
    by apply running_sum_sign.
  - rewrite is_negative_fltb, (session_peak inputs s Hc), Hp.
    assert ((f0 : binary32) <> S754_nan) as H0 by discriminate.
    destruct (running_peak_max (map fst (samples inputs s)) f0 H0)
      as (_ & _ & _ & [-> |Hmem]); [reflexivity|].
    apply list_elem_of_fmap in Hmem as (p & -> & Hin).
    rewrite Forall_forall in Hs. by destruct (Hs p Hin).
Qed.

Lemma readings_never_make_thrust_negative_witness :
  fltb (impulse (session [tick (-3) 1 0; tick 1 1 0] (fired (ratio 1 2))))
    (f0 : binary32) = false.
Proof.
  destruct (readings_never_make_thrust_negative 24203 (fired (ratio 1 2))
              [tick (-3) 1 0; tick 1 1 0]) as (_ & Hi & _).
  - vm_compute. repeat split; try reflexivity; discriminate.
  - exact Hi.
Defined.

End Binary32Facts.
(** * Rounding in binary32: magnitude is preserved *)

Section Binary32Rounding.

Lemma fexp_b32 (e : Z) : fexp 24 128 e = Z.max (e - 24) (-149).
Proof. reflexivity. Qed.

(** ** Number of binary digits *)

Lemma digits_bounds (p : positive) :
  2 ^ (Z.pos (digits2_pos p) - 1) <= Z.pos p < 2 ^ Z.pos (digits2_pos p).
Proof.
  induction p as [p IH|p IH|]; cbn [digits2_pos].
  - rewrite Pos2Z.inj_succ, (Pos2Z.inj_xI p).
    replace (Z.succ (Z.pos (digits2_pos p)) - 1)
      with (Z.succ (Z.pos (digits2_pos p) - 1)) by lia.
    rewrite !Z.pow_succ_r by lia. lia.
  - rewrite Pos2Z.inj_succ, (Pos2Z.inj_xO p).
    replace (Z.succ (Z.pos (digits2_pos p)) - 1)
      with (Z.succ (Z.pos (digits2_pos p) - 1)) by lia.
    rewrite !Z.pow_succ_r by lia. lia.
  - change (2 ^ 0 <= 1 < 2 ^ 1). lia.
Qed.

Lemma digits_ge (p : positive) (k : Z) :
  2 ^ (k - 1) <= Z.pos p -> k <= Z.pos (digits2_pos p).
Proof.
  intros Hk. destruct (digits_bounds p) as [_ Hu].
  destruct (Z_le_gt_dec k (Z.pos (digits2_pos p))) as [|Hgt]; [done|].
  exfalso.
  assert (2 ^ Z.pos (digits2_pos p) <= 2 ^ (k - 1))
    by (apply Z.pow_le_mono_r; lia).
  lia.
Qed.

(** ** Shifting right *)

Lemma shr_1_m (mrs : shr_record) :
  0 <= shr_m mrs -> shr_m (shr_1 mrs) = shr_m mrs / 2.
Proof.
  destruct mrs as [m r s]. cbn [shr_m]. intros Hm.
  destruct m as [|[p|p|]|p]; cbn [shr_1 shr_m]; try lia.
  - reflexivity.
  - apply (Z.div_unique _ _ _ 1); lia.
  - apply (Z.div_unique _ _ _ 0); lia.
  - reflexivity.
Qed.

Lemma iter_pos_nat {A : Type} (f : A -> A) (n : positive) (x : A) :
  SpecFloat.iter_pos f n x = Nat.iter (Pos.to_nat n) f x.
Proof.
  revert x. induction n as [n IH|n IH|]; intros x; cbn [SpecFloat.iter_pos].
  - rewrite !IH, Pos2Nat.inj_xI. cbn [Nat.mul].
    rewrite Nat.add_0_r, <- Nat.iter_add, <- Nat.iter_succ_r. done.
  - rewrite !IH, Pos2Nat.inj_xO. cbn [Nat.mul].
    by rewrite Nat.add_0_r, <- Nat.iter_add.
  - reflexivity.
Qed.

Lemma shr_iter_m (k : nat) (mrs : shr_record) :
  0 <= shr_m mrs ->
  shr_m (Nat.iter k shr_1 mrs) = shr_m mrs / 2 ^ Z.of_nat k.
Proof.
  intros Hm. induction k as [|k IH].
  - cbn [Nat.iter]. change (2 ^ Z.of_nat 0) with 1. by rewrite Z.div_1_r.
  - rewrite Nat.iter_succ, shr_1_m, IH.
    + rewrite Nat2Z.inj_succ, Z.pow_succ_r, Z.div_div by lia.
      f_equal. lia.
    + rewrite IH. apply Z.div_pos; lia.
Qed.

Lemma shr_record_of_loc_m (m : Z) (l : location) :
  shr_m (shr_record_of_loc m l) = m.
Proof. by destruct l as [|[| |]]. Qed.

(** [shr_fexp] divides by a power of two and raises the exponent by as
    much. *)
Lemma shr_fexp_spec (m e : Z) (l : location) :
  0 <= m ->
  let n := Z.max (fexp 24 128 (Zdigits2 m + e) - e) 0 in
  shr_m (fst (shr_fexp 24 128 m e l)) = m / 2 ^ n /\
  snd (shr_fexp 24 128 m e l) = e + n.
Proof.
  intros Hm n. subst n. unfold shr_fexp, shr.
  destruct (fexp 24 128 (Zdigits2 m + e) - e) as [|p|p] eqn:E.
  - cbn [fst snd Z.max]. change (Z.max 0 0) with 0.
    change (2 ^ 0) with 1.
    by rewrite Z.div_1_r, Z.add_0_r, shr_record_of_loc_m.
  - cbn [fst snd]. rewrite Z.max_l by lia.
    rewrite iter_pos_nat, shr_iter_m, shr_record_of_loc_m,
      positive_nat_Z; [done|by rewrite shr_record_of_loc_m].
  - cbn [fst snd]. rewrite Z.max_r by lia. change (2 ^ 0) with 1.
    by rewrite Z.div_1_r, Z.add_0_r, shr_record_of_loc_m.
Qed.

Lemma round_nearest_even_ge (m : Z) (l : location) :
  m <= round_nearest_even m l.
Proof.
  destruct l as [|[| |]]; cbn [round_nearest_even]; try lia.
  destruct (Z.even m); lia.
Qed.

Lemma digits_mono (p q : positive) :
  Z.pos p <= Z.pos q -> Z.pos (digits2_pos p) <= Z.pos (digits2_pos q).
Proof.
  intros Hpq. apply digits_ge. pose proof (digits_bounds p). lia.
Qed.

(** One shift of a positive significand at an exponent that is not below
    the smallest one leaves a positive significand, and the digits that
    are left make up for the exponent gained. *)
Lemma shr_fexp_keeps_magnitude (p : positive) (e : Z) (l : location) :
  -149 <= e ->
  exists (q : positive),
    shr_m (fst (shr_fexp 24 128 (Z.pos p) e l)) = Z.pos q /\
    e <= snd (shr_fexp 24 128 (Z.pos p) e l) /\
    Z.pos (digits2_pos p) + e - 24 <= snd (shr_fexp 24 128 (Z.pos p) e l) /\
    Z.pos (digits2_pos p) + e
      <= Z.pos (digits2_pos q) + snd (shr_fexp 24 128 (Z.pos p) e l).
Proof.
  intros He.
  destruct (shr_fexp_spec (Z.pos p) e l ltac:(lia)) as [Hq He'].
  rewrite Hq, He'. clear Hq He'. cbn [Zdigits2].
  pose proof (digits_bounds p) as [Hlo Hhi].
  set (dg := Z.pos (digits2_pos p)) in *.
  assert (1 <= dg) by (subst dg; lia).
  rewrite fexp_b32.
  set (n := Z.max (Z.max (dg + e - 24) (-149) - e) 0).
  assert (0 <= n <= dg - 1) as Hn by (subst n; lia).
  assert (dg - 24 <= n) as Hn' by (subst n; lia).
  assert (2 ^ (dg - 1 - n) <= Z.pos p / 2 ^ n) as Hdiv.
  { apply Z.div_le_lower_bound; [apply Z.pow_pos_nonneg; lia|].
    rewrite <- Z.pow_add_r by lia.
    replace (n + (dg - 1 - n)) with (dg - 1) by lia. exact Hlo. }
  assert (0 < 2 ^ (dg - 1 - n)) by (apply Z.pow_pos_nonneg; lia).
  destruct (Z.pos p / 2 ^ n) as [|q|q] eqn:Eq; try lia.
  exists q.
  assert (dg - n <= Z.pos (digits2_pos q)).
  { apply digits_ge. by replace (dg - n - 1) with (dg - 1 - n) by lia. }
  clearbody n. repeat split; lia.
Qed.

(** Rounding a positive significand at an exponent that is not below the
    smallest one gives a positive number or overflows: never zero, never
    a smaller magnitude class. *)
Lemma binary_round_aux_pos (mz : positive) (ez : Z) (lz : location) :
  -149 <= ez ->
  binary_round_aux 24 128 false (Z.pos mz) ez lz = S754_infinity false \/
  exists (m : positive) (e : Z),
    binary_round_aux 24 128 false (Z.pos mz) ez lz = S754_finite false m e /\
    ez <= e /\ Z.pos (digits2_pos mz) + ez - 24 <= e /\
    Z.pos (digits2_pos mz) + ez <= Z.pos (digits2_pos m) + e.
Proof.
  intros He. unfold binary_round_aux.
  destruct (shr_fexp_keeps_magnitude mz ez lz He)
    as (q1 & Hq1 & He1 & Hf1 & Hd1).
  destruct (shr_fexp 24 128 (Z.pos mz) ez lz) as [mrs1 e1].
  cbn [fst snd] in *.
  pose proof (round_nearest_even_ge (shr_m mrs1) (loc_of_shr_record mrs1))
    as Hr.
  destruct (round_nearest_even (shr_m mrs1) (loc_of_shr_record mrs1))
    as [|p2|p2] eqn:E2; try lia.
  destruct (shr_fexp_keeps_magnitude p2 e1 loc_Exact ltac:(lia))
    as (q3 & Hq3 & He3 & Hf3 & Hd3).
  destruct (shr_fexp 24 128 (Z.pos p2) e1 loc_Exact) as [mrs3 e3].
  cbn [fst snd] in *. rewrite Hq3.
  assert (Z.pos (digits2_pos q1) <= Z.pos (digits2_pos p2))
    by (apply digits_mono; lia).
  destruct (e3 <=? 128 - 24); [right|by left].
  exists q3, e3. repeat split; lia.
Qed.

(** ** Conversion of a positive integer *)

Lemma iter_xO (p k : positive) :
  Z.pos (Pos.iter xO p k) = Z.pos p * 2 ^ Z.pos k.
Proof.
  induction k as [|k IH] using Pos.peano_ind.
  - cbn [Pos.iter]. lia.
  - rewrite Pos.iter_succ, (Pos2Z.inj_xO (Pos.iter xO p k)), IH,
      Pos2Z.inj_succ, Z.pow_succ_r by lia.
    lia.
Qed.

Lemma b32_of_Z_pos (d : positive) :
  b32_of_Z (Z.pos d) = S754_infinity false \/
  exists (m : positive) (e : Z),
    b32_of_Z (Z.pos d) = S754_finite false m e /\
    -23 <= e /\
    Z.pos (digits2_pos d) <= Z.pos (digits2_pos m) + e.
Proof.
  unfold b32_of_Z, binary_normalize, binary_round, shl_align.
  rewrite fexp_b32.
  pose proof (digits_bounds d) as [Hlo _].
  set (dg := Z.pos (digits2_pos d)) in *.
  assert (1 <= dg) by (subst dg; lia).
  destruct (Z.max (dg + 0 - 24) (-149) - 0) as [|k|k] eqn:E.
  - destruct (binary_round_aux_pos d 0 loc_Exact ltac:(lia))
      as [Hi|(m & e & Hr & He & _ & Hd)]; [by left|right].
    exists m, e. fold dg in Hd. repeat split; [exact Hr|lia..].
  - destruct (binary_round_aux_pos d 0 loc_Exact ltac:(lia))
      as [Hi|(m & e & Hr & He & _ & Hd)]; [by left|right].
    exists m, e. fold dg in Hd. repeat split; [exact Hr|lia..].
  - assert (dg + Z.pos k <= Z.pos (digits2_pos (Pos.iter xO d k))) as Hk.
    { apply digits_ge. rewrite iter_xO.
      replace (dg + Z.pos k - 1) with (dg - 1 + Z.pos k) by lia.
      rewrite Z.pow_add_r by lia.
      apply Z.mul_le_mono_nonneg_r; [apply Z.pow_nonneg; lia|exact Hlo]. }
    destruct (binary_round_aux_pos (Pos.iter xO d k)
                (Z.max (dg + 0 - 24) (-149)) loc_Exact ltac:(lia))
      as [Hi|(m & e & Hr & He & _ & Hd)]; [by left|right].
    exists m, e. repeat split; [exact Hr|lia..].
Qed.

(** ** Division by 1000 *)

Lemma div1000_pos (m1 : positive) (e1 : Z) :
  -23 <= e1 ->
  SFdiv 24 128 (S754_finite false m1 e1) (f1000 : binary32) = S754_infinity false \/
  exists (m : positive) (e : Z),
    SFdiv 24 128 (S754_finite false m1 e1) (f1000 : binary32) = S754_finite false m e /\
    Z.min (Z.pos (digits2_pos m1) + e1 - 34) (e1 + 14) <= e.
Proof.
  intros He1.
  change (f1000 : binary32) with (S754_finite false 16384000 (-14)).
  unfold SFdiv, SFdiv_core_binary.
  cbn [xorb Zdigits2].
  change (Z.pos (digits2_pos 16384000)) with 24.
  rewrite fexp_b32.
  pose proof (digits_bounds m1) as [Hlo _].
  set (d1 := Z.pos (digits2_pos m1)) in *.
  assert (1 <= d1) by (subst d1; lia).
  change IntDef.Z.min with Z.min. change IntDef.Z.shiftl with Z.shiftl.
  change IntDef.Z.div_eucl with Z.div_eucl.
  replace (Z.min (Z.max (d1 + e1 - (24 + -14) - 24) (-149)) (e1 - -14))
    with (Z.min (d1 + e1 - 34) (e1 + 14)) by lia.
  set (e' := Z.min (d1 + e1 - 34) (e1 + 14)).
  set (s := e1 - -14 - e').
  assert (0 <= s /\ 47 <= d1 - 1 + s) as [Hs0 Hs] by (subst s e'; lia).
  set (m' := match s with
             | 0 => Z.pos m1 | Z.pos _ => Z.shiftl (Z.pos m1) s
             | Z.neg _ => 0 end).
  assert (m' = Z.pos m1 * 2 ^ s) as Hm'.
  { subst m'. destruct s as [|k|k] eqn:Es; [change (2 ^ 0) with 1; lia| |lia].
    by rewrite Z.shiftl_mul_pow2. }
  assert (2 ^ 47 <= m') as Hbig.
  { rewrite Hm'.
    transitivity (2 ^ (d1 - 1) * 2 ^ s).
    - rewrite <- Z.pow_add_r by lia. apply Z.pow_le_mono_r; lia.
    - apply Z.mul_le_mono_nonneg_r; [apply Z.pow_nonneg; lia|exact Hlo]. }
  clearbody m'.
  assert (1 <= m' / 16384000) as Hq
    by (apply Z.div_le_lower_bound; lia).
  unfold Z.div in Hq.
  destruct (Z.div_eucl m' 16384000) as [q r]. cbn [fst] in Hq.
  destruct q as [|q|q]; try lia.
  destruct (binary_round_aux_pos q e' (new_location 16384000 r)
              ltac:(subst e'; lia))
    as [Hi|(m & e & Hr & He & _)]; [by left|right].
  exists m, e. split; [exact Hr|exact He].
Qed.

(** ** The two comparisons of the sketch on an elapsed time *)

(** A positive number of milliseconds, divided by 1000, is never zero or
    less: the quotient does not underflow. *)
Lemma dt_positive (d : Z) :
  1 <= d -> SFleb (SFdiv 24 128 (b32_of_Z d) (f1000 : binary32)) (f0 : binary32) = false.
Proof.
  intros Hd. destruct d as [|d|d]; try lia.
  destruct (b32_of_Z_pos d) as [->|(m1 & e1 & -> & He1 & _)];
    [reflexivity|].
  by destruct (div1000_pos m1 e1 He1) as [->|(m & e & -> & _)].
Qed.

Lemma burntime_over_60_large (d : Z) :
  2 ^ 16 <= d -> SFltb (f60 : binary32) (SFdiv 24 128 (b32_of_Z d) (f1000 : binary32)) = true.
Proof.
  intros Hd. destruct d as [|d|d]; try lia.
  assert (17 <= Z.pos (digits2_pos d)) by (by apply digits_ge).
  destruct (b32_of_Z_pos d) as [->|(m1 & e1 & -> & He1 & Hd1)];
    [reflexivity|].
  destruct (div1000_pos m1 e1 He1) as [->|(m & e & -> & He)];
    [reflexivity|].
  change (f60 : binary32) with (S754_finite false 15728640 (-18)).
  unfold SFltb, SFcompare.
  assert (-18 < e) as Hlt by lia.
  apply Z.compare_lt_iff in Hlt. by rewrite Hlt.
Qed.

Lemma all_from_spec (f : Z -> bool) (n : nat) (d x : Z) :
  all_from f n d = true -> d <= x < d + Z.of_nat n -> f x = true.
Proof.
  revert d. induction n as [|n IH]; intros d Hall Hx; [lia|].
  cbn [all_from] in Hall. apply andb_true_iff in Hall as [Hd Hrest].
  destruct (decide (x = d)) as [->|]; [exact Hd|].
  apply (IH (d + 1)); [exact Hrest|lia].
Qed.

Lemma burntime_over_60_small :
  all_from (fun d => SFltb (f60 : binary32)
                       (SFdiv 24 128 (b32_of_Z d) (f1000 : binary32)))
    (Z.to_nat 5535) 60001 = true.
Proof. vm_compute. reflexivity. Qed.

(** More than 60000 ms, divided by 1000, compares greater than 60. *)
Lemma burntime_over_60 (d : Z) :
  60000 < d ->
  SFltb (f60 : binary32) (SFdiv 24 128 (b32_of_Z d) (f1000 : binary32))
    = true.
Proof.
  intros Hd. destruct (Z_lt_ge_dec d (2 ^ 16)) as [Hs|Hl].
  - apply (all_from_spec _ _ _ d burntime_over_60_small). lia.
  - apply burntime_over_60_large. lia.
Qed.

(** And 60000 ms or less does not. *)
Lemma burntime_upto_60_small :
  all_from (fun d => negb (SFltb (f60 : binary32)
                             (SFdiv 24 128 (b32_of_Z d) (f1000 : binary32))))
    (Z.to_nat 60001) 0 = true.
Proof. vm_compute. reflexivity. Qed.

Lemma burntime_upto_60 (d : Z) :
  0 <= d <= 60000 ->
  SFltb (f60 : binary32) (SFdiv 24 128 (b32_of_Z d) (f1000 : binary32))
    = false.
Proof.
  intros Hd. apply negb_true_iff.
  apply (all_from_spec _ _ _ d burntime_upto_60_small). lia.
Qed.

End Binary32Rounding.
(** * Sampling and the safety timeout, pass by pass *)

Section SamplingFacts.
Context {F : Type} `{Platform F}.
Implicit Types s : State F.

(** After a pass of a burn in progress the last accepted sample lies
    strictly in the past: the pass ends with a delay of 10 ms. *)
Lemma pass_last_sample T0 (i : LoopInput F) s :
  testInProgress s = true -> countdownstate s = false ->
  (exists Tl, lastsampletime s = wrap Tl /\ T0 <= Tl <= clock s) ->
  exists Tl, lastsampletime (loop i s) = wrap Tl /\
             T0 <= Tl < clock (loop i s).
Proof.
  intros Ht Hc (Tl & Hl & HT). destruct (accepted s) eqn:Ha.
  - destruct (pass_accepted i s Ht Hc Ha)
      as (_ & _ & _ & _ & _ & P6 & _ & _ & _ & _ & P11).
    exists (clock s). split; [exact P6|]. lia.
  - destruct (pass_rejected i s Ht Hc Ha)
      as ((_ & _ & _ & _ & _ & Q6 & _) & Qc).
    exists Tl. split; [congruence|lia].
Qed.

Lemma session_last_sample T0 inputs s :
  countdownstate s = false ->
  (exists Tl, lastsampletime s = wrap Tl /\ T0 <= Tl < clock s) ->
  exists Tl, lastsampletime (session inputs s) = wrap Tl /\
             T0 <= Tl < clock (session inputs s).
Proof.
  revert s. induction inputs as [|i rest IH]; intros s Hc HJ;
    cbn [session]; [exact HJ|].
  destruct (testInProgress s) eqn:Ht; [|exact HJ].
  destruct (loop_clock_in_progress i s Ht Hc) as [_ Hc'].
  apply IH; [exact Hc'|]. apply pass_last_sample; try assumption.
  destruct HJ as (Tl & Hl & HT). exists Tl. split; [exact Hl|lia].
Qed.

(** In a session that began at ignition, once the clock has moved past
    the ignition time the last sample is strictly older than the clock. *)
Lemma ignited_last_sample T0 inputs s0 :
  ignited T0 s0 -> T0 < clock (session inputs s0) ->
  exists Tl, lastsampletime (session inputs s0) = wrap Tl /\
             T0 <= Tl < clock (session inputs s0).
Proof.
  intros (Ht & Hc & _ & Hl & Hle & _) Hlt.
  destruct inputs as [|i rest]; cbn [session] in *.
  { exists T0. split; [exact Hl|lia]. }
  rewrite Ht in *.
  destruct (loop_clock_in_progress i s0 Ht Hc) as [_ Hc'].
  apply session_last_sample; [exact Hc'|].
  apply pass_last_sample; try assumption.
  exists T0. split; [exact Hl|lia].
Qed.

Lemma session_countdown_false inputs s :
  countdownstate s = false -> countdownstate (session inputs s) = false.
Proof.
  revert s. induction inputs as [|i rest IH]; intros s Hc; cbn [session];
    [exact Hc|].
  destruct (testInProgress s) eqn:Ht; [|exact Hc].
  apply IH. by destruct (loop_clock_in_progress i s Ht Hc).
Qed.

Lemma passes_run_ended inputs s :
  testInProgress s = false -> passes_run inputs s = O.
Proof. intros Ht. destruct inputs; cbn [passes_run]; by rewrite ?Ht. Qed.

Lemma samples_ended inputs s :
  testInProgress s = false -> samples inputs s = [].
Proof. intros Ht. destruct inputs; cbn [samples]; by rewrite ?Ht. Qed.

(** The elapsed time [acquireData] and [endBurn] compute from two wrapped
    clock readings. *)
Lemma elapsed_wrap (a b : Z) :
  b <= a -> a - b < 2 ^ 32 -> wrap (wrap a - wrap b) = a - b.
Proof. intros Hle Hlt. rewrite wrap_sub_wrap. apply wrap_small. lia. Qed.

Lemma burn_ended_delay (ms : Z) s : burn_ended s -> burn_ended (delay ms s).
Proof. intros Hb. exact Hb. Qed.

End SamplingFacts.

Section Binary32Timing.
Implicit Types s : State binary32.

(** [acquireData] skips a sample only if the millisecond counter has not
    moved since the previous one. *)
Lemma accepted_iff_time_advanced s :
  accepted s = negb (wrap (millis s - lastsampletime s) =? 0).
Proof.
  unfold accepted, tick_dt.
  assert (0 <= wrap (millis s - lastsampletime s) < 2 ^ 32) as Hr
    by (apply Z.mod_pos_bound; lia).
  destruct (Z.eqb_spec (wrap (millis s - lastsampletime s)) 0) as [->|Hne].
  - reflexivity.
  - cbn [negb].
    change (@fleb binary32 _) with SFleb.
    change (@fdiv binary32 _) with (SFdiv 24 128).
    change (@of_ulong binary32 _) with b32_of_Z.
    rewrite dt_positive by lia. reflexivity.
Qed.

Lemma accepted_after T0 s Tl :
  lastsampletime s = wrap Tl -> T0 <= Tl < clock s ->
  clock s - T0 < 2 ^ 32 ->
  accepted s = true.
Proof.
  intros Hl HT Hb. rewrite accepted_iff_time_advanced. unfold millis.
  rewrite Hl, elapsed_wrap by lia.
  destruct (Z.eqb_spec (clock s - Tl) 0); [lia|reflexivity].
Qed.

(** Once past the ignition pass, a session samples on every pass. *)
Lemma samples_every_pass T0 inputs s :
  countdownstate s = false ->
  (exists Tl, lastsampletime s = wrap Tl /\ T0 <= Tl < clock s) ->
  clock (session inputs s) - T0 < 2 ^ 32 ->
  length (samples inputs s) = passes_run inputs s.
Proof.
  revert s. induction inputs as [|i rest IH]; intros s Hc HJ Hb;
    cbn [session samples passes_run] in *; [reflexivity|].
  destruct (testInProgress s) eqn:Ht; [|reflexivity].
  destruct (loop_clock_in_progress i s Ht Hc) as [Hle Hc'].
  pose proof (session_clock_mono rest _ Hc') as Hmono.
  destruct HJ as (Tl & Hl & HT).
  rewrite (accepted_after T0 s Tl Hl HT) by lia.
  cbn [app length]. f_equal.
  apply IH; [exact Hc'| |exact Hb].
  apply pass_last_sample; try assumption.
  exists Tl. split; [exact Hl|lia].
Qed.

(** One sample per pass.  From ignition until the burn ends (and for
    2^32 ms at most) every pass of [loop] takes a sample: no interval of
    a millisecond or more is lost to rounding, and each pass ends 10 ms
    or more after it read the clock.  The one exception is a first pass
    that reads the clock in the very millisecond of the ignition.  The
    sample counter of the sketch is that number of passes. *)
Theorem one_sample_per_pass T0 (s0 : State binary32)
    (inputs : list (LoopInput binary32)) :
  ignited T0 s0 ->
  clock (session inputs s0) - T0 < 2 ^ 32 ->
  let skipped := if clock s0 =? T0 then 1%nat else 0%nat in
  length (samples inputs s0) = (passes_run inputs s0 - skipped)%nat /\
  samplecount (session inputs s0)
    = Z.of_nat (passes_run inputs s0 - skipped).
Proof.
  intros Hig Hb skipped.
  assert (length (samples inputs s0) = (passes_run inputs s0 - skipped)%nat)
    as Hlen.
  { subst skipped. pose proof Hig as (Ht & Hc & _ & Hl & Hle & _).
    destruct inputs as [|i rest]; cbn [session samples passes_run] in *.
    { by destruct (clock s0 =? T0). }
    rewrite Ht in *.
    destruct (loop_clock_in_progress i s0 Ht Hc) as [Hmono Hc'].
    assert (exists Tl, lastsampletime (loop i s0) = wrap Tl /\
                       T0 <= Tl < clock (loop i s0)) as HJ.
    { apply pass_last_sample; try assumption.
      exists T0. split; [exact Hl|lia]. }
    rewrite length_app, (samples_every_pass T0 rest _ Hc' HJ Hb).
    destruct (Z.eqb_spec (clock s0) T0) as [Heq|Hne].
    - assert (accepted s0 = false) as ->.
      { rewrite accepted_iff_time_advanced. unfold millis.
        rewrite Hl, Heq, Z.sub_diag. reflexivity. }
      cbn [length]. lia.
    - rewrite (accepted_after T0 s0 T0 Hl) by
        (pose proof (session_clock_mono rest _ Hc'); lia).
      cbn [length]. lia. }
  split; [exact Hlen|].
  destruct (session_counters T0 (session_file s0) inputs s0
              (ignited_in_session T0 s0 Hig) Hb) as [Hn _].
  destruct Hig as (_ & _ & _ & _ & _ & Hz & _).
  rewrite Hn, Hz, Hlen. lia.
Qed.

(** The safety timeout is neither early nor late.  In a burn session, on
    a pass that starts after the millisecond of the ignition, the burn
    time [acquireData] computes compares greater than 60.0 exactly when
    the pass started more than 60000 ms after the ignition.  Such a pass
    ends the burn whatever the load cell reads; an earlier pass ends it
    only through the low-thrust condition. *)
Theorem safety_timeout_is_exact T0 (s0 : State binary32)
    (inputs : list (LoopInput binary32)) (i : LoopInput binary32) :
  ignited T0 s0 ->
  let s := session inputs s0 in
  testInProgress s = true ->
  T0 < clock s -> clock s - T0 < 2 ^ 32 ->
  let s' := acquireData (mass i) s in
  timed_out s' = (60000 <? clock s - T0) /\
  (60000 < clock s - T0 -> burn_ended (loop i s)) /\
  (clock s - T0 <= 60000 ->
   testInProgress (loop i s) = negb (burnout s')).
Proof.
  intros Hig s Ht Hlt Hb s'.
  destruct (ignited_last_sample T0 inputs s0 Hig Hlt) as (Tl & Hl & HT).
  fold s in Hl, HT.
  destruct (session_in_session T0 (session_file s0) inputs s0
              (ignited_in_session T0 s0 Hig) Hb) as (Hc & Hbs & _).
  fold s in Hc, Hbs.
  pose proof (accepted_after T0 s Tl Hl HT Hb) as Ha.
  assert (s' = take_sample (mass i) (millis s) (tick_dt s) s) as Es'
    by (subst s'; by apply acquireData_take).
  destruct (take_sample_fields (mass i) s)
    as (_ & _ & _ & _ & A5 & _ & _ & _ & _ & _ & _ & A12 & _).
  rewrite <- Es' in A5, A12.
  assert (timed_out s' = (60000 <? clock s - T0)) as Hto.
  { unfold timed_out. rewrite A5. cbn [tick_row row_burntime].
    unfold millis. rewrite Hbs, elapsed_wrap by lia.
    change (@fltb binary32 _) with SFltb.
    change (@fdiv binary32 _) with (SFdiv 24 128).
    change (@of_ulong binary32 _) with b32_of_Z.
    destruct (Z.ltb_spec 60000 (clock s - T0)).
    - by apply burntime_over_60.
    - apply burntime_upto_60. lia. }
  assert (testInProgress s' = true) as Ht' by congruence.
  rewrite (loop_in_progress i s Ht Hc). fold s'.
  split; [exact Hto|]. split.
  - intros Hlate. apply burn_ended_delay, checkBurnComplete_ends;
      [exact Ht'|].
    rewrite Hto. apply orb_true_iff. right. by apply Z.ltb_lt.
  - intros Hearly.
    change (testInProgress (delay 10 ?x)) with (testInProgress x).
    assert (timed_out s' = false) as Hno
      by (rewrite Hto; apply Z.ltb_ge; lia).
    destruct (burnout s') eqn:Hbo; cbn [negb].
    + destruct (checkBurnComplete_ends s' Ht') as (Hend & _);
        [by rewrite Hbo|exact Hend].
    + apply checkBurnComplete_continues; [exact Ht'|].
      by rewrite Hbo, Hno.
Qed.

End Binary32Timing.
(** * A reading that is not a number *)

Section Binary32NaN.
Implicit Types s : State binary32.

Lemma SFadd_nan_l (x : binary32) : SFadd 24 128 S754_nan x = S754_nan.
Proof. reflexivity. Qed.

Lemma SFadd_nan_r (x : binary32) : SFadd 24 128 x S754_nan = S754_nan.
Proof. by destruct x as [[|]|[|]| |[|] m e]. Qed.

Lemma tick_thrust_nan (m : Reading binary32) :
  value m = S754_nan -> tick_thrust m = S754_nan.
Proof. intros Hv. unfold tick_thrust. rewrite Hv. reflexivity. Qed.

Lemma SFltb_nan_r (x : binary32) : SFltb x S754_nan = false.
Proof. by destruct x as [[|]|[|]| |[|] m e]. Qed.

(** Once the impulse and the average are not numbers, no pass of the
    session makes them numbers again. *)
Lemma pass_keeps_nan (i : LoopInput binary32) s :
  testInProgress s = true -> countdownstate s = false ->
  impulse s = S754_nan -> avgthrust s = S754_nan ->
  impulse (loop i s) = S754_nan /\ avgthrust (loop i s) = S754_nan.
Proof.
  intros Ht Hc Hi Ha. destruct (accepted s) eqn:Hacc.
  - destruct (pass_accepted i s Ht Hc Hacc) as (_ & P2 & _ & P4 & _).
    rewrite P2, P4. cbn [tick_row row_impulse row_avg].
    rewrite Hi, Ha. split; reflexivity.
  - destruct (pass_rejected i s Ht Hc Hacc)
      as ((_ & Q2 & _ & Q4 & _) & _).
    split; congruence.
Qed.

Lemma session_keeps_nan (inputs : list (LoopInput binary32)) s :
  countdownstate s = false ->
  impulse s = S754_nan -> avgthrust s = S754_nan ->
  impulse (session inputs s) = S754_nan /\
  avgthrust (session inputs s) = S754_nan.
Proof.
  revert s. induction inputs as [|i rest IH]; intros s Hc Hi Ha;
    cbn [session]; [by split|].
  destruct (testInProgress s) eqn:Ht; [|by split].
  destruct (loop_clock_in_progress i s Ht Hc) as [_ Hc'].
  destruct (pass_keeps_nan i s Ht Hc Hi Ha) as [Hi' Ha'].
  by apply IH.
Qed.

(** A load-cell reading that is not a number is not caught by the clamp
    [mass_kg < 0].  The thrust of that sample is not a number; the peak
    is left as it was; the Burn Monitor takes the thrust for one above
    the threshold, so that the pass can end the burn through the safety
    timeout only; and the impulse and the running average are not
    numbers from that sample to the end of the session, whatever is read
    afterwards. *)
Theorem nan_reading_is_never_recovered
    (i : LoopInput binary32) s (inputs : list (LoopInput binary32)) :
  testInProgress s = true -> countdownstate s = false ->
  accepted s = true -> value (mass i) = S754_nan ->
  let s1 := loop i s in
  thrust s1 = S754_nan /\ peakthrust s1 = peakthrust s /\
  lowThrustStart s1 = 0 /\
  testInProgress s1 = negb (timed_out (acquireData (mass i) s)) /\
  impulse (session inputs s1) = S754_nan /\
  avgthrust (session inputs s1) = S754_nan.
Proof.
  intros Ht Hc Hacc Hv s1.
  pose proof (tick_thrust_nan (mass i) Hv) as Hth.
  destruct (pass_accepted i s Ht Hc Hacc)
    as (P1 & P2 & P3 & P4 & _ & _ & _ & _ & _ & P10 & _).
  fold s1 in P1, P2, P3, P4, P10.
  cbn [tick_row row_thrust row_impulse row_avg row_peak] in P1, P2, P3, P4.
  rewrite Hth in P1, P2, P3, P4.
  change (@fltb binary32 _) with SFltb in P3.
  rewrite SFltb_nan_r in P3.
  assert (impulse s1 = S754_nan) as Hi.
  { rewrite P2. change (@fadd binary32 _) with (SFadd 24 128).
    change (@fmul binary32 _ S754_nan ?d) with S754_nan.
    apply SFadd_nan_r. }
  assert (avgthrust s1 = S754_nan) as Ha.
  { rewrite P4. change (@fadd binary32 _) with (SFadd 24 128).
    change (@fsub binary32 _ S754_nan ?a) with S754_nan.
    change (@fdiv binary32 _ S754_nan ?d) with S754_nan.
    apply SFadd_nan_r. }
  split; [exact P1|]. split; [exact P3|].
  assert (thrust (acquireData (mass i) s) = S754_nan) as Hth'.
  { rewrite acquireData_take by exact Hacc.
    destruct (take_sample_fields (mass i) s) as (A1 & _).
    rewrite A1. exact Hth. }
  assert (testInProgress (acquireData (mass i) s) = true) as Ht'.
  { rewrite acquireData_take by exact Hacc.
    destruct (take_sample_fields (mass i) s)
      as (_ & _ & _ & _ & _ & _ & _ & _ & _ & _ & _ & A12 & _).
    congruence. }
  assert (burnout (acquireData (mass i) s) = false) as Hbo.
  { unfold burnout. rewrite Hth'. reflexivity. }
  subst s1. rewrite (loop_in_progress i s Ht Hc) in *.
  remember (acquireData (mass i) s) as s' eqn:Es'. clear Es'.
  change (lowThrustStart (delay 10 ?x)) with (lowThrustStart x).
  change (testInProgress (delay 10 ?x)) with (testInProgress x).
  split; [|split].
  - rewrite checkBurnComplete_lowThrustStart, Hth'. reflexivity.
  - destruct (timed_out s') eqn:Hto; cbn [negb].
    + destruct (checkBurnComplete_ends s' Ht') as (Hend & _);
        [by rewrite Hto, orb_true_r|exact Hend].
    + apply checkBurnComplete_continues; [exact Ht'|].
      by rewrite Hbo, Hto.
  - by apply session_keeps_nan.
Qed.

End Binary32NaN.
(** * Rounding in binary32: results are canonical, sums do not shrink *)

Section Binary32Valid.

Lemma fexp_mono (a b : Z) : a <= b -> fexp 24 128 a <= fexp 24 128 b.
Proof. rewrite !fexp_b32. lia. Qed.

Lemma digits_unique (p : positive) (k : Z) :
  2 ^ (k - 1) <= Z.pos p < 2 ^ k -> Z.pos (digits2_pos p) = k.
Proof.
  intros [Hlo Hhi]. pose proof (digits_bounds p) as [Hlo' Hhi'].
  pose proof (digits_ge p k Hlo) as Hge.
  destruct (Z_le_gt_dec (Z.pos (digits2_pos p)) k) as [|Hgt]; [lia|].
  assert (2 ^ k <= 2 ^ (Z.pos (digits2_pos p) - 1))
    by (apply Z.pow_le_mono_r; lia).
  lia.
Qed.

Lemma digits_shift (p : positive) (n : Z) :
  0 <= n < Z.pos (digits2_pos p) ->
  exists q : positive,
    Z.pos p / 2 ^ n = Z.pos q /\
    Z.pos (digits2_pos q) = Z.pos (digits2_pos p) - n.
Proof.
  intros Hn. pose proof (digits_bounds p) as [Hlo Hhi].
  set (d := Z.pos (digits2_pos p)) in *.
  assert (0 < 2 ^ n) as Hpn by (apply Z.pow_pos_nonneg; lia).
  assert (2 ^ (d - n - 1) <= Z.pos p / 2 ^ n) as Hl.
  { apply Z.div_le_lower_bound; [exact Hpn|].
    rewrite <- Z.pow_add_r by lia.
    replace (n + (d - n - 1)) with (d - 1) by lia. exact Hlo. }
  assert (Z.pos p / 2 ^ n < 2 ^ (d - n)) as Hu.
  { apply Z.div_lt_upper_bound; [exact Hpn|].
    rewrite <- Z.pow_add_r by lia.
    replace (n + (d - n)) with d by lia. exact Hhi. }
  assert (0 < 2 ^ (d - n - 1)) by (apply Z.pow_pos_nonneg; lia).
  destruct (Z.pos p / 2 ^ n) as [|q|q] eqn:E; try lia.
  exists q. split; [reflexivity|]. apply digits_unique. by split.
Qed.


Lemma digits_lt (p : positive) (k : Z) :
  Z.pos p < 2 ^ k -> Z.pos (digits2_pos p) <= k.
Proof.
  intros Hp. pose proof (digits_bounds p) as [Hlo _].
  destruct (Z_le_gt_dec (Z.pos (digits2_pos p)) k) as [|Hgt]; [done|].
  assert (2 ^ k <= 2 ^ (Z.pos (digits2_pos p) - 1))
    by (apply Z.pow_le_mono_r; lia).
  lia.
Qed.

Lemma digits_succ (p q : positive) :
  Z.pos p <= Z.pos q + 1 ->
  Z.pos (digits2_pos p) <= Z.pos (digits2_pos q) + 1.
Proof.
  intros Hpq. pose proof (digits_bounds q) as [_ Hhi].
  apply digits_lt. rewrite Z.pow_add_r by lia. change (2 ^ 1) with 2. lia.
Qed.

Lemma round_nearest_even_le (m : Z) (l : location) :
  round_nearest_even m l <= m + 1.
Proof.
  destruct l as [|[| |]]; cbn [round_nearest_even]; try lia.
  destruct (Z.even m); lia.
Qed.

Lemma bounded_canonical (m : positive) (e : Z) :
  bounded 24 128 m e = true ->
  fexp 24 128 (Z.pos (digits2_pos m) + e) = e /\ e <= 104.
Proof.
  unfold bounded, canonical_mantissa.
  intros [H1 H2]%andb_true_iff. split; [by apply Z.eqb_eq|].
  apply Z.leb_le in H2. lia.
Qed.

(** [binary_round_aux], given a significand whose exponent is not above
    the canonical one, returns a canonical number; if that number is
    finite, its exponent is the canonical one of the input or the next,
    and at the canonical one its significand is the truncated one or
    above; it overflows only from the largest exponent. *)
Lemma binary_round_aux_spec (sx : bool) (mz : positive) (ez : Z)
    (lz : location) :
  ez <= fexp 24 128 (Z.pos (digits2_pos mz) + ez) ->
  valid_binary 24 128 (binary_round_aux 24 128 sx (Z.pos mz) ez lz) = true /\
  (forall (s' : bool) (m : positive) (e : Z),
     binary_round_aux 24 128 sx (Z.pos mz) ez lz = S754_finite s' m e ->
     fexp 24 128 (Z.pos (digits2_pos mz) + ez) <= e
       <= fexp 24 128 (Z.pos (digits2_pos mz) + ez) + 1 /\
     (e = fexp 24 128 (Z.pos (digits2_pos mz) + ez) ->
      Z.pos mz / 2 ^ (e - ez) <= Z.pos m)) /\
  (fexp 24 128 (Z.pos (digits2_pos mz) + ez) <= 103 ->
   forall sg : bool,
     binary_round_aux 24 128 sx (Z.pos mz) ez lz <> S754_infinity sg).
Proof.
  intros Hpre.
  set (dg := Z.pos (digits2_pos mz)) in *.
  set (E0 := fexp 24 128 (dg + ez)) in *.
  assert (-149 <= E0) as HE0 by (subst E0; rewrite fexp_b32; lia).
  assert (1 <= dg) as Hdg by (subst dg; lia).
  unfold binary_round_aux.
  destruct (shr_fexp_spec (Z.pos mz) ez lz ltac:(lia)) as [Hm1 He1].
  cbn [Zdigits2] in Hm1, He1. fold dg in Hm1, He1. fold E0 in Hm1, He1.
  rewrite Z.max_l in Hm1, He1 by lia.
  destruct (shr_fexp 24 128 (Z.pos mz) ez lz) as [mrs1 e1].
  cbn [fst snd] in Hm1, He1.
  assert (e1 = E0) as -> by lia. clear He1.
  set (m1 := shr_m mrs1) in *.
  assert ((m1 = 0 /\ E0 = -149) \/
          exists q1 : positive,
            m1 = Z.pos q1 /\
            fexp 24 128 (Z.pos (digits2_pos q1) + E0) = E0) as Hcan.
  { destruct (Z_lt_ge_dec (E0 - ez) dg) as [Hlt|Hge].
    - right. destruct (digits_shift mz (E0 - ez)) as (q1 & Hq & Hd);
        [fold dg; lia|].
      exists q1. split; [congruence|]. rewrite Hd. fold dg.
      replace (dg - (E0 - ez) + E0) with (dg + ez) by lia. reflexivity.
    - left. split.
      + rewrite Hm1. apply Z.div_small. split; [lia|].
        pose proof (digits_bounds mz) as [_ Hhi]. fold dg in Hhi.
        assert (2 ^ dg <= 2 ^ (E0 - ez))
          by (apply Z.pow_le_mono_r; lia).
        lia.
      + subst E0. rewrite fexp_b32 in *. lia. }
  assert (0 <= m1) as Hm1pos
    by (destruct Hcan as [[-> _]|(q1 & -> & _)]; lia).
  pose proof (round_nearest_even_ge m1 (loc_of_shr_record mrs1)) as Hr.
  pose proof (round_nearest_even_le m1 (loc_of_shr_record mrs1)) as Hr'.
  destruct (round_nearest_even m1 (loc_of_shr_record mrs1))
    as [|p2|p2] eqn:Er; [| |lia].
  - (* everything was shifted out and the rest rounded down *)
    destruct (shr_fexp_spec 0 E0 loc_Exact ltac:(lia)) as [Hm3 _].
    destruct (shr_fexp 24 128 0 E0 loc_Exact) as [mrs3 e3].
    cbn [fst] in Hm3. rewrite Hm3, Z.div_0_l
      by (apply Z.pow_nonzero; lia).
    split; [reflexivity|]. split; [intros s' m e; discriminate|].
    intros _ sg; discriminate.
  - set (d2 := Z.pos (digits2_pos p2)).
    assert (1 <= d2) as Hd2 by (subst d2; lia).
    assert (E0 <= fexp 24 128 (d2 + E0)) as Hcan2.
    { destruct Hcan as [[_ ->]|(q1 & Hq1 & Hc1)].
      - rewrite fexp_b32. lia.
      - rewrite <- Hc1 at 1. apply fexp_mono.
        assert (Z.pos (digits2_pos q1) <= d2)
          by (apply digits_mono; lia).
        lia. }
    assert (fexp 24 128 (d2 + E0) <= E0 + 1) as Hcarry.
    { destruct Hcan as [[Hz ->]|(q1 & Hq1 & Hc1)].
      - assert (p2 = 1%positive) as -> by lia.
        subst d2. rewrite fexp_b32.
        change (Z.pos (digits2_pos 1)) with 1. lia.
      - assert (d2 <= Z.pos (digits2_pos q1) + 1)
          by (apply digits_succ; lia).
        rewrite fexp_b32 in *. lia. }
    set (n2 := fexp 24 128 (d2 + E0) - E0).
    assert (0 <= n2 < d2) as Hn2
      by (subst n2; rewrite fexp_b32 in *; lia).
    assert (n2 <= 1) as Hn2' by (subst n2; lia).
    destruct (shr_fexp_spec (Z.pos p2) E0 loc_Exact ltac:(lia))
      as [Hm3 He3].
    cbn [Zdigits2] in Hm3, He3. fold d2 in Hm3, He3. fold n2 in Hm3, He3.
    rewrite Z.max_l in Hm3, He3 by lia.
    destruct (shr_fexp 24 128 (Z.pos p2) E0 loc_Exact) as [mrs3 e3].
    cbn [fst snd] in Hm3, He3.
    destruct (digits_shift p2 n2 ltac:(fold d2; lia)) as (q3 & Hq3 & Hd3).
    fold d2 in Hd3. rewrite Hm3, Hq3.
    assert (fexp 24 128 (Z.pos (digits2_pos q3) + e3) = e3) as Hcan3.
    { rewrite Hd3, He3. replace (d2 - n2 + (E0 + n2)) with (d2 + E0) by lia.
      subst n2. lia. }
    destruct (Z.leb_spec e3 (128 - 24)) as [Hle|Hgt].
    + split.
      * cbn [valid_binary]. unfold bounded, canonical_mantissa.
        rewrite Hcan3, Z.eqb_refl. apply Z.leb_le in Hle. by rewrite Hle.
      * split; [|intros _ sg; discriminate].
        intros s' m e [= <- <- <-]. split; [lia|].
        intros He. assert (n2 = 0) as Hz by lia.
        rewrite Hz in Hq3. change (2 ^ 0) with 1 in Hq3.
        rewrite Z.div_1_r in Hq3. rewrite <- Hq3, He, <- Hm1. lia.
    + split; [reflexivity|]. split; [intros s' m e; discriminate|].
      intros Hsmall. lia.
Qed.


Lemma binary_round_no_shift (sx : bool) (mx : positive) (ex : Z) :
  ex <= fexp 24 128 (Z.pos (digits2_pos mx) + ex) ->
  binary_round 24 128 sx mx ex
    = binary_round_aux 24 128 sx (Z.pos mx) ex loc_Exact.
Proof.
  intros Hpre. unfold binary_round, shl_align.
  destruct (fexp 24 128 (Z.pos (digits2_pos mx) + ex) - ex) eqn:E;
    [reflexivity..|lia].
Qed.


(** ** Products and the quotient by 1000 *)

Lemma digits_mul (p q : positive) :
  Z.pos (digits2_pos p) + Z.pos (digits2_pos q) - 1
    <= Z.pos (digits2_pos (p * q)).
Proof.
  pose proof (digits_bounds p) as [Hp _].
  pose proof (digits_bounds q) as [Hq _].
  apply digits_ge. rewrite Pos2Z.inj_mul.
  replace (Z.pos (digits2_pos p) + Z.pos (digits2_pos q) - 1 - 1)
    with ((Z.pos (digits2_pos p) - 1) + (Z.pos (digits2_pos q) - 1)) by lia.
  rewrite Z.pow_add_r by lia.
  apply Z.mul_le_mono_nonneg; try assumption; apply Z.pow_nonneg; lia.
Qed.

Lemma SFmul_valid (x y : binary32) :
  valid_binary 24 128 x = true -> valid_binary 24 128 y = true ->
  valid_binary 24 128 (SFmul 24 128 x y) = true.
Proof.
  destruct x as [sx|sx| |sx mx ex], y as [sy|sy| |sy my ey];
    cbn [SFmul valid_binary]; try reflexivity.
  intros [Hx _]%bounded_canonical [Hy _]%bounded_canonical.
  apply binary_round_aux_spec.
  pose proof (digits_mul mx my) as Hd.
  assert (1 <= Z.pos (digits2_pos mx)) by lia.
  assert (1 <= Z.pos (digits2_pos my)) by lia.
  rewrite fexp_b32 in *. lia.
Qed.

Lemma div1000_valid (m1 : positive) (e1 : Z) :
  -23 <= e1 ->
  valid_binary 24 128
    (SFdiv 24 128 (S754_finite false m1 e1) (f1000 : binary32)) = true.
Proof.
  intros He1.
  change (f1000 : binary32) with (S754_finite false 16384000 (-14)).
  unfold SFdiv, SFdiv_core_binary.
  cbn [xorb Zdigits2].
  change (Z.pos (digits2_pos 16384000)) with 24.
  rewrite fexp_b32.
  pose proof (digits_bounds m1) as [Hlo _].
  set (d1 := Z.pos (digits2_pos m1)) in *.
  assert (1 <= d1) by (subst d1; lia).
  change IntDef.Z.min with Z.min. change IntDef.Z.shiftl with Z.shiftl.
  change IntDef.Z.div_eucl with Z.div_eucl.
  replace (Z.min (Z.max (d1 + e1 - (24 + -14) - 24) (-149)) (e1 - -14))
    with (Z.min (d1 + e1 - 34) (e1 + 14)) by lia.
  set (e' := Z.min (d1 + e1 - 34) (e1 + 14)).
  set (s := e1 - -14 - e').
  assert (0 <= s /\ 47 <= d1 - 1 + s) as [Hs0 Hs] by (subst s e'; lia).
  set (m' := match s with
             | 0 => Z.pos m1 | Z.pos _ => Z.shiftl (Z.pos m1) s
             | Z.neg _ => 0 end).
  assert (m' = Z.pos m1 * 2 ^ s) as Hm'.
  { subst m'. destruct s as [|k|k] eqn:Es; [change (2 ^ 0) with 1; lia| |lia].
    by rewrite Z.shiftl_mul_pow2. }
  assert (2 ^ (d1 - 1 + s) <= m') as Hbig.
  { rewrite Hm', Z.pow_add_r by lia.
    apply Z.mul_le_mono_nonneg_r; [apply Z.pow_nonneg; lia|exact Hlo]. }
  clearbody m'.
  assert (2 ^ (d1 + s - 25) <= m' / 16384000) as Hq.
  { apply Z.div_le_lower_bound; [lia|].
    assert (0 < 2 ^ (d1 + s - 25)) by (apply Z.pow_pos_nonneg; lia).
    replace (d1 - 1 + s) with (24 + (d1 + s - 25)) in Hbig by lia.
    rewrite Z.pow_add_r in Hbig by lia.
    change (2 ^ 24) with 16777216 in Hbig. nia. }
  assert (0 < 2 ^ (d1 + s - 25)) by (apply Z.pow_pos_nonneg; lia).
  unfold Z.div in Hq.
  destruct (Z.div_eucl m' 16384000) as [q r]. cbn [fst] in Hq.
  destruct q as [|q|q]; try lia.
  apply binary_round_aux_spec.
  assert (d1 + s - 24 <= Z.pos (digits2_pos q)) as Hdq.
  { apply digits_ge. by replace (d1 + s - 24 - 1) with (d1 + s - 25) by lia. }
  rewrite fexp_b32. subst s e'. lia.
Qed.

Lemma dt_valid (d : Z) :
  0 <= d ->
  valid_binary 24 128 (SFdiv 24 128 (b32_of_Z d) (f1000 : binary32)) = true.
Proof.
  intros Hd. destruct d as [|d|d]; [reflexivity| |lia].
  destruct (b32_of_Z_pos d) as [->|(m1 & e1 & -> & He1 & _)];
    [reflexivity|].
  by apply div1000_valid.
Qed.

(** ** Sums *)

Lemma shl_align_fst (m : positive) (e ez : Z) :
  ez <= e -> Z.pos (fst (shl_align m e ez)) = Z.pos m * 2 ^ (e - ez).
Proof.
  intros Hle. unfold shl_align.
  destruct (ez - e) as [|k|k] eqn:E; cbn [fst]; [|lia|].
  - replace (e - ez) with 0 by lia. change (2 ^ 0) with 1. lia.
  - rewrite iter_xO. f_equal. f_equal. lia.
Qed.

Lemma SFltb_irrefl (x : binary32) : SFltb x x = false.
Proof.
  destruct x as [[|]|[|]| |[|] m e]; try reflexivity;
    unfold SFltb, SFcompare; rewrite Z.compare_refl;
    change (PosDef.Pos.compare_cont Eq m m) with (Pos.compare m m);
    by rewrite Pos.compare_refl.
Qed.

(** Adding a number that is not negative to a canonical number that is
    not negative gives a canonical number that is not less. *)
Lemma SFadd_grows (x y : binary32) :
  valid_binary 24 128 x = true -> valid_binary 24 128 y = true ->
  is_negative x = false -> is_negative y = false ->
  valid_binary 24 128 (SFadd 24 128 x y) = true /\
  SFltb (SFadd 24 128 x y) x = false.
Proof.
  intros Hvx Hvy Hnx Hny.
  destruct x as [sx|sx| |sx m1 e1], y as [sy|sy| |sy m2 e2];
    cbn [is_negative] in Hnx, Hny; subst;
    try (split; [first [reflexivity|exact Hvx|exact Hvy]|];
         first [reflexivity|apply SFltb_irrefl]);
    try (by destruct sx, sy).
  cbn [valid_binary] in Hvx, Hvy.
  apply bounded_canonical in Hvx as [Hc1 _].
  apply bounded_canonical in Hvy as [Hc2 _].
  unfold SFadd. cbn [cond_Zopp].
  change IntDef.Z.min with Z.min.
  set (ez := Z.min e1 e2).
  pose proof (shl_align_fst m1 e1 ez ltac:(subst ez; lia)) as Ha.
  pose proof (shl_align_fst m2 e2 ez ltac:(subst ez; lia)) as Hb.
  set (a := fst (shl_align m1 e1 ez)) in *.
  set (b := fst (shl_align m2 e2 ez)) in *.
  change (IntDef.Z.add (Z.pos a) (Z.pos b)) with (Z.pos (a + b)).
  cbn [binary_normalize].
  assert (Z.pos m1 * 2 ^ (e1 - ez) <= Z.pos (a + b)) as HM
    by (rewrite <- Ha; lia).
  clear Ha Hb. clearbody a b. set (Mp := (a + b)%positive) in *.
  clearbody Mp.
  pose proof (digits_bounds m1) as [Hlo1 _].
  set (d1 := Z.pos (digits2_pos m1)) in *.
  assert (1 <= d1) as Hd1 by (subst d1; lia).
  assert (ez <= e1 /\ -149 <= ez) as [Hez Hmin]
    by (subst ez; rewrite fexp_b32 in Hc1, Hc2; lia).
  clearbody ez.
  assert (d1 + e1 - ez <= Z.pos (digits2_pos Mp)) as HdM.
  { apply digits_ge.
    replace (d1 + e1 - ez - 1) with (d1 - 1 + (e1 - ez)) by lia.
    rewrite Z.pow_add_r by lia.
    etransitivity; [|exact HM].
    apply Z.mul_le_mono_nonneg_r; [apply Z.pow_nonneg; lia|exact Hlo1]. }
  assert (e1 <= fexp 24 128 (Z.pos (digits2_pos Mp) + ez)) as HE0
    by (rewrite <- Hc1 at 1; apply fexp_mono; lia).
  rewrite binary_round_no_shift by lia.
  destruct (binary_round_aux_spec false Mp ez loc_Exact ltac:(lia))
    as (Hv & Hfin & _).
  split; [exact Hv|].
  destruct (binary_round_aux_pos Mp ez loc_Exact Hmin)
    as [->|(m & e & Hr & _)]; [reflexivity|].
  rewrite Hr. destruct (Hfin _ _ _ Hr) as [Hge Heq].
  unfold SFltb, SFcompare.
  destruct (Z.compare_spec e e1) as [Heq1|Hlt|Hgt]; [|lia|reflexivity].
  assert (Z.pos m1 <= Z.pos m) as Hm.
  { etransitivity; [|apply Heq; lia].
    subst e. apply Z.div_le_lower_bound; [apply Z.pow_pos_nonneg; lia|lia]. }
  change (PosDef.Pos.compare_cont Eq m m1) with (Pos.compare m m1).
  by destruct (Pos.compare_spec m m1); try lia.
Qed.

End Binary32Valid.
(** * The impulse in binary32 *)

Section Binary32Impulse.
Implicit Types s : State binary32.

Lemma gravity_valid :
  valid_binary 24 128 (STANDARD_GRAVITY : binary32) = true.
Proof. reflexivity. Qed.

Lemma tick_thrust_valid (m : Reading binary32) :
  valid_binary 24 128 (value m) = true ->
  valid_binary 24 128 (tick_thrust m) = true.
Proof.
  intros Hv. unfold tick_thrust.
  change (@fmul binary32 _) with (SFmul 24 128).
  apply SFmul_valid; [|exact gravity_valid].
  by destruct (fltb (value m) f0).
Qed.

Lemma tick_dt_valid s : valid_binary 24 128 (tick_dt s) = true.
Proof.
  unfold tick_dt.
  change (@fdiv binary32 _) with (SFdiv 24 128).
  change (@of_ulong binary32 _) with b32_of_Z.
  apply dt_valid. unfold wrap. apply Z.mod_pos_bound. reflexivity.
Qed.

Lemma nan_or_not (x : binary32) : x = S754_nan \/ x <> S754_nan.
Proof. destruct x; first [by left|right; discriminate]. Qed.

Lemma SFltb_false_le (a b : binary32) :
  SFltb a b = false -> b <> S754_nan ->
  a = S754_nan \/ SFleb b a = true.
Proof.
  intros Hlt Hb. destruct (nan_or_not a) as [|Ha]; [by left|right].
  revert Hlt. unfold SFltb, SFleb. rewrite (SFcompare_antisym a b).
  destruct (SFcompare_some a b Ha Hb) as [c ->].
  by destruct c.
Qed.

(** One pass of a burn in progress: the impulse stays canonical and not
    negative, and is not less than before. *)
Lemma pass_impulse_grows (i : LoopInput binary32) s :
  testInProgress s = true -> countdownstate s = false ->
  valid_binary 24 128 (value (mass i)) = true ->
  valid_binary 24 128 (impulse s) = true ->
  is_negative (impulse s) = false ->
  valid_binary 24 128 (impulse (loop i s)) = true /\
  is_negative (impulse (loop i s)) = false /\
  (impulse (loop i s) = S754_nan \/
   SFleb (impulse s) (impulse (loop i s)) = true).
Proof.
  intros Ht Hc Hv Hvi Hni. destruct (accepted s) eqn:Ha.
  - destruct (pass_accepted i s Ht Hc Ha) as (_ & P2 & _).
    rewrite P2. cbn [tick_row row_impulse].
    change (@fadd binary32 _) with (SFadd 24 128).
    change (@fmul binary32 _) with (SFmul 24 128).
    pose proof (tick_thrust_valid (mass i) Hv) as Hvt.
    pose proof (tick_dt_valid s) as Hvd.
    pose proof (tick_thrust_sign (mass i)) as Hnt.
    pose proof (tick_dt_sign s) as Hnd.
    pose proof (SFmul_valid _ _ Hvt Hvd) as Hvy.
    pose proof (SFmul_sign _ _ Hnt Hnd) as Hny.
    destruct (SFadd_grows _ _ Hvi Hvy Hni Hny) as [Hvr Hlt].
    split; [exact Hvr|]. split; [by apply SFadd_sign|].
    destruct (nan_or_not (impulse s)) as [Hnan|Hnn].
    + left. rewrite Hnan. reflexivity.
    + by apply SFltb_false_le.
  - destruct (pass_rejected i s Ht Hc Ha) as ((_ & Q2 & _) & _).
    rewrite Q2. split; [exact Hvi|]. split; [exact Hni|].
    destruct (nan_or_not (impulse s)) as [Hnan|Hnn]; [by left|].
    apply SFltb_false_le; [apply SFltb_irrefl|exact Hnn].
Qed.

Lemma session_impulse_valid (inputs : list (LoopInput binary32)) s :
  countdownstate s = false ->
  Forall (fun j => valid_binary 24 128 (value (mass j)) = true) inputs ->
  valid_binary 24 128 (impulse s) = true ->
  is_negative (impulse s) = false ->
  valid_binary 24 128 (impulse (session inputs s)) = true /\
  is_negative (impulse (session inputs s)) = false.
Proof.
  revert s. induction inputs as [|i rest IH]; intros s Hc Hall Hv Hn;
    cbn [session]; [by split|].
  destruct (testInProgress s) eqn:Ht; [|by split].
  inversion Hall as [|? ? Hi Hrest]; subst.
  destruct (loop_clock_in_progress i s Ht Hc) as [_ Hc'].
  destruct (pass_impulse_grows i s Ht Hc Hi Hv Hn) as (Hv' & Hn' & _).
  by apply IH.
Qed.

(** In binary32 the impulse never decreases.  If every value the load
    cell returns is a binary32 value in canonical form (a number,
    an infinity or NaN), then from ignition on every pass of the session
    leaves an impulse that is again in canonical form and is greater
    than or equal to the impulse before the pass, or is NaN. *)
Theorem impulse_never_decreases_in_binary32 T0 (s0 : State binary32)
    (inputs : list (LoopInput binary32)) (i : LoopInput binary32) :
  ignited T0 s0 ->
  Forall (fun j => valid_binary 24 128 (value (mass j)) = true)
    (inputs ++ [i]) ->
  let s := session inputs s0 in
  testInProgress s = true ->
  valid_binary 24 128 (impulse (loop i s)) = true /\
  (impulse (loop i s) = S754_nan \/
   fleb (impulse s) (impulse (loop i s)) = true).
Proof.
  intros (_ & Hc & _ & _ & _ & _ & Hi & _) Hall s Ht.
  apply Forall_app in Hall as [Hall Hlast].
  inversion Hlast as [|? ? Hvi _]; subst.
  destruct (session_impulse_valid inputs s0 Hc Hall) as [Hv Hn];
    [by rewrite Hi..|].
  fold s in Hv, Hn.
  pose proof (session_countdown_false inputs s0 Hc) as Hc'. fold s in Hc'.
  destruct (pass_impulse_grows i s Ht Hc' Hvi Hv Hn) as (Hv' & _ & Hle).
  split; [exact Hv'|exact Hle].
Qed.

End Binary32Impulse.
(** * Where the igniter is driven high *)

Section IgniterFacts.
Context {F : Type} `{Platform F}.
Implicit Types s : State F.

Lemma endBurn_pin_log s :
  pin_log (endBurn s)
    = pin_log s ++ (if testInProgress s then [(clock s, LOW)] else []).
Proof.
  unfold endBurn. destruct (testInProgress s); cbn [negb].
  - reflexivity.
  - by rewrite app_nil_r.
Qed.

Lemma lows_refl s s' :
  pin_log s' = pin_log s ->
  exists lows, all_low lows /\ pin_log s' = pin_log s ++ lows.
Proof. intros E. exists []. split; [constructor|by rewrite app_nil_r]. Qed.

Lemma lows_endBurn s s' :
  pin_log s' = pin_log s ->
  exists lows, all_low lows /\ pin_log (endBurn s') = pin_log s ++ lows.
Proof.
  intros E. rewrite endBurn_pin_log, E. eexists. split; [|reflexivity].
  destruct (testInProgress s'); repeat constructor.
Qed.

Lemma lows_endBurn_twice s s' m :
  pin_log s' = pin_log s ->
  exists lows,
    all_low lows /\
    pin_log (endBurn (println m (endBurn s'))) = pin_log s ++ lows.
Proof.
  intros E. rewrite endBurn_pin_log.
  change (pin_log (println m (endBurn s'))) with (pin_log (endBurn s')).
  rewrite endBurn_pin_log, E, <- app_assoc.
  eexists. split; [|reflexivity].
  apply Forall_app. split.
  - destruct (testInProgress s'); repeat constructor.
  - destruct (testInProgress _); repeat constructor.
Qed.

(** [checkBurnComplete] writes the pin low or not at all. *)
Lemma checkBurnComplete_pin_log s :
  exists lows,
    all_low lows /\ pin_log (checkBurnComplete s) = pin_log s ++ lows.
Proof.
  unfold checkBurnComplete.
  destruct (fltb (thrust s) THRUST_THRESHOLD);
    [destruct (lowThrustStart s =? 0);
       [|destruct (LOW_THRUST_DURATION <? _)]|];
    cbv zeta; destruct (fltb f60 _);
    first [ by apply lows_refl
          | by apply lows_endBurn_twice
          | by apply lows_endBurn ].
Qed.

(** [countDown] drives the pin high, for 2000 ms, exactly when the
    countdown runs out; otherwise it does not touch the pin. *)
Lemma countDown_pin_log ok s :
  pin_log (countDown ok s)
    = pin_log s ++
      (if countdown_expires s
       then [(clock s, HIGH); (clock s + 2000, LOW)] else []).
Proof.
  unfold countDown, countdown_expires.
  destruct (countdownstate s); cbn [andb]; [|by rewrite app_nil_r].
  destruct (1000 <=? _); cbn [andb]; [|by rewrite app_nil_r].
  cbv zeta.
  match goal with
  | |- context [if ?c then igniteMotor _ _ else _] =>
      change c with (countdownTime s - 1 <=? 0)
  end.
  destruct (countdownTime s - 1 <=? 0); [|by rewrite app_nil_r].
  match goal with
  | |- pin_log (igniteMotor ?o ?x) = _ =>
      destruct (igniteMotor_pin o x) as (_ & -> & _)
  end.
  reflexivity.
Qed.

(** The switch block at the head of [loop] leaves the pin alone, and a
    countdown it starts cannot run out in the same pass. *)
Lemma switch_block_pin (i : LoopInput F) s :
  let s1 :=
    if is_low (sw_first i) && negb (countdownstate s)
       && negb (testInProgress s)
    then
      let s := delay 50 s in
      if is_low (sw_second i) then
        let s := println "=== TEST SEQUENCE INITIATED ===" s in
        let s := hxCalibrate (cal i) s in
        startCountdown s
      else s
    else s in
  pin_log s1 = pin_log s /\
  countdown_expires s1 = countdown_expires s /\
  (countdown_expires s = true -> clock s1 = clock s).
Proof.
  intros s1. subst s1.
  destruct (countdownstate s) eqn:Hc.
  { rewrite andb_false_r. cbn [andb]. by repeat split. }
  rewrite andb_true_r.
  assert (countdown_expires s = false) as He
    by (unfold countdown_expires; by rewrite Hc).
  rewrite He.
  destruct (is_low (sw_first i) && negb (testInProgress s));
    [|rewrite He; by repeat split].
  cbv zeta. destruct (is_low (sw_second i)).
  - set (s2 := hxCalibrate (cal i)
                 (println "=== TEST SEQUENCE INITIATED ===" (delay 50 s))).
    destruct (hxCalibrate_ctl_frame (cal i)
                (println "=== TEST SEQUENCE INITIATED ===" (delay 50 s)))
      as (_ & Hp & _).
    fold s2 in Hp. clearbody s2.
    split; [exact Hp|]. split; [|discriminate].
    unfold countdown_expires.
    change (countdownstate (startCountdown s2)) with true.
    change (millis (startCountdown s2)) with (millis s2).
    change (previoustime (startCountdown s2)) with (millis s2).
    rewrite Z.sub_diag. reflexivity.
  - split; [reflexivity|]. split; [|discriminate].
    unfold countdown_expires.
    change (countdownstate (delay 50 s)) with (countdownstate s).
    by rewrite Hc.
Qed.

(** One pass of [loop]: the pin is driven high, and low again 2000 ms
    later, exactly if the countdown runs out in this pass; every other
    write of the pass drives it low. *)
Lemma loop_pin_log (i : LoopInput F) s :
  exists lows,
    all_low lows /\
    pin_log (loop i s)
      = pin_log s ++
        (if countdown_expires s
         then [(clock s, HIGH); (clock s + 2000, LOW)] else [])
        ++ lows.
Proof.
  unfold loop. cbv zeta.
  destruct (switch_block_pin i s) as (Hp & He & Hk). cbv zeta in Hp, He, Hk.
  match goal with |- context [countDown _ ?x] => set (s1 := x) in * end.
  clearbody s1.
  pose proof (countDown_pin_log (sd_open_ok i) s1) as Hcd.
  rewrite Hp, He in Hcd.
  assert (pin_log (countDown (sd_open_ok i) s1)
          = pin_log s ++
            (if countdown_expires s
             then [(clock s, HIGH); (clock s + 2000, LOW)] else [])) as Hcd'.
  { rewrite Hcd. destruct (countdown_expires s); [|reflexivity].
    by rewrite Hk. }
  clear Hcd. set (s2 := countDown (sd_open_ok i) s1) in *. clearbody s2.
  change (pin_log (delay 10 ?x)) with (pin_log x).
  destruct (testInProgress s2).
  - destruct (checkBurnComplete_pin_log (acquireData (mass i) s2))
      as (lows & Hl & Hpl).
    destruct (acquireData_ctl_frame (mass i) s2) as (_ & Ha & _).
    exists lows. split; [exact Hl|].
    rewrite Hpl, Ha, Hcd', <- app_assoc. reflexivity.
  - exists []. split; [constructor|].
    by rewrite Hcd', app_nil_r.
Qed.

(** Until it is ready or hangs, [setup] writes the pin once, low. *)
Lemma setup_pin_log (b : BootInput F) :
  match setup b with
  | Ready s | Hung s => all_low (pin_log s)
  | Undefined => True
  end.
Proof.
  unfold setup. cbv zeta. rewrite poll_delay.
  match goal with |- context [initializeHX711 _ ?x] => set (s1 := x) end.
  assert (all_low (pin_log s1)) as H1 by (repeat constructor).
  pose proof (initializeHX711_pin (hx_not_ready b) s1) as Hh.
  clearbody s1.
  destruct (initializeHX711 _ s1) as [s2|s2|]; cbn [boot_pin_same] in Hh;
    [|destruct Hh as [_ ->]; exact H1|exact I].
  destruct Hh as [_ Hh].
  pose proof (initializeSD_pin (sd_begin_ok b) (sd_create_ok b) s2) as Hd.
  destruct (initializeSD _ _ s2) as [s3|s3|]; cbn [boot_pin_same] in Hd;
    [|destruct Hd as [_ ->]; by rewrite Hh|exact I].
  destruct Hd as [_ Hd].
  change (all_low (pin_log s3)). by rewrite Hd, Hh.
Qed.

Lemma high_times_app (l1 l2 : list (Z * level)) :
  high_times (l1 ++ l2) = high_times l1 ++ high_times l2.
Proof. unfold high_times. by rewrite List.filter_app, map_app. Qed.

Lemma high_times_lows (l : list (Z * level)) :
  all_low l -> high_times l = [].
Proof.
  unfold all_low, high_times. induction 1 as [|[t v] l Hv _ IH];
    [reflexivity|].
  cbn [snd] in Hv. subst v. cbn [List.filter snd is_low negb]. exact IH.
Qed.

(** The HIGH writes of a run are those of its Igniting steps, in order. *)
Lemma run_high_times (inputs : list (LoopInput F)) s :
  high_times (pin_log (run inputs s))
    = high_times (pin_log s) ++ ignition_times inputs s.
Proof.
  unfold run. revert s. induction inputs as [|i rest IH]; intros s;
    cbn [fold_left ignition_times]; [by rewrite app_nil_r|].
  rewrite IH. destruct (loop_pin_log i s) as (lows & Hl & ->).
  rewrite !high_times_app, (high_times_lows lows Hl), app_nil_r.
  rewrite <- app_assoc. f_equal. f_equal.
  by destruct (countdown_expires s).
Qed.

(** C2.  The igniter output is high only during the 2000 ms hold window
    of the Igniting step.  On every execution: (1) the output is low
    whenever [setup] or [loop] returns and whenever [setup] hangs, and
    every HIGH write on record is followed 2000 ms later by a LOW write;
    (2) [setup] writes the pin low only; (3) a pass of [loop] writes the
    pin high exactly if the countdown runs out in that pass, at the time
    the pass began, and low again 2000 ms later, and every other write
    of the pass is low; (4) hence the HIGH writes on record after any run
    are those made when a countdown ran out, one each and in order;
    (5) [endBurn] on a burn in progress writes the pin low. *)
Theorem igniter_high_only_in_hold_window :
  (forall s : State F, reachable s -> pin_safe s) /\
  (forall (b : BootInput F) (s : State F), setup b = Hung s -> pin_safe s) /\
  (forall (b : BootInput F) (s : State F),
     setup b = Ready s \/ setup b = Hung s -> all_low (pin_log s)) /\
  (forall (i : LoopInput F) (s : State F),
     exists lows : list (Z * level),
       all_low lows /\
       pin_log (loop i s)
         = pin_log s ++
           (if countdown_expires s
            then [(clock s, HIGH); (clock s + 2000, LOW)] else [])
           ++ lows) /\
  (forall (b : BootInput F) (s0 : State F) (inputs : list (LoopInput F)),
     setup b = Ready s0 ->
     high_times (pin_log (run inputs s0)) = ignition_times inputs s0) /\
  (forall s : State F,
     testInProgress s = true ->
     e_match (endBurn s) = LOW /\
     pin_log (endBurn s) = pin_log s ++ [(clock s, LOW)]).
Proof.
  destruct pin_low_at_rest as (H1 & H2 & H3).
  assert (forall (b : BootInput F) (s : State F),
            setup b = Ready s \/ setup b = Hung s -> all_low (pin_log s))
    as Hboot.
  { intros b s Hs. pose proof (setup_pin_log b) as Hb.
    destruct Hs as [Hs|Hs]; by rewrite Hs in Hb. }
  split; [exact H1|]. split; [exact H2|]. split; [exact Hboot|].
  split; [|split; [|exact H3]].
  - intros i s. apply loop_pin_log.
  - intros b s0 inputs Hb.
    rewrite run_high_times, (high_times_lows (pin_log s0)); [reflexivity|].
    apply (Hboot b). by left.
Qed.

End IgniterFacts.
(** * Rounding in binary32: results that are numbers *)

Section Binary32Finite.







(** ** Operations that do not produce NaN *)




End Binary32Finite.
(** * The impulse and the running average in binary32 *)

Section Binary32Accumulators.
Implicit Types s : State binary32.

(** ** Samples that are numbers *)





(** ** The impulse *)




(** ** The running average *)

Lemma b32_of_Z_shape (k : Z) :
  0 <= k ->
  match b32_of_Z k with
  | S754_zero sg | S754_infinity sg | S754_finite sg _ _ => sg = false
  | S754_nan => True
  end.
Proof.
  intros Hk. unfold b32_of_Z, binary_normalize.
  destruct k as [|k|k]; [reflexivity| |lia].
  unfold binary_round. destruct (shl_align _ _ _) as [mz ez].
  unfold binary_round_aux.
  destruct (shr_fexp 24 128 (Z.pos mz) ez loc_Exact) as [mrs e'].
  destruct (shr_fexp 24 128 _ e' loc_Exact) as [mrs' e''].
  destruct (shr_m mrs'); [reflexivity| |exact I].
  by destruct (_ <=? _).
Qed.

(** Welford's update with a thrust that is not finite. *)
Lemma welford_not_finite (a t n : binary32) :
  t = S754_infinity false \/ t = S754_nan ->
  match n with
  | S754_zero sg | S754_infinity sg | S754_finite sg _ _ => sg = false
  | S754_nan => True
  end ->
  SFadd 24 128 a (SFdiv 24 128 (SFsub 24 128 t a) n) = S754_infinity false \/
  SFadd 24 128 a (SFdiv 24 128 (SFsub 24 128 t a) n) = S754_nan.
Proof.
  intros [-> | ->] Hn;
    destruct a as [[|]|[|]| |[|] ma ea], n as [[|]|[|]| |[|] mn en];
    try discriminate; cbn; auto.
Qed.

(** Welford's update of an average that is not finite. *)
Lemma welford_after_not_finite (a t n : binary32) :
  a = S754_infinity false \/ a = S754_nan ->
  match n with
  | S754_zero sg | S754_infinity sg | S754_finite sg _ _ => sg = false
  | S754_nan => True
  end ->
  SFadd 24 128 a (SFdiv 24 128 (SFsub 24 128 t a) n) = S754_nan.
Proof.
  intros [-> | ->] Hn; [|reflexivity].
  destruct t as [[|]|[|]| |[|] mt et], n as [[|]|[|]| |[|] mn en];
    try discriminate; reflexivity.
Qed.

Lemma pass_avg_nan (j : LoopInput binary32) s :
  testInProgress s = true -> countdownstate s = false ->
  avgthrust s = S754_nan -> avgthrust (loop j s) = S754_nan.
Proof.
  intros Ht Hc Ha. destruct (accepted s) eqn:Hacc.
  - destruct (pass_accepted j s Ht Hc Hacc) as (_ & _ & _ & P4 & _).
    rewrite P4. cbn [tick_row row_avg]. by rewrite Ha.
  - destruct (pass_rejected j s Ht Hc Hacc) as ((_ & _ & _ & Q4 & _) & _).
    congruence.
Qed.

Lemma session_avg_nan (inputs : list (LoopInput binary32)) s :
  countdownstate s = false -> avgthrust s = S754_nan ->
  avgthrust (session inputs s) = S754_nan.
Proof.
  revert s. induction inputs as [|j rest IH]; intros s Hc Ha;
    cbn [session]; [exact Ha|].
  destruct (testInProgress s) eqn:Ht; [|exact Ha].
  destruct (loop_clock_in_progress j s Ht Hc) as [_ Hc'].
  apply IH; [exact Hc'|by apply pass_avg_nan].
Qed.

Lemma pass_avg_update (i : LoopInput binary32) s :
  testInProgress s = true -> countdownstate s = false ->
  accepted s = true ->
  avgthrust (loop i s)
    = SFadd 24 128 (avgthrust s)
        (SFdiv 24 128 (SFsub 24 128 (tick_thrust (mass i)) (avgthrust s))
           (b32_of_Z (wrap (samplecount s + 1)))).
Proof.
  intros Ht Hc Ha.
  destruct (pass_accepted i s Ht Hc Ha) as (_ & _ & _ & P4 & _).
  rewrite P4. reflexivity.
Qed.

(** A thrust that is not finite: the average is infinite or NaN after
    that sample and NaN from the next accepted sample on. *)
Lemma avg_poisoned (i : LoopInput binary32) s :
  testInProgress s = true -> countdownstate s = false ->
  accepted s = true ->
  tick_thrust (mass i) = S754_infinity false \/
  tick_thrust (mass i) = S754_nan ->
  (avgthrust (loop i s) = S754_infinity false \/
   avgthrust (loop i s) = S754_nan) /\
  forall (j : LoopInput binary32) (inputs : list (LoopInput binary32)),
    testInProgress (loop i s) = true -> accepted (loop i s) = true ->
    avgthrust (session inputs (loop j (loop i s))) = S754_nan.
Proof.
  intros Ht Hc Ha Hinf.
  assert (forall k, match b32_of_Z (wrap k) with
                    | S754_zero sg | S754_infinity sg
                    | S754_finite sg _ _ => sg = false
                    | S754_nan => True
                    end) as Hshape.
  { intros k. apply b32_of_Z_shape. unfold wrap.
    apply Z.mod_pos_bound. reflexivity. }
  assert (avgthrust (loop i s) = S754_infinity false \/
          avgthrust (loop i s) = S754_nan) as H1.
  { rewrite (pass_avg_update i s Ht Hc Ha).
    apply welford_not_finite; [exact Hinf|apply Hshape]. }
  split; [exact H1|]. intros j inputs Ht1 Ha1.
  destruct (loop_clock_in_progress i s Ht Hc) as [_ Hc1].
  destruct (loop_clock_in_progress j _ Ht1 Hc1) as [_ Hc2].
  apply session_avg_nan; [exact Hc2|].
  rewrite (pass_avg_update j _ Ht1 Hc1 Ha1).
  apply welford_after_not_finite; [exact H1|apply Hshape].
Qed.

End Binary32Accumulators.


(** C8, counterexample.  Three accepted samples with 1 kg, 4e37 kg and
    1 kg on the load cell, every reading a finite binary32 number.  The
    thrust of the second sample overflows to +infinity; the running
    average is NaN after the third sample, while the mean of the three
    thrusts evaluated in binary32 is +infinity. *)
Lemma thrust_overflow_breaks_running_average :
  let big : LoopInput binary32 := tick (4 * 10 ^ 37) 1 0 in
  let inputs := [tick 1 1 0; big; tick 1 1 0] in
  let s := session inputs (fired (ratio 1 2)) in
  let ts := map fst (samples inputs (fired (ratio 1 2))) in
  value (mass big) = S754_finite false 15777218 101 /\
  samplecount s = 3 /\ length ts = 3%nat /\
  nth 1 ts f0 = S754_infinity false /\
  avgthrust s = S754_nan /\
  fdiv (fold_left fadd ts f0) (of_ulong 3) = S754_infinity false.
Proof. vm_compute. repeat split; reflexivity. Qed.

(** C8, amended.  In a burn session taken from ignition and shorter than
    the 2^32 ms counter period, on every platform the sample counter is
    the number N of accepted samples and the running average is the
    update avg += (thrust - avg) / k folded over their thrusts in the
    platform's own arithmetic.  With exact arithmetic and N >= 1 that is
    the arithmetic mean of thrust_1..thrust_N.  In binary32 a sample
    whose thrust is not finite (mass * 9.80665 overflows, or the reading
    is NaN) leaves the average infinite or NaN, and the average is NaN
    from the next accepted sample to the end of the session. *)
Theorem running_average_incremental_mean :
  (forall (F : Type) (P : Platform F) (T0 : Z) (s : State F)
          (inputs : list (LoopInput F)),
     ignited T0 s ->
     (clock (session inputs s) - T0 < 2 ^ 32)%Z ->
     samplecount (session inputs s)
       = Z.of_nat (length (samples inputs s)) /\
     avgthrust (session inputs s)
       = running_avg f0 0 (map fst (samples inputs s))) /\
  (forall (T0 : Z) (s : State Qc) (inputs : list (LoopInput Qc)),
     ignited T0 s ->
     (clock (session inputs s) - T0 < 2 ^ 32)%Z ->
     let ts := map fst (samples inputs s) in
     ts <> [] ->
     avgthrust (session inputs s)
       = (sumQc ts / Qc_of_Z (Z.of_nat (length ts)))%Qc) /\
  (forall (i : LoopInput binary32) (s : State binary32),
     testInProgress s = true -> countdownstate s = false ->
     accepted s = true ->
     tick_thrust (mass i) = S754_infinity false \/
     tick_thrust (mass i) = S754_nan ->
     (avgthrust (loop i s) = S754_infinity false \/
      avgthrust (loop i s) = S754_nan) /\
     forall (j : LoopInput binary32) (inputs : list (LoopInput binary32)),
       testInProgress (loop i s) = true -> accepted (loop i s) = true ->
       avgthrust (session inputs (loop j (loop i s))) = S754_nan).
Proof.
  destruct running_average_exact_mean as [H1 H2].
  split; [exact H1|]. split; [exact H2|].
  intros i s. apply avg_poisoned.
Qed.
Section BenchWitnesses.
Implicit Types s : State binary32.

(** ** The further properties on the bench *)

Lemma setup_ready_state_witness :
  exists (k : Z) (s : State binary32),
    setup bench_boot = Ready s /\ hx_ini s = true /\
    filename s = plt_name k /\ clock s = 1503.
Proof.
  destruct (setup_ready_state (bench_boot (F := binary32)))
    as (k & s & Hs & Hi & _ & _ & _ & Hc & Hf & _).
  - vm_compute. reflexivity.
  - vm_compute. lia.
  - reflexivity.
  - exists k, s. repeat split; assumption.
Defined.

Lemma setup_hangs_without_load_cell_or_card_witness :
  exists s : State binary32, setup dead_cell_boot = Hung s.
Proof.
  apply (proj1 (setup_hangs_without_load_cell_or_card dead_cell_boot)).
  left. vm_compute. lia.
Defined.

Lemma load_cell_flag_always_set_witness :
  hx_ini (fired (ratio 1 2 : binary32)) = true.
Proof.
  apply (load_cell_flag_always_set (fired (ratio 1 2 : binary32))).
  exists bench_boot, (press (ratio 1 2) :: replicate 1500 idle).
  eexists. split; [vm_compute; reflexivity|]. reflexivity.
Defined.

Lemma earlier_logs_never_touched_witness :
  card (run (press (ratio 1 2) :: replicate 1500 idle ++ three_ticks)
          (booted (F := binary32))) !! "0_PLT.csv" = Some [HeaderLine].
Proof.
  apply (earlier_logs_never_touched bench_boot booted).
  - vm_compute. reflexivity.
  - vm_compute. reflexivity.
Defined.

Lemma log_is_header_then_rows_witness :
  exists rs : list (Row binary32),
    session_file
      (run (press (ratio 1 2) :: replicate 1500 idle ++ three_ticks)
         (booted (F := binary32)))
    = [HeaderLine] ++ map DataLine rs.
Proof.
  apply (log_is_header_then_rows bench_boot booted).
  vm_compute. reflexivity.
Defined.

Lemma untriggered_pass_only_waits_witness :
  loop idle (booted (F := binary32)) =
    delay 10
      (if is_low (sw_first (idle (F := binary32))) then delay 50 booted
       else booted).
Proof.
  apply (untriggered_pass_only_waits idle booted).
  - split; vm_compute; reflexivity.
  - reflexivity.
Defined.

Lemma switch_ignored_while_busy_witness :
  loop pressed_tick (fired (ratio 1 2))
    = loop (tick 1 1 0) (fired (ratio 1 2 : binary32)).
Proof.
  apply (switch_ignored_while_busy (tick 1 1 0) pressed_tick).
  - vm_compute. reflexivity.
  - reflexivity.
  - reflexivity.
Defined.

Lemma countdown_runs_to_ignition_witness :
  pin_log
    (run (replicate 1499 idle)
       (loop (press (ratio 1 2)) (booted (F := binary32))))
    = pin_log (booted (F := binary32)).
Proof.
  assert (idle_state (booted (F := binary32))) as Hidle
    by (split; vm_compute; reflexivity).
  assert (length (replicate 1499 (idle (F := binary32))) <= 1499)%nat
    as Hlen by (rewrite length_replicate; lia).
  pose proof (countdown_runs_to_ignition (press (ratio 1 2))
                (replicate 1499 idle) idle (booted (F := binary32))
                Hidle eq_refl eq_refl Hlen) as Hrun.
  cbv zeta in Hrun. destruct Hrun as ((_ & _ & _ & _ & HL & _) & _).
  exact HL.
Defined.

Lemma session_logs_every_accepted_sample_witness :
  map row_thrust (logged_rows three_ticks (fired (ratio 1 2)))
    = map fst (samples three_ticks (fired (ratio 1 2))).
Proof.
  destruct (session_logs_every_accepted_sample three_ticks
              (fired (ratio 1 2 : binary32))) as (_ & _ & Ht & _).
  - vm_compute. reflexivity.
  - exact Ht.
Defined.

Lemma endBurn_acts_once_witness :
  endBurn (booted (F := binary32)) = booted.
Proof.
  apply (proj1 (endBurn_acts_once (booted (F := binary32)))).
  vm_compute. reflexivity.
Defined.

Lemma every_ignition_is_accounted_for_witness :
  high_writes (fired (ratio 1 2 : binary32)) = 1%nat.
Proof.
  destruct (every_ignition_is_accounted_for (fired (ratio 1 2 : binary32)))
    as (_ & Hh & _).
  - exists bench_boot, (press (ratio 1 2) :: replicate 1500 idle).
    eexists. split; [vm_compute; reflexivity|]. reflexivity.
  - rewrite Hh. vm_compute. reflexivity.
Defined.

Lemma one_sample_per_pass_witness :
  samplecount (session three_ticks (fired (ratio 1 2)))
    = Z.of_nat
        (passes_run three_ticks (fired (ratio 1 2))
         - (if clock (fired (ratio 1 2 : binary32)) =? 24203
            then 1 else 0)).
Proof.
  assert (ignited 24203 (fired (ratio 1 2 : binary32))) as Hig
    by (vm_compute; repeat split; try reflexivity; discriminate).
  assert (clock (session three_ticks (fired (ratio 1 2 : binary32))) - 24203
          < 2 ^ 32) as Hb by (vm_compute; reflexivity).
  pose proof (one_sample_per_pass 24203 (fired (ratio 1 2)) three_ticks
                Hig Hb) as Hrun.
  cbv zeta in Hrun. exact (proj2 Hrun).
Defined.

Lemma safety_timeout_is_exact_witness :
  burn_ended
    (loop (tick 51 10 0)
       (session [tick 51 10 60980] (fired (ratio 1 2 : binary32)))).
Proof.
  assert (ignited 24203 (fired (ratio 1 2 : binary32))) as Hig
    by (vm_compute; repeat split; try reflexivity; discriminate).
  pose proof (safety_timeout_is_exact 24203 (fired (ratio 1 2))
                [tick 51 10 60980] (tick 51 10 0) Hig) as Hrun.
  cbv zeta in Hrun.
  destruct Hrun as (_ & Hend & _); try (vm_compute; reflexivity).
  apply Hend. vm_compute. reflexivity.
Defined.

Lemma nan_reading_is_never_recovered_witness :
  impulse
    (session [tick 1 1 0]
       (loop (tick 0 0 0) (fired (ratio 1 2 : binary32)))) = S754_nan.
Proof.
  assert (testInProgress (fired (ratio 1 2 : binary32)) = true) as Ht
    by (vm_compute; reflexivity).
  assert (countdownstate (fired (ratio 1 2 : binary32)) = false) as Hc
    by (vm_compute; reflexivity).
  assert (accepted (fired (ratio 1 2 : binary32)) = true) as Ha
    by (vm_compute; reflexivity).
  assert (value (mass (tick 0 0 0)) = (S754_nan : binary32)) as Hv
    by (vm_compute; reflexivity).
  pose proof (nan_reading_is_never_recovered (tick 0 0 0)
                (fired (ratio 1 2)) [tick 1 1 0] Ht Hc Ha Hv) as Hrun.
  cbv zeta in Hrun. exact (proj1 (proj2 (proj2 (proj2 (proj2 Hrun))))).
Defined.

Lemma impulse_never_decreases_in_binary32_witness :
  valid_binary 24 128
    (impulse
       (loop (tick 4 1 0)
          (session [tick 1 1 0; tick 2 1 0] (fired (ratio 1 2 : binary32)))))
    = true.
Proof.
  assert (ignited 24203 (fired (ratio 1 2 : binary32))) as Hig
    by (vm_compute; repeat split; try reflexivity; discriminate).
  assert (Forall (fun j : LoopInput binary32 =>
                    valid_binary 24 128 (value (mass j)) = true)
            ([tick 1 1 0; tick 2 1 0] ++ [tick 4 1 0])) as Hall
    by (repeat constructor; vm_compute; reflexivity).
  assert (testInProgress
            (session [tick 1 1 0; tick 2 1 0] (fired (ratio 1 2 : binary32)))
          = true) as Ht by (vm_compute; reflexivity).
  pose proof (impulse_never_decreases_in_binary32 24203 (fired (ratio 1 2))
                [tick 1 1 0; tick 2 1 0] (tick 4 1 0) Hig Hall) as Hrun.
  cbv zeta in Hrun. exact (proj1 (Hrun Ht)).
Defined.

Lemma igniter_high_only_in_hold_window_witness :
  pin_safe (fired (ratio 1 2 : binary32)) /\
  e_match (endBurn (fired (ratio 1 2 : binary32))) = LOW /\
  all_low (pin_log (booted (F := binary32))) /\
  countdown_expires
    (run (press (ratio 1 2) :: replicate 1499 idle)
       (booted (F := binary32))) = true /\
  exists lows : list (Z * level),
    all_low lows /\
    pin_log
      (loop idle
         (run (press (ratio 1 2) :: replicate 1499 idle)
            (booted (F := binary32))))
    = pin_log
        (run (press (ratio 1 2) :: replicate 1499 idle)
           (booted (F := binary32)))
      ++ (if countdown_expires
               (run (press (ratio 1 2) :: replicate 1499 idle)
                  (booted (F := binary32)))
          then [(clock
                   (run (press (ratio 1 2) :: replicate 1499 idle)
                      (booted (F := binary32))), HIGH);
                (clock
                   (run (press (ratio 1 2) :: replicate 1499 idle)
                      (booted (F := binary32))) + 2000, LOW)]
          else [])
      ++ lows.
Proof.
  destruct (@igniter_high_only_in_hold_window binary32 _)
    as (H1 & _ & H3 & H4 & _ & H5).
  split; [|split; [|split; [|split]]].
  - apply H1. exists bench_boot, (press (ratio 1 2) :: replicate 1500 idle).
    eexists. split; [vm_compute; reflexivity|]. reflexivity.
  - apply H5. vm_compute. reflexivity.
  - apply (H3 bench_boot). left. vm_compute. reflexivity.
  - vm_compute. reflexivity.
  - apply H4.
Defined.


Lemma running_average_incremental_mean_witness :
  avgthrust
    (loop (tick (4 * 10 ^ 37) 1 0)
       (session [tick 1 1 0] (fired (ratio 1 2 : binary32))))
    = S754_infinity false \/
  avgthrust
    (loop (tick (4 * 10 ^ 37) 1 0)
       (session [tick 1 1 0] (fired (ratio 1 2 : binary32))))
    = S754_nan.
Proof.
  destruct running_average_incremental_mean as (_ & _ & H3).
  apply (H3 (tick (4 * 10 ^ 37) 1 0)
            (session [tick 1 1 0] (fired (ratio 1 2 : binary32)))).
  - vm_compute. reflexivity.
  - vm_compute. reflexivity.
  - vm_compute. reflexivity.
  - left. vm_compute. reflexivity.
Defined.

End BenchWitnesses.
(** * The e-match continuity tester *)

Section ContinuityFacts.
Import Continuity.

Lemma pretty_N_char_no_comma (d : N) (s : string) :
  has_comma (String (pretty_N_char d) s) = has_comma s.
Proof. unfold pretty_N_char. by repeat case_match. Qed.

Lemma has_comma_app (a b : string) :
  has_comma (a +:+ b) = has_comma a || has_comma b.
Proof.
  induction a as [|c a IH]; [reflexivity|].
  change (String c a +:+ b) with (String c (a +:+ b)).
  cbn [has_comma]. by rewrite IH, orb_assoc.
Qed.

Lemma pretty_N_go_no_comma (x : N) (s : string) :
  has_comma s = false -> has_comma (pretty_N_go x s) = false.
Proof.
  revert s. induction (N.lt_wf_0 x) as [x _ IH]; intros s Hs.
  destruct (decide (x = 0%N)) as [->|Hx]; [by rewrite pretty_N_go_0|].
  rewrite pretty_N_go_step by lia. apply IH.
  - apply N.div_lt; lia.
  - by rewrite pretty_N_char_no_comma.
Qed.

Lemma pretty_Z_no_comma (z : Z) : has_comma (pretty z) = false.
Proof.
  assert (forall p : positive, has_comma (pretty (N.pos p)) = false) as Hp.
  { intros p. unfold pretty, pretty_N. rewrite decide_False by done.
    by apply pretty_N_go_no_comma. }
  destruct z as [|p|p]; [reflexivity|apply Hp|].
  change (has_comma ("-" +:+ pretty (N.pos p)) = false).
  by rewrite has_comma_app, Hp.
Qed.

(** Text without a comma, then a comma: the split is unique. *)
Lemma split_at_comma (a a' b b' : string) :
  has_comma a = false -> has_comma a' = false ->
  a +:+ String comma b = a' +:+ String comma b' -> a = a' /\ b = b'.
Proof.
  revert a'. induction a as [|c a IH]; intros [|c' a'] Ha Ha' E.
  - change (String comma b = String comma b') in E. by injection E.
  - change (String comma b = String c' (a' +:+ String comma b')) in E.
    injection E as E _. subst c'. cbn [has_comma] in Ha'.
    by rewrite Ascii.eqb_refl in Ha'.
  - change (String c (a +:+ String comma b) = String comma b') in E.
    injection E as E _. subst c. cbn [has_comma] in Ha.
    by rewrite Ascii.eqb_refl in Ha.
  - change (String c (a +:+ String comma b)
            = String c' (a' +:+ String comma b')) in E.
    injection E as -> E. cbn [has_comma] in Ha, Ha'.
    apply orb_false_iff in Ha as [_ Ha].
    apply orb_false_iff in Ha' as [_ Ha'].
    by destruct (IH a' Ha Ha' E) as [-> ->].
Qed.

Lemma csv_inj (a b a' b' : Z) : csv a b = csv a' b' -> a = a' /\ b = b'.
Proof.
  unfold csv. intros E.
  change ("," +:+ ?x) with (String comma x) in E.
  apply split_at_comma in E as [Ea Eb]; try apply pretty_Z_no_comma.
  split; by apply (inj pretty).
Qed.

Lemma level_int_inj (v w : level) : level_int v = level_int w -> v = w.
Proof. by destruct v, w. Qed.

Lemma lines_inj (i j : Input) : lines i = lines j -> i = j.
Proof.
  unfold lines. intros [= E1 E2].
  apply csv_inj in E1 as [E11 E12]. apply csv_inj in E2 as [E21 E22].
  apply level_int_inj in E21, E22.
  destruct i, j; cbn in *; congruence.
Qed.

Lemma run_console (inputs : list Input) (s : State) :
  console (run inputs s) = console s ++ concat (map lines inputs) /\
  clock (run inputs s) = clock s + 100 * Z.of_nat (length inputs).
Proof.
  unfold run. revert s.
  induction inputs as [|i rest IH]; intros s; cbn [fold_left map concat length].
  - rewrite app_nil_r. split; [reflexivity|lia].
  - destruct (IH (loop i s)) as [IHc IHk]. rewrite IHc, IHk. split.
    + cbn. by rewrite <- !app_assoc.
    + cbn [loop delay clock trigger continuity]. lia.
Qed.

Lemma concat_lines_inj (xs ys : list Input) :
  concat (map lines xs) = concat (map lines ys) -> xs = ys.
Proof.
  revert ys. induction xs as [|x xs IH]; intros [|y ys];
    cbn [map concat]; try discriminate; [done|].
  unfold lines at 1 3. cbn [app]. intros [= E1 E2 E].
  f_equal; [|by apply IH].
  apply lines_inj. unfold lines. by rewrite E1, E2.
Qed.

(** The continuity tester's output is a faithful record of what it read:
    [n] passes of its [loop] print exactly 2 [n] lines (the continuity
    pair, then the trigger pair, of each pass in turn) and take 100 [n]
    ms, and two runs from the same state that print the same text have
    read the same values on every pass. *)
Theorem continuity_output_is_faithful
    (inputs inputs' : list Input) (s : State) :
  console (run inputs s) = console s ++ concat (map lines inputs) /\
  length (console (run inputs s))
    = (length (console s) + 2 * length inputs)%nat /\
  clock (run inputs s) = clock s + 100 * Z.of_nat (length inputs) /\
  (console (run inputs s) = console (run inputs' s) -> inputs = inputs').
Proof.
  destruct (run_console inputs s) as [Hc Hk].
  destruct (run_console inputs' s) as [Hc' _].
  split; [exact Hc|]. split; [|split; [exact Hk|]].
  - rewrite Hc, length_app. f_equal.
    clear. induction inputs as [|i rest IH]; [reflexivity|].
    cbn [map concat length]. rewrite length_app, IH. cbn [lines length]. lia.
  - rewrite Hc, Hc'. intros E%app_inv_head. by apply concat_lines_inj.
Qed.

Lemma continuity_output_is_faithful_witness :
  console
    (run [ {| analog1 := 4095; analog2 := 0;
              digital3 := HIGH; digital4 := LOW |} ] setup)
  = ["4095,0"; "1,0"].
Proof.
  destruct (continuity_output_is_faithful
              [ {| analog1 := 4095; analog2 := 0;
                   digital3 := HIGH; digital4 := LOW |} ] [] setup)
    as (Hc & _).
  rewrite Hc. vm_compute. reflexivity.
Defined.

End ContinuityFacts.
